(** * StockQuest: quote normalisation, team builder and portfolio ledger

    A shallow embedding of the client-side logic of the StockQuest
    fantasy stock game ([frontend/js/app.js], [frontend/js/stockquest.js],
    [frontend/js/firestore.js]) together with the properties of its
    behavioural contract.

    Modelling conventions

    - A JavaScript number is a value of [num]: [NaN], the two infinities,
      or a finite value kept as an exact rational.  Rounding of IEEE
      doubles and the negative zero are not represented.
    - A JavaScript string is its list of UTF-16 code units ([jsstring]).
    - A JSON payload is a [value]; an object is the association list of
      its own properties.
    - Handlers that mutate the global [state] object become functions on
      an explicit record; the toasts they show are returned as a list.
      The elements of the page the handlers look up are taken to exist.
    - An [async] function is the sequence of its segments between two
      [await]s; the settlement of an awaited store call is an input of
      the next segment.
    - [Date.now()] is an explicit argument of the functions that read it. *)

From Stdlib Require Import ZArith NArith QArith Qreduction List String Ascii Bool Lia.
From Stdlib Require DecimalString.
Import ListNotations.

Close Scope Q_scope.
Open Scope list_scope.

(* ================================================================== *)
(** ** JavaScript numbers *)
(* ================================================================== *)

Inductive num : Type :=
| NaN
| Inf (negative : bool)
| Fin (q : Q).

Definition Qltb (x y : Q) : bool := negb (Qle_bool y x).

Definition Qsignb (q : Q) : comparison := (Qnum q ?= 0)%Z.

(** [a + b] *)
Definition num_add (a b : num) : num :=
  match a, b with
  | NaN, _ | _, NaN => NaN
  | Inf s, Inf t => if Bool.eqb s t then Inf s else NaN
  | Inf s, Fin _ | Fin _, Inf s => Inf s
  | Fin x, Fin y => Fin (Qred (x + y))
  end.

(** [a - b] *)
Definition num_sub (a b : num) : num :=
  match a, b with
  | NaN, _ | _, NaN => NaN
  | Inf s, Inf t => if Bool.eqb s t then NaN else Inf s
  | Inf s, Fin _ => Inf s
  | Fin _, Inf s => Inf (negb s)
  | Fin x, Fin y => Fin (Qred (x - y))
  end.

(** [a * b] *)
Definition num_mul (a b : num) : num :=
  match a, b with
  | NaN, _ | _, NaN => NaN
  | Inf s, Inf t => Inf (xorb s t)
  | Inf s, Fin q | Fin q, Inf s =>
      match Qsignb q with
      | Eq => NaN
      | Gt => Inf s
      | Lt => Inf (negb s)
      end
  | Fin x, Fin y => Fin (Qred (x * y))
  end.

(** [a < b]; every comparison with [NaN] is false. *)
Definition num_ltb (a b : num) : bool :=
  match a, b with
  | NaN, _ | _, NaN => false
  | Inf s, Inf t => s && negb t
  | Inf s, Fin _ => s
  | Fin _, Inf t => negb t
  | Fin x, Fin y => Qltb x y
  end.

(** [a > b] *)
Definition num_gtb (a b : num) : bool := num_ltb b a.

(** ToBoolean on a number: [0] and [NaN] are falsy. *)
Definition num_truthy (a : num) : bool :=
  match a with
  | NaN => false
  | Inf _ => true
  | Fin q => negb (Qeq_bool q 0)
  end.

(** [a || 0] on a number *)
Definition num_or0 (a : num) : num :=
  if num_truthy a then a else Fin 0.

Definition num_of_Z (z : Z) : num := Fin (inject_Z z).

Coercion num_of_Z : Z >-> num.

(* ================================================================== *)
(** ** JavaScript strings *)
(* ================================================================== *)

(** A string is its sequence of UTF-16 code units. *)
Definition jsstring : Type := list N.

(** An ASCII literal as a string. *)
Fixpoint str (s : string) : jsstring :=
  match s with
  | EmptyString => []
  | String c s' => N_of_ascii c :: str s'
  end.

Definition jsstring_eqb (a b : jsstring) : bool :=
  if list_eq_dec N.eq_dec a b then true else false.

(** U+20B9, the rupee sign. *)
Definition rupee : N := 8377%N.

(** The regular-expression class [\s] (WhiteSpace and LineTerminator),
    which is also what [trim] and [parseFloat] skip. *)
Definition is_space (c : N) : bool :=
  (N.eqb c 9 || N.eqb c 10 || N.eqb c 11 || N.eqb c 12 || N.eqb c 13
   || N.eqb c 32 || N.eqb c 160 || N.eqb c 5760
   || (N.leb 8192 c && N.leb c 8202)
   || N.eqb c 8232 || N.eqb c 8233 || N.eqb c 8239 || N.eqb c 8287
   || N.eqb c 12288 || N.eqb c 65279)%N%bool.

Definition is_digit (c : N) : bool := (N.leb 48 c && N.leb c 57)%N.

Definition digit_val (c : N) : Z := (Z.of_N c - 48)%Z.

(** [s.replace(/[...]/g, '')] for a character class given as a predicate. *)
Definition remove_class (cls : N -> bool) (s : jsstring) : jsstring :=
  filter (fun c => negb (cls c)) s.

Fixpoint drop_spaces (s : jsstring) : jsstring :=
  match s with
  | c :: s' => if is_space c then drop_spaces s' else s
  | [] => []
  end.

(** [s.trim()] *)
Definition trim (s : jsstring) : jsstring :=
  rev (drop_spaces (rev (drop_spaces s))).

(** Case mapping of one code unit.  Only the ASCII letters are mapped;
    the mappings of the letters outside ASCII, some of which change the
    length of the string, are not modelled, and such a code unit is left
    as it is: the two functions below are those of the code on the
    strings of ASCII code units. *)
Definition lower_unit (c : N) : N :=
  if (N.leb 65 c && N.leb c 90)%N then (c + 32)%N else c.

Definition upper_unit (c : N) : N :=
  if (N.leb 97 c && N.leb c 122)%N then (c - 32)%N else c.

(** [s.toLowerCase()] and [s.toUpperCase()], on the ASCII letters. *)
Definition toLowerCase (s : jsstring) : jsstring := map lower_unit s.
Definition toUpperCase (s : jsstring) : jsstring := map upper_unit s.

Fixpoint starts_with (p s : jsstring) : bool :=
  match p, s with
  | [], _ => true
  | _ :: _, [] => false
  | a :: p', b :: s' => N.eqb a b && starts_with p' s'
  end.

(** [s.includes(p)] *)
Fixpoint includes (p s : jsstring) : bool :=
  starts_with p s ||
  match s with
  | [] => false
  | _ :: s' => includes p s'
  end.

(** [s.replace(/p/i, '')]: the first match of the literal [p], compared
    without regard to ASCII case, is removed. *)
Fixpoint remove_first_ci (p s : jsstring) : jsstring :=
  if starts_with (toLowerCase p) (toLowerCase s) then skipn (List.length p) s
  else match s with
       | [] => []
       | c :: s' => c :: remove_first_ci p s'
       end.

(** [s.substring(0, n)] *)
Definition substring0 (n : nat) (s : jsstring) : jsstring := firstn n s.

(* ------------------------------------------------------------------ *)
(** *** [parseFloat] on a string *)

Local Open Scope Z_scope.

Fixpoint span_digits (s : jsstring) : jsstring * jsstring :=
  match s with
  | c :: s' =>
      if is_digit c then let (d, r) := span_digits s' in (c :: d, r)
      else ([], s)
  | [] => ([], [])
  end.

Definition digits_to_Z (d : jsstring) : Z :=
  fold_left (fun acc c => acc * 10 + digit_val c) d 0.

(** The optional [ExponentPart]: [e] or [E], an optional sign, and at
    least one digit; otherwise nothing is consumed. *)
Definition parse_exponent (s : jsstring) : Z :=
  match s with
  | c :: s' =>
      if (N.eqb c 101 || N.eqb c 69)%N then
        let '(neg, s'') :=
          match s' with
          | x :: t => if N.eqb x 45 then (true, t)
                      else if N.eqb x 43 then (false, t) else (false, s')
          | [] => (false, s')
          end in
        let (d, _) := span_digits s'' in
        match d with
        | [] => 0
        | _ => if neg then - digits_to_Z d else digits_to_Z d
        end
      else 0
  | [] => 0
  end.

(** [m * 10^e] as a reduced rational. *)
Definition scale10 (m e : Z) : Q :=
  if (0 <=? e) then inject_Z (m * 10 ^ e)
  else Qred (Qmake m (Z.to_pos (10 ^ (- e)))).

(** The longest prefix that is a [StrUnsignedDecimalLiteral]. *)
Definition parse_unsigned (s : jsstring) : option Q :=
  if starts_with (str "Infinity") s then None
  else
    let (ip, r) := span_digits s in
    let '(fp, r') :=
      match r with
      | c :: t => if N.eqb c 46 then span_digits t else ([], r)
      | [] => ([], r)
      end in
    match ip, fp with
    | [], [] => None
    | _, _ =>
        let m := digits_to_Z (ip ++ fp) in
        let e := parse_exponent r' in
        Some (scale10 m (e - Z.of_nat (List.length fp)))
    end.

Definition parseFloat_unsigned (neg : bool) (s : jsstring) : num :=
  if starts_with (str "Infinity") s then Inf neg
  else match parse_unsigned s with
       | Some q => Fin (if neg then Qred (- q) else q)
       | None => NaN
       end.

(** [parseFloat(s)] for a string [s].  The value read is kept exact; it
    is the double the code returns whenever the number written is
    itself a double (an integer up to 2^53, or a fraction such as 1.5),
    and the statements about all strings of some shape say so. *)
Definition parseFloat_str (s : jsstring) : num :=
  match drop_spaces s with
  | c :: t =>
      if N.eqb c 45 then parseFloat_unsigned true t
      else if N.eqb c 43 then parseFloat_unsigned false t
      else parseFloat_unsigned false (c :: t)
  | [] => NaN
  end.

Local Close Scope Z_scope.

(* ================================================================== *)
(** ** JSON values *)
(* ================================================================== *)

#[warnings="-register-all"]
Inductive value : Type :=
| VUndefined
| VNull
| VBool (b : bool)
| VNum (n : num)
| VStr (s : jsstring)
| VArr (elems : list value)
| VObj (fields : list (string * value)).

(** ToBoolean *)
Definition truthy (v : value) : bool :=
  match v with
  | VUndefined | VNull => false
  | VBool b => b
  | VNum n => num_truthy n
  | VStr s => match s with [] => false | _ => true end
  | VArr _ | VObj _ => true
  end.

(** [a || b] *)
Definition jor (a b : value) : value := if truthy a then a else b.

Fixpoint lookup (k : string) (fs : list (string * value)) : value :=
  match fs with
  | [] => VUndefined
  | (k', v) :: fs' => if String.eqb k k' then v else lookup k fs'
  end.

(** [v.k] for the property names the program reads: an own property of
    an object, [undefined] on every other value (none of the names read
    exists on a string, an array or their prototypes). *)
Definition get (v : value) (k : string) : value :=
  match v with
  | VObj fs => lookup k fs
  | _ => VUndefined
  end.

Declare Scope js_scope.
Delimit Scope js_scope with js.
Bind Scope js_scope with value.
Notation "v .[ k ]" := (get v k%string) (at level 1, left associativity, format "v .[ k ]") : js_scope.
Notation "a || b" := (jor a b) : js_scope.

(** [parseFloat(v)]: the argument is converted with ToString and the
    longest numeric prefix is read.  On a number the two steps are the
    identity; [true], [null], [undefined] and [[object Object]] have no
    numeric prefix; an array prints as its elements joined by commas, so
    only its first element can contribute. *)
Fixpoint parseFloat (v : value) : num :=
  match v with
  | VNum n => n
  | VStr s => parseFloat_str s
  | VArr (x :: _) => parseFloat x
  | VArr [] => NaN
  | VUndefined | VNull | VBool _ | VObj _ => NaN
  end.

Definition ustr (s : string) : value := VStr (str s).
Definition unum (z : Z) : value := VNum (num_of_Z z).

(* ================================================================== *)
(** ** Exceptions and helpers shared by the normalisers *)
(* ================================================================== *)

(** A call either returns or throws a [TypeError]. *)
Inductive outcome (A : Type) : Type :=
| Return (a : A)
| Throw.
Arguments Return {A} a.
Arguments Throw {A}.

Definition bind {A B : Type} (m : outcome A) (k : A -> outcome B) : outcome B :=
  match m with
  | Return a => k a
  | Throw => Throw
  end.

Notation "x <- m ;; k" := (bind m (fun x => k))
  (at level 61, m at next level, right associativity).

(** [xs.map((x, i) => f i x)], stopping at the first exception. *)
Fixpoint map_outcome {A B : Type} (f : nat -> A -> outcome B) (i : nat) (xs : list A)
  : outcome (list B) :=
  match xs with
  | [] => Return []
  | x :: xs' =>
      y <- f i x ;;
      ys <- map_outcome f (S i) xs' ;;
      Return (y :: ys)
  end.

(** The elements of an array that are not [null]. *)
Fixpoint somes {A : Type} (l : list (option A)) : list A :=
  match l with
  | [] => []
  | Some a :: l' => a :: somes l'
  | None :: l' => somes l'
  end.

(** [v === s] for a string literal [s]. *)
Definition strict_eq_str (v : value) (s : jsstring) : bool :=
  match v with
  | VStr t => jsstring_eqb t s
  | _ => false
  end.

(** [name.substring(0, 6).toUpperCase().replace(/\s/g, '')]; a value
    that is not a string has no [substring] method. *)
Definition derive_symbol (name : value) : outcome value :=
  match name with
  | VStr s => Return (VStr (remove_class is_space (toUpperCase (substring0 6 s))))
  | _ => Throw
  end.

(** [String(v)] on the primitive values that are neither numbers nor
    strings. *)
Definition keyword (v : value) : jsstring :=
  match v with
  | VBool true => str "true"
  | VBool false => str "false"
  | VNull => str "null"
  | _ => str "undefined"
  end.

(* ================================================================== *)
(** ** Iteration, filtering and printing shared by the pages *)
(* ================================================================== *)

Definition is_high_surrogate (c : N) : bool := (N.leb 55296 c && N.leb c 56319)%N.
Definition is_low_surrogate (c : N) : bool := (N.leb 56320 c && N.leb c 57343)%N.

(** The strings a string iterator yields: one per code point, a
    surrogate pair staying together. *)
Fixpoint code_points (s : jsstring) : list jsstring :=
  match s with
  | [] => []
  | a :: t =>
      match t with
      | b :: t' =>
          if is_high_surrogate a && is_low_surrogate b
          then [a; b] :: code_points t'
          else [a] :: code_points t
      | [] => [[a]]
      end
  end.

(** [[...v]]: the elements of an array, the code points of a string; no
    other JSON value is iterable. *)
Definition spread (v : value) : outcome (list value) :=
  match v with
  | VArr xs => Return xs
  | VStr s => Return (map VStr (code_points s))
  | _ => Throw
  end.

(** [xs.filter(p)] for a predicate that may throw. *)
Fixpoint filter_outcome {A : Type} (p : A -> outcome bool) (xs : list A)
  : outcome (list A) :=
  match xs with
  | [] => Return []
  | x :: xs' =>
      b <- p x ;;
      ys <- filter_outcome p xs' ;;
      Return (if b then x :: ys else ys)
  end.

(** [String(n)] for a natural number. *)
Definition decimal (n : nat) : jsstring :=
  str (DecimalString.NilZero.string_of_uint (Nat.to_uint n)).

(** [v.toLowerCase().includes(q)]; only a string has the method. *)
Definition lower_includes (v : value) (q : jsstring) : outcome bool :=
  match v with
  | VStr s => Return (includes q (toLowerCase s))
  | _ => Throw
  end.

(* ================================================================== *)
(** ** The team builder: data shared by app.js and stockquest.js *)
(* ================================================================== *)

(** What the team builder reads of a catalogue entry.  The handlers
    receive the symbol as a string (it is written into an [onclick]
    attribute), so only entries whose symbol is a string can be found. *)
Record Stock : Type := mkStock {
  symbol : jsstring;
  name : jsstring;
  price : num
}.

Inductive ToastType : Type := success | error | info.

Record Toast : Type := mkToast {
  message : jsstring;
  type : ToastType
}.

(** [showToast(message, type)]: one toast is appended to the container. *)
Definition showToast (message : string) (type : ToastType) : list Toast :=
  [mkToast (str message) type].

(** [showToast(`${name} ...`, type)] *)
Definition showToast_named (name : jsstring) (suffix : string) (type : ToastType)
  : list Toast :=
  [mkToast (name ++ str suffix) type].

(** [state.maxStocks] and [state.minStocks]; neither is ever assigned. *)
Definition maxStocks : nat := 11.
Definition minStocks : nat := 5.

(** [s => s.symbol === symbol] *)
Definition has_symbol (sym : jsstring) (s : Stock) : bool :=
  jsstring_eqb (symbol s) sym.

(** [role === symbol] for a role that is [null] or a symbol. *)
Definition role_is (role : option jsstring) (sym : jsstring) : bool :=
  match role with
  | Some r => jsstring_eqb r sym
  | None => false
  end.

(** ToBoolean on a role: [null] and the empty string are falsy. *)
Definition role_set (role : option jsstring) : bool :=
  match role with
  | Some (_ :: _) => true
  | _ => false
  end.

(** [if (role === symbol) role = null] *)
Definition clear_role (role : option jsstring) (sym : jsstring) : option jsstring :=
  if role_is role sym then None else role.

(** [xs.splice(xs.findIndex(p), 1)] when the index is found. *)
Fixpoint splice_first (p : Stock -> bool) (xs : list Stock) : list Stock :=
  match xs with
  | [] => []
  | x :: xs' => if p x then xs' else x :: splice_first p xs'
  end.

(** [selectedStocks.reduce((sum, s) => sum + (s.price * 10), 0)] *)
Definition totalCost (selectedStocks : list Stock) : num :=
  fold_left (fun sum s => num_add sum (num_mul (price s) 10%Z)) selectedStocks (Fin 0).

(** [{symbol: s.symbol, name: s.name, price: s.price, quantity: 10}] *)
Record Holding : Type := mkHolding {
  held : Stock;
  quantity : Z
}.

Definition holdings (selectedStocks : list Stock) : list Holding :=
  map (fun s => mkHolding (mkStock (symbol s) (name s) (price s)) 10) selectedStocks.

(** [n < 0] *)
Definition negative (n : num) : bool := num_ltb n 0%Z.

(* ================================================================== *)
(** ** app.js *)
(* ================================================================== *)

Module App.

(** *** [utils]: the quote normaliser *)

Module utils.

(** The class of [parseNum]: the rupee sign, the comma, [%], [+] and [\s]. *)
Definition decoration (c : N) : bool :=
  (N.eqb c rupee || N.eqb c 44 || N.eqb c 37 || N.eqb c 43 || is_space c)%N%bool.

(** [parseNum] of [utils.parseStock] (app.js, lines 110-115). *)
Definition parseNum (val : value) : num :=
  if negb (truthy val) then Fin 0
  else match val with
       | VNum n => n
       | VObj _ | VArr _ | VNull =>
           parseFloat (val.["value"] || val.["price"] || val.["ltp"] || unum 0)%js
       | VStr s => num_or0 (parseFloat_str (remove_class decoration s))
       | v => num_or0 (parseFloat_str (remove_class decoration (keyword v)))
       end.

(** The record built by [utils.parseStock].  The field [id] is the
    string [symbol + '_' + Date.now()], kept as its two components. *)
Record Quote : Type := mkQuote {
  id : value * Z;
  name : value;
  symbol : value;
  price : num;
  change : num;
  volume : num;
  high : num;
  low : num;
  marketCap : num;
  pe : num;
  high52 : num;
  low52 : num;
  sector : value;
  raw : value
}.

(** [utils.parseStock(raw)] (app.js, lines 99-133); [now] is the
    reading of [Date.now()]. *)
Definition parseStock (now : Z) (raw : value) : outcome (option Quote) :=
  if negb (truthy raw) then Return None
  else
    let name := (raw.["company_name"] || raw.["companyName"] || raw.["name"] ||
                 raw.["longName"] || raw.["shortName"] || raw.["stock_name"] ||
                 raw.["scrip_name"] || raw.["symbol"] || ustr "Unknown")%js in
    let given := (raw.["symbol"] || raw.["ticker"] || raw.["nseSymbol"] ||
                  raw.["bseSymbol"] || raw.["stock_id"])%js in
    symbol <- (if truthy given then Return given else derive_symbol name) ;;
    Return (Some {|
      id := (symbol, now);
      name := name;
      symbol := symbol;
      price := parseNum (raw.["currentPrice"] || raw.["current_price"] || raw.["price"] ||
                         raw.["ltp"] || raw.["lastPrice"] || raw.["close"] || unum 0)%js;
      change := parseNum (raw.["pChange"] || raw.["change_percent"] ||
                          raw.["changePercent"] || raw.["percent_change"] || unum 0)%js;
      volume := parseNum (raw.["volume"] || raw.["tradedVolume"] ||
                          raw.["totalTradedVolume"] || unum 0)%js;
      high := parseNum (raw.["high"] || raw.["dayHigh"] || unum 0)%js;
      low := parseNum (raw.["low"] || raw.["dayLow"] || unum 0)%js;
      marketCap := parseNum (raw.["marketCap"] || raw.["market_cap"] || unum 0)%js;
      pe := parseNum (raw.["pe"] || raw.["peRatio"] || unum 0)%js;
      high52 := parseNum (raw.["high52"] || raw.["week52High"] || raw.["yearHigh"] || unum 0)%js;
      low52 := parseNum (raw.["low52"] || raw.["week52Low"] || raw.["yearLow"] || unum 0)%js;
      sector := (raw.["sector"] || raw.["industry"] || ustr "")%js;
      raw := raw
    |}).

(** A result with the clock reading of its [id] replaced by [now]. *)
Definition restamp (now : Z) (r : outcome (option Quote)) : outcome (option Quote) :=
  match r with
  | Return (Some q) =>
      Return (Some (mkQuote (fst (id q), now) (name q) (symbol q) (price q) (change q)
                            (volume q) (high q) (low q) (marketCap q) (pe q)
                            (high52 q) (low52 q) (sector q) (raw q)))
  | _ => r
  end.

End utils.

(** *** [showStockDetail]: the numeric resolver of the detail modal *)

Module ShowStockDetail.

(** The class of the modal's [parseNum] under the flags [gi]: the rupee
    sign, the comma, [%], [+], [\s] and the letters [C] and [r], each
    letter in either case. *)
Definition decoration_ci (c : N) : bool :=
  (N.eqb c rupee || N.eqb c 44 || N.eqb c 37 || N.eqb c 43 || is_space c
   || N.eqb (upper_unit c) 67 || N.eqb (upper_unit c) 82)%N%bool.

(** The string branch of [parseNum] (app.js, lines 651-658). *)
Definition parseNum_string (s : jsstring) : num :=
  let str_ := trim (remove_class decoration_ci s) in
  if includes (str "cr") (toLowerCase str_) then
    num_mul (parseFloat_str (remove_first_ci (str "cr") str_)) 10000000%Z
  else if includes (str "l") (toLowerCase str_) then
    num_mul (parseFloat_str (remove_first_ci (str "l") str_)) 100000%Z
  else num_or0 (parseFloat_str str_).

(** [parseNum] of [showStockDetail] (app.js, lines 645-659). *)
Definition parseNum (val : value) : num :=
  if negb (truthy val) then Fin 0
  else match val with
       | VNum n => n
       | VObj _ | VArr _ | VNull =>
           parseFloat (val.["value"] || val.["raw"] || val.["amount"]
                       || val.["price"] || val.["ltp"] || unum 0)%js
       | VStr s => parseNum_string s
       | v => parseNum_string (keyword v)
       end.

End ShowStockDetail.

(** *** [loadStocks] *)

(** The predicate of the [filter] in [loadStocks]:
    [s => s && s.name !== 'Unknown']. *)
Definition listed (s : option utils.Quote) : bool :=
  match s with
  | Some q => negb (strict_eq_str (utils.name q) (str "Unknown"))
  | None => false
  end.

(** The value [loadStocks] assigns to [state.stocks] (app.js, line 218):
    [stocks.map(s => utils.parseStock(s)).filter(s => s && s.name !== 'Unknown')].
    [clock i] is the reading of [Date.now()] in the call on the element
    of index [i]. *)
Definition loadStocks_stocks (clock : nat -> Z) (stocks : list value)
  : outcome (list utils.Quote) :=
  parsed <- map_outcome (fun i s => utils.parseStock (clock i) s) 0 stocks ;;
  Return (somes (filter listed parsed)).

(** *** The [state] object, the page and the store *)

Record User : Type := mkUser {
  uid : jsstring;
  displayName : value
}.

Record State : Type := mkState {
  user : option User;
  stocks : list Stock;
  filteredStocks : list Stock;
  selectedStocks : list Stock;
  captain : option jsstring;
  viceCaptain : option jsstring;
  balance : num
}.

(** The document [Database.createPortfolio] adds (firestore.js, lines
    30-44); [createdAt] is filled in by the server. *)
Record PortfolioDoc : Type := mkPortfolioDoc {
  userId : jsstring;
  doc_stocks : list Holding;
  doc_captain : option jsstring;
  doc_viceCaptain : option jsstring;
  invested : num;
  currentValue : num;
  returns : num;
  points : num;
  status : jsstring
}.

(** The collections of the document store, as the writes it has
    acknowledged: the portfolio documents in the order of their
    creation, and the latest balance and leaderboard entry per user id
    first. *)
Record Store : Type := mkStore {
  portfolios : list PortfolioDoc;
  users : list (jsstring * num);
  leaderboard : list (jsstring * (value * num))
}.

(** [state], whether [window.Database] is defined, the store, and the
    [disabled] flag of the button [createPortfolioBtn]. *)
Record World : Type := mkWorld {
  state : State;
  database : bool;
  db : Store;
  createBtnDisabled : bool
}.

Definition set_state (w : World) (s : State) : World :=
  mkWorld s (database w) (db w) (createBtnDisabled w).

Definition set_db (w : World) (d : Store) : World :=
  mkWorld (state w) (database w) d (createBtnDisabled w).

Definition set_selection (s : State) (sel : list Stock)
  (cap vc : option jsstring) : State :=
  mkState (user s) (stocks s) (filteredStocks s) sel cap vc (balance s).

Definition set_balance (s : State) (b : num) : State :=
  mkState (user s) (stocks s) (filteredStocks s) (selectedStocks s)
          (captain s) (viceCaptain s) b.

(** [canCreate] of [renderTeamList] (app.js, line 382). *)
Definition canCreate (s : State) : bool :=
  (minStocks <=? List.length (selectedStocks s))%nat
  && role_set (captain s) && role_set (viceCaptain s).

(** [renderTeamList()]: what it does to the button (app.js, lines
    339-385). *)
Definition renderTeamList (w : World) : World :=
  mkWorld (state w) (database w) (db w)
    (match selectedStocks (state w) with
     | [] => true
     | _ => negb (canCreate (state w))
     end).

(** [state.stocks.find(s => s.symbol === symbol) ||
     state.filteredStocks.find(s => s.symbol === symbol)] *)
Definition find_stock (s : State) (sym : jsstring) : option Stock :=
  match find (has_symbol sym) (stocks s) with
  | Some stock => Some stock
  | None => find (has_symbol sym) (filteredStocks s)
  end.

(** *** Stock actions (app.js, lines 423-508) *)

Definition addStock (sym : jsstring) (w : World) : World * list Toast :=
  let s := state w in
  match find_stock s sym with
  | None => (w, [])
  | Some stock =>
      if (maxStocks <=? List.length (selectedStocks s))%nat then
        (w, showToast "Maximum 11 stocks allowed" error)
      else if existsb (has_symbol sym) (selectedStocks s) then
        (w, showToast "Stock already selected" error)
      else
        (renderTeamList
           (set_state w (set_selection s (selectedStocks s ++ [stock])
                                       (captain s) (viceCaptain s))),
         showToast_named (name stock) " added" success)
  end.

Definition removeStock (sym : jsstring) (w : World) : World * list Toast :=
  let s := state w in
  match find (has_symbol sym) (selectedStocks s) with
  | Some stock =>
      (renderTeamList
         (set_state w (set_selection s (splice_first (has_symbol sym) (selectedStocks s))
                                     (clear_role (captain s) sym)
                                     (clear_role (viceCaptain s) sym))),
       showToast_named (name stock) " removed" info)
  | None => (w, [])
  end.

Definition toggleStock (sym : jsstring) (w : World) : World * list Toast :=
  match find_stock (state w) sym with
  | None => (w, [])
  | Some _ =>
      if existsb (has_symbol sym) (selectedStocks (state w))
      then removeStock sym w
      else addStock sym w
  end.

Definition clearTeam (w : World) : World * list Toast :=
  (renderTeamList (set_state w (set_selection (state w) [] None None)),
   showToast "Team cleared" info).

(** [s => s.symbol !== role] *)
Definition not_role (role : option jsstring) (s : Stock) : bool :=
  negb (role_is role (symbol s)).

Definition selectCaptain (w : World) : World * list Toast :=
  let s := state w in
  if (List.length (selectedStocks s) <? 1)%nat then (w, showToast "Add stocks first" error)
  else match find (not_role (viceCaptain s)) (selectedStocks s) with
       | Some available =>
           (renderTeamList
              (set_state w (set_selection s (selectedStocks s)
                                          (Some (symbol available)) (viceCaptain s))),
            showToast_named (name available) " is now Captain" success)
       | None => (w, [])
       end.

Definition selectViceCaptain (w : World) : World * list Toast :=
  let s := state w in
  if (List.length (selectedStocks s) <? 2)%nat then
    (w, showToast "Add at least 2 stocks" error)
  else match find (not_role (captain s)) (selectedStocks s) with
       | Some available =>
           (renderTeamList
              (set_state w (set_selection s (selectedStocks s)
                                          (captain s) (Some (symbol available)))),
            showToast_named (name available) " is now Vice Captain" success)
       | None => (w, [])
       end.

(** *** Portfolio creation (app.js, lines 754-834) *)

(** [Database.createPortfolio(uid, portfolioData)]: the document added
    to the collection [portfolios]. *)
Definition Database_createPortfolio (uid : jsstring) (stocks : list Holding)
  (captain viceCaptain : option jsstring) (invested : num) : PortfolioDoc :=
  mkPortfolioDoc uid stocks captain viceCaptain invested invested 0%Z 0%Z (str "active").

(** How an awaited store call settles. *)
Inductive Settled : Type :=
| Resolved
| Rejected (message : jsstring).

(** A suspended [createPortfolio]: the store call it awaits, with the
    local [totalCost] where the rest of the function still reads it. *)
Inductive Pending : Type :=
| AwaitCreatePortfolio (totalCost : num) (doc : PortfolioDoc)
| AwaitUpdateUser (uid : jsstring) (balance : num)
| AwaitUpdateLeaderboardEntry (uid : jsstring) (name : value).

Definition failed_to_save (message : jsstring) : list Toast :=
  [mkToast (str "Failed to save to cloud: " ++ message) error].

(** The message of the [TypeError] of [state.user.uid] on a [null] user. *)
Definition null_user_message : jsstring :=
  str "Cannot read properties of null (reading 'uid')".

(** [createPortfolio()] from its call to its first [await] (or to its
    [return], when it does not get there). *)
Definition createPortfolio (w : World) : World * list Toast * option Pending :=
  let s := state w in
  if (List.length (selectedStocks s) <? minStocks)%nat then
    (w, showToast "Select at least 5 stocks" error, None)
  else if negb (role_set (captain s)) then
    (w, showToast "Please select a Captain" error, None)
  else if negb (role_set (viceCaptain s)) then
    (w, showToast "Please select a Vice Captain" error, None)
  else
    let totalCost := totalCost (selectedStocks s) in
    if num_gtb totalCost (balance s) then
      (w, showToast "Insufficient balance" error, None)
    else
      match user s with
      | Some u =>
          if database w then
            (w, [], Some (AwaitCreatePortfolio totalCost
                            (Database_createPortfolio (uid u) (holdings (selectedStocks s))
                               (captain s) (viceCaptain s) totalCost)))
          else (w, showToast "You must be logged in" error, None)
      | None => (w, showToast "You must be logged in" error, None)
      end.

(** The rest of [createPortfolio()] from the settlement of the awaited
    call to the next [await] or to the end. *)
Definition resume (r : Settled) (p : Pending) (w : World)
  : World * list Toast * option Pending :=
  match r with
  | Rejected message => (w, failed_to_save message, None)
  | Resolved =>
      match p with
      | AwaitCreatePortfolio totalCost doc =>
          let d := db w in
          let w1 := set_db w (mkStore (portfolios d ++ [doc]) (users d) (leaderboard d)) in
          let s := set_balance (state w1) (num_sub (balance (state w1)) totalCost) in
          let w2 := set_state w1 s in
          match user s with
          | Some u => (w2, [], Some (AwaitUpdateUser (uid u) (balance s)))
          | None => (w2, failed_to_save null_user_message, None)
          end
      | AwaitUpdateUser uid balance =>
          let d := db w in
          let w1 := set_db w (mkStore (portfolios d) ((uid, balance) :: users d)
                                      (leaderboard d)) in
          match user (state w1) with
          | Some u => (w1, [], Some (AwaitUpdateLeaderboardEntry (App.uid u) (displayName u)))
          | None => (w1, failed_to_save null_user_message, None)
          end
      | AwaitUpdateLeaderboardEntry uid name =>
          let d := db w in
          let w1 := set_db w (mkStore (portfolios d) (users d)
                                      ((uid, (name, 0%Z : num)) :: leaderboard d)) in
          (renderTeamList (set_state w1 (set_selection (state w1) [] None None)),
           showToast "Portfolio created successfully!" success, None)
      end
  end.

(** One whole [createPortfolio()] with nothing else running in between:
    the awaited calls settle as [rs] says, in order. *)
Fixpoint settle (rs : list Settled) (x : World * list Toast * option Pending)
  : World * list Toast * option Pending :=
  match rs, x with
  | r :: rs', (w, ts, Some p) =>
      let '(w', ts', p') := resume r p w in
      settle rs' (w', ts ++ ts', p')
  | _, _ => x
  end.

Definition createPortfolio_run (rs : list Settled) (w : World)
  : World * list Toast * option Pending :=
  settle rs (createPortfolio w).

(** A double click on the submit button: the second call starts while
    the first is suspended at its first [await]; then the calls of the
    first settle as [rs1] says and those of the second as [rs2] says. *)
Definition double_click (rs1 rs2 : list Settled) (w : World) : World :=
  let '(w1, _, p1) := createPortfolio w in
  let '(w2, _, p2) := createPortfolio w1 in
  let '(w3, _, _) := settle rs1 (w2, [], p1) in
  let '(w4, _, _) := settle rs2 (w3, [], p2) in
  w4.

(** Two clicks, the second after the first call has run to its end. *)
Definition click_twice (rs1 rs2 : list Settled) (w : World)
  : World * list Toast * option Pending :=
  let '(w1, _, _) := createPortfolio_run rs1 w in
  createPortfolio_run rs2 w1.

(** *** The user's actions on the selection *)

Inductive Action : Type :=
| AddStock (sym : jsstring)
| RemoveStock (sym : jsstring)
| ToggleStock (sym : jsstring)
| ClearTeam
| SelectCaptain
| SelectViceCaptain.

Definition step (a : Action) (w : World) : World :=
  match a with
  | AddStock sym => fst (addStock sym w)
  | RemoveStock sym => fst (removeStock sym w)
  | ToggleStock sym => fst (toggleStock sym w)
  | ClearTeam => fst (clearTeam w)
  | SelectCaptain => fst (selectCaptain w)
  | SelectViceCaptain => fst (selectViceCaptain w)
  end.

(** The page starts with an empty selection and no role. *)
Definition initial (w : World) : Prop :=
  selectedStocks (state w) = [] /\ captain (state w) = None /\ viceCaptain (state w) = None.

(** The worlds a user can bring about.  Whatever else happens on the
    page (a catalogue is loaded, the user signs in, a submission writes
    to the store or debits the balance) leaves the selection and the
    roles as they are. *)
Inductive reachable : World -> Prop :=
| reach_initial : forall w, initial w -> reachable w
| reach_step : forall w a, reachable w -> reachable (step a w)
| reach_elsewhere : forall w w',
    reachable w ->
    selectedStocks (state w') = selectedStocks (state w) ->
    captain (state w') = captain (state w) ->
    viceCaptain (state w') = viceCaptain (state w) ->
    reachable w'.

(** *** The response of [/trending] (app.js, lines 199-228) *)

(** The array [loadStocks] takes out of [result.data], by the shape of
    the response (app.js, lines 203-216). *)
Definition response_stocks (data : value) : outcome (list value) :=
  match data with
  | VArr xs => Return xs
  | _ =>
      if truthy data.["trending_stocks"] then
        let ts := (data.["trending_stocks"])%js in
        gainers <- spread (ts.["top_gainers"] || VArr [])%js ;;
        losers <- spread (ts.["top_losers"] || VArr [])%js ;;
        Return (gainers ++ losers)
      else if truthy (data.["topGainers"] || data.["top_gainers"])%js then
        gainers <- spread (data.["topGainers"] || data.["top_gainers"] || VArr [])%js ;;
        losers <- spread (data.["topLosers"] || data.["top_losers"] || VArr [])%js ;;
        Return (gainers ++ losers)
      else Return []
  end.

(** What [loadStocks] assigns to [state.stocks] for the response
    [result]: [None] when it assigns nothing and shows the failure
    state; [Throw] is the [catch] of [loadStocks], which assigns
    nothing either. *)
Definition loadStocks_assigned (clock : nat -> Z) (result : value)
  : outcome (option (list utils.Quote)) :=
  match result with
  | VNull | VUndefined => Throw
  | _ =>
      if truthy result.["success"] && truthy result.["data"] then
        stocks <- response_stocks result.["data"] ;;
        listed <- loadStocks_stocks clock stocks ;;
        Return (Some listed)
      else Return None
  end.

(** *** Search and filter (app.js, lines 531-594) *)

(** The predicate of the search in [applyFilters]:
    [s.name.toLowerCase().includes(q) || s.symbol.toLowerCase().includes(q)]. *)
Definition matches_query (q : jsstring) (s : utils.Quote) : outcome bool :=
  b <- lower_includes (utils.name s) q ;;
  if b then Return true else lower_includes (utils.symbol s) q.

(** [s => s.change > 0] and [s => s.change < 0] *)
Definition is_gainer (s : utils.Quote) : bool := num_gtb (utils.change s) 0%Z.
Definition is_loser (s : utils.Quote) : bool := num_ltb (utils.change s) 0%Z.

(** What [applyFilters] assigns to [state.filteredStocks], from
    [state.searchQuery], [state.filter] and [state.stocks]. *)
Definition applyFilters_filtered (searchQuery filter : jsstring)
  (stocks : list utils.Quote) : outcome (list utils.Quote) :=
  filtered <- match searchQuery with
              | [] => Return stocks
              | _ => filter_outcome (matches_query searchQuery) stocks
              end ;;
  Return (if jsstring_eqb filter (str "gainers") then List.filter is_gainer filtered
          else if jsstring_eqb filter (str "losers") then List.filter is_loser filtered
          else filtered).

(** What [searchAll] does to [state] once the search has returned the
    stock [stock], whose name is not ['Unknown'] (app.js, lines 548-555). *)
Definition searchAll_found (stock : Stock) (w : World) : World * list Toast :=
  let s := state w in
  let stocks' := match find (has_symbol (symbol stock)) (stocks s) with
                 | Some _ => stocks s
                 | None => stock :: stocks s
                 end in
  (set_state w (mkState (user s) stocks' [stock] (selectedStocks s)
                        (captain s) (viceCaptain s) (balance s)),
   [mkToast (str "Found: " ++ name stock) success]).

(** *** The hint under the progress bar (app.js, lines 402-412) *)

(** The text [updateInvestmentProgress] writes into [minRequired]. *)
Definition minRequired_text (s : State) : jsstring :=
  let n := List.length (selectedStocks s) in
  if (n <? minStocks)%nat then
    str "Select " ++ decimal (minStocks - n) ++ str " more stock"
        ++ (if (1 <? minStocks - n)%nat then str "s" else [])
  else if negb (role_set (captain s)) || negb (role_set (viceCaptain s)) then
    str "Select Captain & Vice Captain"
  else str "Ready to create portfolio".

End App.
(* ================================================================== *)
(** ** stockquest.js *)
(* ================================================================== *)

Module StockQuest.

(** *** [utils]: the quote normaliser *)

Module utils.

(** The class of [parsePrice] as the file spells it: U+201A, U+00C7,
    U+03C0, the comma and [\s]. *)
Definition price_decoration (c : N) : bool :=
  (N.eqb c 8218 || N.eqb c 199 || N.eqb c 960 || N.eqb c 44 || is_space c)%N%bool.

(** The class [[%+\s]] of [parseChange]. *)
Definition change_decoration (c : N) : bool :=
  (N.eqb c 37 || N.eqb c 43 || is_space c)%N%bool.

(** [utils.parsePrice] (stockquest.js, lines 93-107). *)
Definition parsePrice (priceData : value) : num :=
  if negb (truthy priceData) then Fin 0
  else match priceData with
       | VNum n => n
       | VObj _ | VArr _ | VNull =>
           parseFloat (priceData.["value"] || priceData.["price"] ||
                       priceData.["ltp"] || unum 0)%js
       | VStr s => num_or0 (parseFloat_str (remove_class price_decoration s))
       | v => num_or0 (parseFloat_str (remove_class price_decoration (keyword v)))
       end.

(** [utils.parseChange] (stockquest.js, lines 109-116). *)
Definition parseChange (changeData : value) : num :=
  if negb (truthy changeData) then Fin 0
  else match changeData with
       | VNum n => n
       | VObj _ | VArr _ | VNull =>
           parseFloat (changeData.["value"] || changeData.["percent"] ||
                       changeData.["pChange"] || unum 0)%js
       | VStr s => num_or0 (parseFloat_str (remove_class change_decoration s))
       | v => num_or0 (parseFloat_str (remove_class change_decoration (keyword v)))
       end.

(** The record built by [utils.extractStockData]; the fields it copies
    without parsing stay values. *)
Record Quote : Type := mkQuote {
  id : value * Z;
  name : value;
  symbol : value;
  price : num;
  change : num;
  changeAbs : num;
  volume : value;
  high : num;
  low : num;
  sector : value;
  marketCap : value;
  pe : value;
  high52 : value;
  low52 : value;
  raw : value
}.

(** [utils.extractStockData(rawStock)] (stockquest.js, lines 118-161).
    Reading a property of [null] or [undefined] throws. *)
Definition extractStockData (now : Z) (rawStock : value) : outcome Quote :=
  match rawStock with
  | VNull | VUndefined => Throw
  | _ =>
    let name := (rawStock.["company_name"] || rawStock.["companyName"] ||
                 rawStock.["name"] || rawStock.["longName"] ||
                 rawStock.["shortName"] || rawStock.["symbol"] || ustr "Unknown")%js in
    let given := (rawStock.["symbol"] || rawStock.["ticker"] || rawStock.["nseSymbol"] ||
                  rawStock.["bseSymbol"] || rawStock.["stock_id"])%js in
    symbol <- (if truthy given then Return given else derive_symbol name) ;;
    Return {|
      id := (symbol, now);
      name := name;
      symbol := symbol;
      price := parsePrice (rawStock.["currentPrice"] || rawStock.["current_price"] ||
                           rawStock.["price"] || rawStock.["ltp"] ||
                           rawStock.["lastPrice"] || rawStock.["close"] ||
                           rawStock.["previousClose"] || unum 0)%js;
      change := parseChange (rawStock.["pChange"] || rawStock.["change_percent"] ||
                             rawStock.["changePercent"] || rawStock.["percent_change"] ||
                             rawStock.["change"] || unum 0)%js;
      changeAbs := parsePrice (rawStock.["change"] || rawStock.["priceChange"] ||
                               rawStock.["dayChange"] || unum 0)%js;
      volume := (rawStock.["volume"] || rawStock.["tradedVolume"] ||
                 rawStock.["totalTradedVolume"] || rawStock.["traded_volume"] || unum 0)%js;
      high := parsePrice (rawStock.["high"] || rawStock.["dayHigh"] ||
                          rawStock.["high52"] || unum 0)%js;
      low := parsePrice (rawStock.["low"] || rawStock.["dayLow"] ||
                         rawStock.["low52"] || unum 0)%js;
      sector := (rawStock.["sector"] || rawStock.["industry"] ||
                 rawStock.["sector_name"] || ustr "")%js;
      marketCap := (rawStock.["marketCap"] || rawStock.["market_cap"] ||
                    rawStock.["mcap"] || unum 0)%js;
      pe := (rawStock.["pe"] || rawStock.["peRatio"] || rawStock.["pe_ratio"] || unum 0)%js;
      high52 := (rawStock.["high52"] || rawStock.["week52High"] ||
                 rawStock.["yearHigh"] || unum 0)%js;
      low52 := (rawStock.["low52"] || rawStock.["week52Low"] ||
                rawStock.["yearLow"] || unum 0)%js;
      raw := rawStock
    |}
  end.

End utils.

(** *** [loadStocks] *)

(** The value [loadStocks] assigns to [state.stocks]
    (stockquest.js, line 208): [stocks.map(s => utils.extractStockData(s))]. *)
Definition loadStocks_stocks (clock : nat -> Z) (stocks : list value)
  : outcome (list utils.Quote) :=
  map_outcome (fun i s => utils.extractStockData (clock i) s) 0 stocks.

(** *** The [state] object and the local storage *)

Record State : Type := mkState {
  stocks : list Stock;
  filteredStocks : list Stock;
  selectedStocks : list Stock;
  captain : option jsstring;
  viceCaptain : option jsstring;
  balance : num
}.

(** A portfolio as [createPortfolio] stores it; [id] is ['P' + Date.now()],
    kept as the clock reading, [createdAt] the reading of [new Date()]. *)
Record Portfolio : Type := mkPortfolio {
  id : Z;
  portfolio_stocks : list Holding;
  portfolio_captain : option jsstring;
  portfolio_viceCaptain : option jsstring;
  invested : num;
  createdAt : Z
}.

(** The two keys of [localStorage] the page writes:
    [stockquest_portfolios] and [stockquest_balance]. *)
Record Storage : Type := mkStorage {
  stockquest_portfolios : list Portfolio;
  stockquest_balance : option num
}.

Record World : Type := mkWorld {
  state : State;
  localStorage : Storage
}.

Definition set_state (w : World) (s : State) : World := mkWorld s (localStorage w).

Definition set_selection (s : State) (sel : list Stock)
  (cap vc : option jsstring) : State :=
  mkState (stocks s) (filteredStocks s) sel cap vc (balance s).

Definition set_balance (s : State) (b : num) : State :=
  mkState (stocks s) (filteredStocks s) (selectedStocks s)
          (captain s) (viceCaptain s) b.

(** [canCreate] of [renderTeamList] (stockquest.js, lines 354-355). *)
Definition canCreate (s : State) : bool :=
  (minStocks <=? List.length (selectedStocks s))%nat
  && role_set (captain s) && role_set (viceCaptain s).

(** *** Stock actions (stockquest.js, lines 400-474) *)

Definition addStock (sym : jsstring) (w : World) : World * list Toast :=
  let s := state w in
  match find (has_symbol sym) (stocks s) with
  | None => (w, [])
  | Some stock =>
      if (maxStocks <=? List.length (selectedStocks s))%nat then
        (w, showToast "Maximum 11 stocks allowed" error)
      else if existsb (has_symbol sym) (selectedStocks s) then
        (w, showToast "Stock already in team" error)
      else
        (set_state w (set_selection s (selectedStocks s ++ [stock])
                                    (captain s) (viceCaptain s)),
         showToast_named (name stock) " added to team" success)
  end.

Definition removeStock (sym : jsstring) (w : World) : World * list Toast :=
  let s := state w in
  match find (has_symbol sym) (selectedStocks s) with
  | Some stock =>
      (set_state w (set_selection s (splice_first (has_symbol sym) (selectedStocks s))
                                  (clear_role (captain s) sym)
                                  (clear_role (viceCaptain s) sym)),
       showToast_named (name stock) " removed from team" info)
  | None => (w, [])
  end.

Definition toggleStock (sym : jsstring) (w : World) : World * list Toast :=
  match find (has_symbol sym) (stocks (state w)) with
  | None => (w, [])
  | Some _ =>
      if existsb (has_symbol sym) (selectedStocks (state w))
      then removeStock sym w
      else addStock sym w
  end.

Definition setCaptain (sym : jsstring) (w : World) : World * list Toast :=
  let s := state w in
  (set_state w (set_selection s (selectedStocks s) (Some sym)
                              (clear_role (viceCaptain s) sym)),
   showToast "Captain selected! (2x points)" success).

Definition setViceCaptain (sym : jsstring) (w : World) : World * list Toast :=
  let s := state w in
  if role_is (captain s) sym then
    (w, showToast "Captain cannot be Vice Captain" error)
  else
    (set_state w (set_selection s (selectedStocks s) (captain s) (Some sym)),
     showToast "Vice Captain selected! (1.5x points)" success).

Definition clearTeam (w : World) : World * list Toast :=
  (set_state w (set_selection (state w) [] None None),
   showToast "Team cleared" info).

(** *** Portfolio creation (stockquest.js, lines 677-738) *)

(** [createPortfolio()]; it has no [await] and runs to its end.  [now]
    and [date] are the readings of [Date.now()] and [new Date()]. *)
Definition createPortfolio (now date : Z) (w : World) : World * list Toast :=
  let s := state w in
  if (List.length (selectedStocks s) <? minStocks)%nat then
    (w, showToast "Select at least 5 stocks" error)
  else if negb (role_set (captain s)) then
    (w, showToast "Please select a Captain" error)
  else if negb (role_set (viceCaptain s)) then
    (w, showToast "Please select a Vice Captain" error)
  else
    let totalCost := totalCost (selectedStocks s) in
    if num_gtb totalCost (balance s) then
      (w, showToast "Insufficient balance" error)
    else
      let portfolio := mkPortfolio now (holdings (selectedStocks s))
                                   (captain s) (viceCaptain s) totalCost date in
      let balance' := num_sub (balance s) totalCost in
      (mkWorld (set_selection (set_balance s balance') [] None None)
               (mkStorage (stockquest_portfolios (localStorage w) ++ [portfolio])
                          (Some balance')),
       showToast "Portfolio created successfully!" success).

(** *** The user's actions on the selection *)

Inductive Action : Type :=
| AddStock (sym : jsstring)
| RemoveStock (sym : jsstring)
| ToggleStock (sym : jsstring)
| ClearTeam
| SetCaptain (sym : jsstring)
| SetViceCaptain (sym : jsstring).

Definition step (a : Action) (w : World) : World :=
  match a with
  | AddStock sym => fst (addStock sym w)
  | RemoveStock sym => fst (removeStock sym w)
  | ToggleStock sym => fst (toggleStock sym w)
  | ClearTeam => fst (clearTeam w)
  | SetCaptain sym => fst (setCaptain sym w)
  | SetViceCaptain sym => fst (setViceCaptain sym w)
  end.

Definition initial (w : World) : Prop :=
  selectedStocks (state w) = [] /\ captain (state w) = None /\ viceCaptain (state w) = None.

(** The worlds the handlers can bring about when they are called with
    any symbol.  Whatever else happens on the page (a catalogue is
    loaded, the balance is read from the storage) leaves the selection
    and the roles as they are. *)
Inductive reachable : World -> Prop :=
| reach_initial : forall w, initial w -> reachable w
| reach_step : forall w a, reachable w -> reachable (step a w)
| reach_elsewhere : forall w w',
    reachable w ->
    selectedStocks (state w') = selectedStocks (state w) ->
    captain (state w') = captain (state w) ->
    viceCaptain (state w') = viceCaptain (state w) ->
    reachable w'.

(** The role buttons are rendered by [renderTeamList], one pair for each
    selected stock, so a click passes the symbol of a selected stock. *)
Definition offered (a : Action) (w : World) : Prop :=
  match a with
  | SetCaptain sym | SetViceCaptain sym => In sym (map symbol (selectedStocks (state w)))
  | _ => True
  end.

(** The worlds reachable through the rendered buttons. *)
Inductive ui_reachable : World -> Prop :=
| ui_initial : forall w, initial w -> ui_reachable w
| ui_step : forall w a, ui_reachable w -> offered a w -> ui_reachable (step a w)
| ui_elsewhere : forall w w',
    ui_reachable w ->
    selectedStocks (state w') = selectedStocks (state w) ->
    captain (state w') = captain (state w) ->
    viceCaptain (state w') = viceCaptain (state w) ->
    ui_reachable w'.

End StockQuest.

(* ================================================================== *)
(** ** firestore.js: [StockAPI], the direct API client *)
(* ================================================================== *)

Module StockAPI.

(** The class of [parseNumber] as the file spells it: U+00E2, U+201A,
    U+00B9, the comma, [%], [+] and [\s]. *)
Definition decoration (c : N) : bool :=
  (N.eqb c 226 || N.eqb c 8218 || N.eqb c 185 || N.eqb c 44 || N.eqb c 37
   || N.eqb c 43 || is_space c)%N%bool.

(** [parseNumber] calls itself on the nested field of an object; [fuel]
    bounds the nesting. *)
Fixpoint parseNumber_fuel (fuel : nat) (value : value) : num :=
  if negb (truthy value) then Fin 0
  else match value with
       | VNum n => n
       | VObj _ | VArr _ | VNull =>
           match fuel with
           | O => Fin 0
           | S fuel' =>
               parseNumber_fuel fuel'
                 (value.["value"] || value.["price"] || value.["ltp"] || unum 0)%js
           end
       | VStr s => num_or0 (parseFloat_str (remove_class decoration s))
       | v => num_or0 (parseFloat_str (remove_class decoration (keyword v)))
       end.

(** The nesting depth of objects and arrays in a value. *)
Fixpoint depth (v : value) : nat :=
  match v with
  | VObj fs =>
      S ((fix fields (l : list (string * value)) : nat :=
            match l with
            | [] => O
            | (_, x) :: l' => Nat.max (depth x) (fields l')
            end) fs)
  | VArr xs =>
      S ((fix elems (l : list value) : nat :=
            match l with
            | [] => O
            | x :: l' => Nat.max (depth x) (elems l')
            end) xs)
  | _ => O
  end.

(** [StockAPI.parseNumber(value)] (firestore.js, lines 370-378). *)
Definition parseNumber (value : value) : num := parseNumber_fuel (depth value) value.

(** The record built by [StockAPI.normalizeStockData]. *)
Record Quote : Type := mkQuote {
  id : value * Z;
  name : value;
  symbol : value;
  price : num;
  change : num;
  volume : num;
  high : num;
  low : num;
  open : num;
  previousClose : num;
  marketCap : num;
  pe : num;
  high52 : num;
  low52 : num;
  sector : value;
  raw : value
}.

(** [v !== undefined] *)
Definition defined (v : value) : bool :=
  match v with
  | VUndefined => false
  | _ => true
  end.

(** [StockAPI.normalizeStockData(raw)] (firestore.js, lines 308-367). *)
Definition normalizeStockData (now : Z) (raw : value) : outcome (option Quote) :=
  if negb (truthy raw) then Return None
  else
    let name := (raw.["company_name"] || raw.["companyName"] || raw.["name"] ||
                 raw.["longName"] || raw.["shortName"] || raw.["stock_name"] ||
                 raw.["scrip_name"] || raw.["symbol"] || ustr "Unknown")%js in
    let given := (raw.["symbol"] || raw.["ticker"] || raw.["nseSymbol"] ||
                  raw.["bseSymbol"] || raw.["stock_id"])%js in
    symbol <- (if truthy given then Return given else derive_symbol name) ;;
    let price :=
      if truthy raw.["currentPrice"] then parseNumber raw.["currentPrice"]
      else if truthy raw.["current_price"] then parseNumber raw.["current_price"]
      else if truthy raw.["price"] then parseNumber raw.["price"]
      else if truthy raw.["ltp"] then parseNumber raw.["ltp"]
      else if truthy raw.["lastPrice"] then parseNumber raw.["lastPrice"]
      else if truthy raw.["close"] then parseNumber raw.["close"]
      else Fin 0 in
    let change :=
      if defined raw.["pChange"] then parseNumber raw.["pChange"]
      else if defined raw.["change_percent"] then parseNumber raw.["change_percent"]
      else if defined raw.["changePercent"] then parseNumber raw.["changePercent"]
      else if defined raw.["percent_change"] then parseNumber raw.["percent_change"]
      else Fin 0 in
    Return (Some {|
      id := (symbol, now);
      name := name;
      symbol := symbol;
      price := price;
      change := change;
      volume := parseNumber (raw.["volume"] || raw.["tradedVolume"] ||
                             raw.["totalTradedVolume"] || unum 0)%js;
      high := parseNumber (raw.["high"] || raw.["dayHigh"] || unum 0)%js;
      low := parseNumber (raw.["low"] || raw.["dayLow"] || unum 0)%js;
      open := parseNumber (raw.["open"] || unum 0)%js;
      previousClose := parseNumber (raw.["previousClose"] || raw.["prev_close"] || unum 0)%js;
      marketCap := parseNumber (raw.["marketCap"] || raw.["market_cap"] || unum 0)%js;
      pe := parseNumber (raw.["pe"] || raw.["peRatio"] || unum 0)%js;
      high52 := parseNumber (raw.["high52"] || raw.["week52High"] ||
                             raw.["yearHigh"] || unum 0)%js;
      low52 := parseNumber (raw.["low52"] || raw.["week52Low"] || raw.["yearLow"] || unum 0)%js;
      sector := (raw.["sector"] || raw.["industry"] || ustr "")%js;
      raw := raw
    |}).

(** A result with the clock reading of its [id] replaced by [now]. *)
Definition restamp (now : Z) (r : outcome (option Quote)) : outcome (option Quote) :=
  match r with
  | Return (Some q) =>
      Return (Some (mkQuote (fst (id q), now) (name q) (symbol q) (price q) (change q)
                            (volume q) (high q) (low q) (open q) (previousClose q)
                            (marketCap q) (pe q) (high52 q) (low52 q) (sector q) (raw q)))
  | _ => r
  end.

(** *** The response cache of [request] (firestore.js, lines 163-208) *)

(** [this.cacheTimeout]: five minutes, in milliseconds. *)
Definition cacheTimeout : Z := (5 * 60 * 1000)%Z.

(** An entry of [this.cache]. *)
Record Cached : Type := mkCached {
  data : value;
  timestamp : Z
}.

(** The [Map] [this.cache]: the bindings made by [set], the latest
    first, so that [get] returns the latest one of a key. *)
Definition Cache : Type := list (jsstring * Cached).

Fixpoint cache_get (key : jsstring) (c : Cache) : option Cached :=
  match c with
  | [] => None
  | (k, e) :: c' => if jsstring_eqb key k then Some e else cache_get key c'
  end.

Definition cache_set (key : jsstring) (e : Cached) (c : Cache) : Cache := (key, e) :: c.

(** What the network does with one [fetch]: the call fails, the status
    is not ok, the body is not JSON, or the body is the JSON value. *)
Inductive Network : Type :=
| FetchFails
| StatusNotOk
| BodyNotJson
| Body (json : value).

(** One [request(endpoint, params)], with nothing else running in
    between; [cacheKey] is [endpoint + JSON.stringify(params)], [now]
    the reading of [Date.now()] at the test of the cache and [later]
    the reading when the response is stored.  The boolean tells whether
    [fetch] was called. *)
Definition request (now later : Z) (net : Network) (cacheKey : jsstring) (c : Cache)
  : outcome value * Cache * bool :=
  match cache_get cacheKey c with
  | Some cached =>
      if (now - timestamp cached <? cacheTimeout)%Z then (Return (data cached), c, false)
      else match net with
           | Body json => (Return json, cache_set cacheKey (mkCached json later) c, true)
           | _ => (Throw, c, true)
           end
  | None =>
      match net with
      | Body json => (Return json, cache_set cacheKey (mkCached json later) c, true)
      | _ => (Throw, c, true)
      end
  end.

(** [clearCache()] *)
Definition clearCache (c : Cache) : Cache := [].

(** *** Lists of payloads (firestore.js, lines 269-305) *)

(** [stocks.push(...v)] when [v] is truthy. *)
Definition push_all (stocks : list value) (v : value) : outcome (list value) :=
  if truthy v then (more <- spread v ;; Return (stocks ++ more)) else Return stocks.

(** [normalizeTrendingData(data)] *)
Definition normalizeTrendingData (clock : nat -> Z) (data : value)
  : outcome (list (option Quote)) :=
  if negb (truthy data) then Return []
  else
    stocks <- (if truthy data.["trending_stocks"] then
                 let ts := (data.["trending_stocks"])%js in
                 s1 <- push_all [] ts.["top_gainers"] ;;
                 push_all s1 ts.["top_losers"]
               else match data with
                    | VArr xs => Return xs
                    | _ => Return []
                    end) ;;
    map_outcome (fun i s => normalizeStockData (clock i) s) 0 stocks.

End StockAPI.

(* ================================================================== *)
(** ** theme.js and [initTheme] of app.js *)
(* ================================================================== *)

Module Theme.

(** The attribute [data-theme] of the root element and the key
    [stockquest_theme] of the local storage; each may be absent. *)
Record Page : Type := mkPage {
  data_theme : option jsstring;
  stockquest_theme : option jsstring
}.

(** [localStorage.getItem('stockquest_theme') || 'dark'] *)
Definition storedTheme (p : Page) : jsstring :=
  match stockquest_theme p with
  | Some (c :: t) => c :: t
  | _ => str "dark"
  end.

(** [initTheme()], and [preInit()]: what they do to the attribute. *)
Definition initTheme (p : Page) : Page :=
  mkPage (Some (storedTheme p)) (stockquest_theme p).

(** The click listener of the toggle button. *)
Definition toggle (p : Page) : Page :=
  let next := match data_theme p with
              | Some current => if jsstring_eqb current (str "dark")
                                then str "light" else str "dark"
              | None => str "dark"
              end in
  mkPage (Some next) (Some next).

End Theme.


(* ================================================================== *)
(** ** Predicates of the contract and sample inputs *)
(* ================================================================== *)

(** The invariant of a selection: the captain and the vice-captain are
    not the same symbol, and each role that is set names a selected
    stock. *)
Definition distinct_roles (cap vc : option jsstring) : Prop :=
  forall c, cap = Some c -> vc <> Some c.

Definition roles_selected (sel : list Stock) (cap vc : option jsstring) : Prop :=
  (forall c, cap = Some c -> In c (map symbol sel))
  /\ (forall v, vc = Some v -> In v (map symbol sel)).

Definition roles_ok (sel : list Stock) (cap vc : option jsstring) : Prop :=
  distinct_roles cap vc /\ roles_selected sel cap vc.

(** A payload on which every property read yields [undefined]: an object
    without fields, or a value that is not an object. *)
Definition fieldless (raw : value) : Prop := forall k, get raw k = VUndefined.

(** The string made of the rupee sign followed by ["1.50 Cr"]. *)
Definition rupee_1_50_Cr : jsstring := rupee :: str "1.50 Cr".

(** The payload [{}]: an object without any field. *)
Definition nameless : value := VObj [].

(** The payload [{name: "Tata Motors"}]. *)
Definition tata : value := VObj [("name"%string, ustr "Tata Motors")].

(** A catalogue entry named after its symbol. *)
Definition stock_of (sym : string) (p : Z) : Stock := mkStock (str sym) (str sym) p.

(** Five stocks of the given price. *)
Definition five (p : Z) : list Stock :=
  [stock_of "TCS" p; stock_of "INFY" p; stock_of "HDFC" p; stock_of "ITC" p;
   stock_of "SBIN" p].

(** Eleven stocks of the given price. *)
Definition eleven (p : Z) : list Stock :=
  five p ++ [stock_of "LT" p; stock_of "ONGC" p; stock_of "WIPRO" p;
             stock_of "TITAN" p; stock_of "CIPLA" p; stock_of "NTPC" p].

Definition catalogue (p : Z) : list Stock := eleven p ++ [stock_of "BPCL" p].

(** The symbols used in the examples. *)
Definition TCS : jsstring := str "TCS".
Definition INFY : jsstring := str "INFY".
Definition BPCL : jsstring := str "BPCL".

Definition asha : App.User := App.mkUser (str "uid-1") (ustr "Asha").

Definition empty_store : App.Store := App.mkStore [] [] [].

(** A signed-in page of app.js on which [window.Database] is taken to be
    defined, whose catalogue has the price [p], with the given
    selection, roles and balance, an empty store, and the button as
    [renderTeamList] leaves it. *)
Definition app_world (p : Z) (sel : list Stock) (cap vc : option jsstring) (balance : Z)
  : App.World :=
  App.renderTeamList
    (App.mkWorld (App.mkState (Some asha) (catalogue p) (catalogue p) sel cap vc balance)
                 true empty_store true).

(** A page of stockquest.js whose catalogue has the price [p], with the
    given selection, roles and balance and an empty local storage. *)
Definition sq_world (p : Z) (sel : list Stock) (cap vc : option jsstring) (balance : Z)
  : StockQuest.World :=
  StockQuest.mkWorld
    (StockQuest.mkState (catalogue p) (catalogue p) sel cap vc balance)
    (StockQuest.mkStorage [] None).

(** The invariant and the size of the selection of a page. *)
Definition app_roles_ok (w : App.World) : Prop :=
  roles_ok (App.selectedStocks (App.state w)) (App.captain (App.state w))
           (App.viceCaptain (App.state w)).

Definition sq_roles_ok (w : StockQuest.World) : Prop :=
  roles_ok (StockQuest.selectedStocks (StockQuest.state w))
           (StockQuest.captain (StockQuest.state w))
           (StockQuest.viceCaptain (StockQuest.state w)).

Definition app_size (w : App.World) : nat :=
  List.length (App.selectedStocks (App.state w)).

Definition sq_size (w : StockQuest.World) : nat :=
  List.length (StockQuest.selectedStocks (StockQuest.state w)).

(** The symbols of the selection of a page. *)
Definition app_symbols (w : App.World) : list jsstring :=
  map symbol (App.selectedStocks (App.state w)).

Definition sq_symbols (w : StockQuest.World) : list jsstring :=
  map symbol (StockQuest.selectedStocks (StockQuest.state w)).

(** The two roles of a page of stockquest.js are distinct. *)
Definition sq_distinct (w : StockQuest.World) : Prop :=
  distinct_roles (StockQuest.captain (StockQuest.state w))
                 (StockQuest.viceCaptain (StockQuest.state w)).


(** The toasts that report an incomplete team. *)
Definition incomplete_team : list (list Toast) :=
  [showToast "Select at least 5 stocks" error;
   showToast "Please select a Captain" error;
   showToast "Please select a Vice Captain" error].

(** The three store calls of one [createPortfolio()] all succeed. *)
Definition all_resolved : list App.Settled := [App.Resolved; App.Resolved; App.Resolved].

(** A suspended call that has already debited the balance, or no call. *)
Definition past_debit (p : option App.Pending) : Prop :=
  match p with
  | Some (App.AwaitCreatePortfolio _ _) => False
  | _ => True
  end.

(** The balance of a page. *)
Definition app_balance (w : App.World) : num := App.balance (App.state w).
Definition sq_balance (w : StockQuest.World) : num := StockQuest.balance (StockQuest.state w).

(** The total cost of the selection of a page. *)
Definition app_cost (w : App.World) : num := totalCost (App.selectedStocks (App.state w)).
Definition sq_cost (w : StockQuest.World) : num :=
  totalCost (StockQuest.selectedStocks (StockQuest.state w)).

(** *** Sample pages *)

(** A fresh page: nothing selected, a balance of 1,000,000. *)
Definition fresh_page : App.World := app_world 1000 [] None None 1000000.
Definition sq_fresh_page : StockQuest.World := sq_world 1000 [] None None 1000000.

(** The fresh page after the clicks: add TCS, add INFY, select captain,
    select vice-captain. *)
Definition two_stock_page : App.World :=
  App.step App.SelectViceCaptain
    (App.step App.SelectCaptain
       (App.step (App.AddStock INFY) (App.step (App.AddStock TCS) fresh_page))).

(** Eleven stocks selected. *)
Definition full_page : App.World := app_world 1000 (eleven 1000) None None 1000000.

(** One stock selected, which is the captain. *)
Definition tcs_captain_page : App.World :=
  app_world 1000 [stock_of "TCS" 1000] (Some TCS) None 1000000.
Definition infy_captain_page : App.World :=
  app_world 1000 [stock_of "INFY" 1000] (Some INFY) None 1000000.

(** Five stocks, captain TCS, vice-captain INFY, on stockquest.js. *)
Definition sq_team_page : StockQuest.World :=
  sq_world 1000 (five 1000) (Some TCS) (Some INFY) 1000000.

(** Four stocks of price 1000 and both roles set. *)
Definition four_stock_page : App.World :=
  app_world 1000 [stock_of "TCS" 1000; stock_of "INFY" 1000; stock_of "HDFC" 1000;
                  stock_of "ITC" 1000] (Some TCS) (Some INFY) 1000000.

(** A complete team of five stocks of price 100,000: it costs 5,000,000
    against a balance of 1,000,000. *)
Definition costly_team_page : App.World :=
  app_world 100000 (five 100000) (Some TCS) (Some INFY) 1000000.

(** One stock of price 200,000 and no role: it costs 2,000,000 against a
    balance of 1,000,000. *)
Definition costly_stock_page : App.World :=
  app_world 200000 [stock_of "TCS" 200000] None None 1000000.

(** A complete team of five stocks of price 1000: it costs 50,000
    against a balance of 1,000,000. *)
Definition valid_team_page : App.World :=
  app_world 1000 (five 1000) (Some TCS) (Some INFY) 1000000.

(* ================================================================== *)
(** ** Further predicates and sample inputs *)
(* ================================================================== *)

(** A string made of digits and of the decoration [parseNum] strips. *)
Definition decorated_digits (s : jsstring) : Prop :=
  Forall (fun c => is_digit c = true \/ App.utils.decoration c = true) s.

(** The value of the digits of a string, read as one decimal number. *)
Definition digits_value (s : jsstring) : num :=
  Fin (inject_Z (digits_to_Z (filter is_digit s))).

(** Every integer from 0 to 2^53 is a double: [parseFloat] reads the
    digits of such an integer without rounding. *)
Definition max_exact_integer : Z := (2 ^ 53)%Z.

(** The digits of a string write an integer that is a double. *)
Definition digits_exact (s : jsstring) : Prop :=
  (digits_to_Z (filter is_digit s) <= max_exact_integer)%Z.

(** A string of ASCII code units.  On such a string [toUpperCase] and
    [toLowerCase] map the letters one to one, as the model does. *)
Definition ascii_only (s : jsstring) : Prop := Forall (fun c => (c < 128)%N) s.

(** An object or an array. *)
Definition structured (v : value) : bool :=
  match v with
  | VObj _ | VArr _ => true
  | _ => false
  end.

(** The fields [utils.parseStock] takes the symbol from. *)
Definition symbol_fields : list string :=
  ["symbol"; "ticker"; "nseSymbol"; "bseSymbol"; "stock_id"]%string.

(** The shape of a symbol derived from the name: at most 6 code units,
    none of them white space or a lower-case ASCII letter. *)
Definition derived_symbol_shape (v : value) : Prop :=
  exists y, v = VStr y
            /\ (List.length y <= 6)%nat
            /\ Forall (fun c => is_space c = false /\ upper_unit c = c) y.

(** The submit button shows what [canCreate] says. *)
Definition button_consistent (w : App.World) : Prop :=
  App.createBtnDisabled w = negb (App.canCreate (App.state w)).

(** The symbols of the catalogue of a page of app.js. *)
Definition app_catalogue_symbols (w : App.World) : list jsstring :=
  map symbol (App.stocks (App.state w)).

(** The two themes. *)
Definition dark : jsstring := str "dark".
Definition light : jsstring := str "light".

(** The string made of the rupee sign followed by ["1,23,456"]. *)
Definition rupee_1_23_456 : jsstring := rupee :: str "1,23,456".

(** The payload [{name: 123}]: a name that is not a string, no symbol. *)
Definition numeric_name : value := VObj [("name"%string, unum 123)].

(** The payload [{price: {value: "n/a"}}]. *)
Definition price_not_available : value :=
  VObj [("value"%string, ustr "n/a")].

(** A stock whose price did not parse. *)
Definition unpriced : Stock := mkStock (str "XYZ") (str "XYZ") NaN.

(** A complete team of four stocks of price 1000 and the unpriced
    stock, on stockquest.js, with a balance of 1,000,000. *)
Definition sq_unpriced_page : StockQuest.World :=
  sq_world 1000 [stock_of "TCS" 1000; stock_of "INFY" 1000; stock_of "HDFC" 1000;
                 stock_of "ITC" 1000; unpriced] (Some TCS) (Some INFY) 1000000.

(** The page of app.js with one selected stock, INFY, which is the
    vice-captain. *)
Definition infy_vice_page : App.World :=
  app_world 1000 [stock_of "INFY" 1000] None (Some INFY) 1000000.

(** TCS and INFY selected, no role. *)
Definition pair_page : App.World :=
  App.step (App.AddStock INFY) (App.step (App.AddStock TCS) fresh_page).

(** TCS as a search returns it, at a new price. *)
Definition tcs_repriced : Stock := stock_of "TCS" 2000.

(** The cache key of [/trending] without parameters. *)
Definition trending_key : jsstring := str "/trending{}".

(** A flat response that lists only losers: [{topLosers: [...]}]. *)
Definition losers_only : value :=
  VObj [("topLosers"%string, VArr [tata])].

(** Two records as [utils.parseStock] builds them, with the changes
    +1.5 and -2. *)
Definition quote_of (sym : string) (chg : num) : App.utils.Quote :=
  App.utils.mkQuote (ustr sym, 0%Z) (ustr sym) (ustr sym) (Fin 100) chg (Fin 0) (Fin 0)
                    (Fin 0) (Fin 0) (Fin 0) (Fin 0) (Fin 0) (ustr "") (VObj []).

Definition sample_quotes : list App.utils.Quote :=
  [quote_of "TCS" (Fin (3 # 2)); quote_of "INFY" (Fin (-2)); quote_of "ITC" (Fin 0);
   quote_of "SBIN" NaN].

(** A nested response that lists only losers. *)
Definition nested_losers_only : value :=
  VObj [("trending_stocks"%string, VObj [("top_losers"%string, VArr [tata])])].

(** The selection and the roles of two pages of app.js are the same. *)
Definition same_selection (w w' : App.World) : Prop :=
  App.selectedStocks (App.state w') = App.selectedStocks (App.state w)
  /\ App.captain (App.state w') = App.captain (App.state w)
  /\ App.viceCaptain (App.state w') = App.viceCaptain (App.state w).

(** The documents of the second store are those of the first followed
    by at most one more. *)
Definition appended_at_most_one {A : Type} (before after : list A) : Prop :=
  exists more, after = before ++ more /\ (List.length more <= 1)%nat.

(** *** The page as the scripts of the repository leave it *)

(** [window.Database] on a page of the repository.  firestore.js
    declares the object with [const Database = {...}] (line 6); a
    [const] at the top level of a script makes no property of [window],
    and no script assigns [window.Database]: the tests of app.js, lines
    154 and 790, read [undefined]. *)
Definition window_Database : bool := false.

(** A page of app.js as its scripts leave it, signed in as [asha], with
    a catalogue of price [p], the given selection, roles and balance
    and an empty store. *)
Definition loaded_page (p : Z) (sel : list Stock) (cap vc : option jsstring) (balance : Z)
  : App.World :=
  App.renderTeamList
    (App.mkWorld (App.mkState (Some asha) (catalogue p) (catalogue p) sel cap vc balance)
                 window_Database empty_store true).

(** A complete team of five stocks of price 1000 on the loaded page: it
    costs 50,000 against a balance of 1,000,000. *)
Definition signed_in_team_page : App.World :=
  loaded_page 1000 (five 1000) (Some TCS) (Some INFY) 1000000.

(** A complete team of five stocks of price 100,000 on the loaded page:
    it costs 5,000,000 against a balance of 1,000,000. *)
Definition costly_loaded_page : App.World :=
  loaded_page 100000 (five 100000) (Some TCS) (Some INFY) 1000000.

(** *** The fields the normalisers read *)

(** None of the fields is in the payload with a truthy value: each is
    absent, or holds [undefined], [null], [false], 0, [NaN] or the empty
    string. *)
Definition lacks (raw : value) (fields : list string) : Prop :=
  Forall (fun k => truthy (get raw k) = false) fields.

(** The numeric fields of the record of [utils.parseStock], each with
    the fields of the payload it is read from (app.js, lines 121-129). *)
Definition app_numeric_fields : list ((App.utils.Quote -> num) * list string) :=
  [(App.utils.price,
    ["currentPrice"; "current_price"; "price"; "ltp"; "lastPrice"; "close"]%string);
   (App.utils.change,
    ["pChange"; "change_percent"; "changePercent"; "percent_change"]%string);
   (App.utils.volume, ["volume"; "tradedVolume"; "totalTradedVolume"]%string);
   (App.utils.high, ["high"; "dayHigh"]%string);
   (App.utils.low, ["low"; "dayLow"]%string);
   (App.utils.marketCap, ["marketCap"; "market_cap"]%string);
   (App.utils.pe, ["pe"; "peRatio"]%string);
   (App.utils.high52, ["high52"; "week52High"; "yearHigh"]%string);
   (App.utils.low52, ["low52"; "week52Low"; "yearLow"]%string)].

(** The same for the record of [StockAPI.normalizeStockData]
    (firestore.js, lines 321-364). *)
Definition api_numeric_fields : list ((StockAPI.Quote -> num) * list string) :=
  [(StockAPI.price,
    ["currentPrice"; "current_price"; "price"; "ltp"; "lastPrice"; "close"]%string);
   (StockAPI.change,
    ["pChange"; "change_percent"; "changePercent"; "percent_change"]%string);
   (StockAPI.volume, ["volume"; "tradedVolume"; "totalTradedVolume"]%string);
   (StockAPI.high, ["high"; "dayHigh"]%string);
   (StockAPI.low, ["low"; "dayLow"]%string);
   (StockAPI.open, ["open"]%string);
   (StockAPI.previousClose, ["previousClose"; "prev_close"]%string);
   (StockAPI.marketCap, ["marketCap"; "market_cap"]%string);
   (StockAPI.pe, ["pe"; "peRatio"]%string);
   (StockAPI.high52, ["high52"; "week52High"; "yearHigh"]%string);
   (StockAPI.low52, ["low52"; "week52Low"; "yearLow"]%string)].

(** The fields of the payload the sector and the name are read from. *)
Definition sector_fields : list string := ["sector"; "industry"]%string.

Definition name_fields : list string :=
  ["company_name"; "companyName"; "name"; "longName"; "shortName"; "stock_name";
   "scrip_name"; "symbol"]%string.

(** A numeric field of the record [q] is 0 when the payload lacks the
    fields it is read from. *)
Definition zero_when_absent {Quote : Type} (raw : value) (q : Quote)
  (field : (Quote -> num) * list string) : Prop :=
  lacks raw (snd field) -> fst field q = Fin 0.


(* ================================================================== *)
(** * Properties *)
(* ================================================================== *)

(** ** Numbers *)

Section Numbers.

Lemma Qltb_false_le (x y : Q) : Qltb x y = false -> (y <= x)%Q.
Proof.
  unfold Qltb. intros H. apply negb_false_iff in H. now apply Qle_bool_iff.
Qed.

Lemma negative_Fin (q : Q) : negative (Fin q) = false <-> (0 <= q)%Q.
Proof.
  unfold negative, num_ltb, num_of_Z, Qltb. rewrite negb_false_iff.
  apply Qle_bool_iff.
Qed.

(** A debit that the balance covers does not make the balance negative. *)
Lemma debit_not_negative (balance cost : num) :
  negative balance = false ->
  num_gtb cost balance = false ->
  negative (num_sub balance cost) = false.
Proof.
  destruct balance as [| s | x], cost as [| t | y]; simpl; try reflexivity;
    unfold num_gtb; simpl.
  - destruct s, t; simpl; intros; try reflexivity; discriminate.
  - now destruct s.
  - destruct t; simpl; intros; try reflexivity; discriminate.
  - intros Hx Hxy. apply negative_Fin. apply negative_Fin in Hx.
    apply Qltb_false_le in Hxy.
    assert (E : (Qred (x - y) == x - y)%Q) by apply Qred_correct.
    rewrite E. unfold Qminus. rewrite <- (Qplus_opp_r y).
    apply Qplus_le_l. exact Hxy.
Qed.

End Numbers.

(** ** The numeric resolvers *)

Section Resolvers.

(** Every falsy value resolves to [0], in each resolver. *)
Lemma falsy_resolves_to_zero (val : value) :
  truthy val = false ->
  App.utils.parseNum val = Fin 0
  /\ App.ShowStockDetail.parseNum val = Fin 0
  /\ StockQuest.utils.parsePrice val = Fin 0
  /\ StockQuest.utils.parseChange val = Fin 0
  /\ StockAPI.parseNumber val = Fin 0.
Proof.
  intros H.
  unfold App.utils.parseNum, App.ShowStockDetail.parseNum,
    StockQuest.utils.parsePrice, StockQuest.utils.parseChange, StockAPI.parseNumber.
  rewrite H. simpl. repeat split.
  destruct (StockAPI.depth val); simpl; now rewrite H.
Qed.

(** A native number resolves to itself. *)
Lemma number_resolves_to_itself (n : num) :
  num_truthy n = true ->
  App.utils.parseNum (VNum n) = n /\ App.ShowStockDetail.parseNum (VNum n) = n.
Proof.
  intros H. unfold App.utils.parseNum, App.ShowStockDetail.parseNum. simpl.
  now rewrite H.
Qed.

Lemma lower_c_is_upper_C (c : N) : lower_unit c = 99%N -> upper_unit c = 67%N.
Proof.
  unfold lower_unit, upper_unit.
  destruct (N.leb_spec 65 c), (N.leb_spec c 90), (N.leb_spec 97 c), (N.leb_spec c 122);
    simpl; lia.
Qed.

Lemma Forall_drop_spaces (P : N -> Prop) (s : jsstring) :
  Forall P s -> Forall P (drop_spaces s).
Proof.
  induction 1 as [| c s Hc Hs IH]; simpl; [constructor |].
  destruct (is_space c); [exact IH | now constructor].
Qed.

Lemma Forall_trim (P : N -> Prop) (s : jsstring) : Forall P s -> Forall P (trim s).
Proof.
  intros H. unfold trim.
  apply Forall_rev, Forall_drop_spaces, Forall_rev, Forall_drop_spaces, H.
Qed.

Lemma no_c_no_cr (s : jsstring) :
  Forall (fun c => c <> 99%N) s -> includes (str "cr") s = false.
Proof.
  induction 1 as [| c s Hc Hs IH]; [reflexivity |].
  change (includes (str "cr") (c :: s))
    with ((N.eqb 99 c && starts_with [114%N] s) || includes (str "cr") s)%bool.
  rewrite IH, orb_false_r.
  destruct (N.eqb_spec 99 c) as [E | E]; [now subst | reflexivity].
Qed.

(** In the detail modal the class that strips the decoration also strips
    every [c], [C], [r] and [R]: the test for the suffix ["cr"] that
    follows never succeeds, on any string. *)
Lemma crore_branch_unreachable (s : jsstring) :
  includes (str "cr")
    (toLowerCase (trim (remove_class App.ShowStockDetail.decoration_ci s))) = false.
Proof.
  apply no_c_no_cr. unfold toLowerCase. apply Forall_map.
  apply Forall_trim. unfold remove_class. apply Forall_forall.
  intros c Hc. apply filter_In in Hc. destruct Hc as [_ Hc].
  intros E. apply lower_c_is_upper_C in E.
  unfold App.ShowStockDetail.decoration_ci in Hc. rewrite E in Hc.
  simpl in Hc. rewrite !orb_true_r in Hc. discriminate.
Qed.

(** The suffix ["L"] is applied in the detail modal, and only there. *)
Example lakh_suffix :
  App.ShowStockDetail.parseNum (VStr (rupee :: str "2.5 L")) = Fin 250000
  /\ App.utils.parseNum (VStr (rupee :: str "2.5 L")) = Fin (5 # 2).
Proof. split; reflexivity. Qed.

(** Text that holds an [l] and no number resolves to [NaN] in the
    detail modal; an object whose nested field is such a text resolves
    to [NaN] in both resolvers. *)
Example unparsable_not_zero :
  App.ShowStockDetail.parseNum (ustr "Large Cap") = NaN
  /\ App.utils.parseNum (VObj [("value"%string, ustr "n/a")]) = NaN
  /\ App.ShowStockDetail.parseNum (VObj [("value"%string, ustr "n/a")]) = NaN.
Proof. repeat split; reflexivity. Qed.

(** C1 (as the code behaves on the failing input).  On the string made
    of the rupee sign and ["1.50 Cr"] both numeric resolvers of app.js
    return 1.5, not 15,000,000: the one of [utils.parseStock] has no
    suffix handling, the one of [showStockDetail] strips the letters of
    the suffix before it looks for it.  The payload [{value: 15000000}]
    resolves to 15,000,000 in both. *)
Theorem crore_suffix_not_applied :
  App.utils.parseNum (VStr rupee_1_50_Cr) = Fin (3 # 2)
  /\ App.ShowStockDetail.parseNum (VStr rupee_1_50_Cr) = Fin (3 # 2)
  /\ App.utils.parseNum (VObj [("value"%string, unum 15000000)]) = Fin 15000000
  /\ App.ShowStockDetail.parseNum (VObj [("value"%string, unum 15000000)]) = Fin 15000000.
Proof. repeat split; reflexivity. Qed.

End Resolvers.

(** ** The list view *)

Section ListView.

Lemma strict_eq_str_false (v : value) (s : jsstring) :
  strict_eq_str v s = false <-> v <> VStr s.
Proof.
  destruct v; simpl; try (split; [discriminate | reflexivity]).
  unfold jsstring_eqb. destruct (list_eq_dec N.eq_dec s0 s) as [E | E].
  - subst. split; [discriminate | intros H; now elim H].
  - split; [intros _ H; inversion H; contradiction | reflexivity].
Qed.

Lemma listed_somes (l : list (option App.utils.Quote)) (q : App.utils.Quote) :
  In q (somes (filter App.listed l)) <->
  In (Some q) l /\ App.utils.name q <> ustr "Unknown".
Proof.
  unfold ustr. induction l as [| [x |] l IH].
  - simpl. tauto.
  - cbn [filter App.listed].
    destruct (strict_eq_str (App.utils.name x) (str "Unknown")) eqn:E;
      cbn [negb somes In].
    + rewrite IH. split; [tauto |]. intros [[H | H] Hn]; [| tauto].
      inversion H; subst. apply strict_eq_str_false in Hn. congruence.
    + apply strict_eq_str_false in E. rewrite IH. split.
      * intros [H | H]; [subst; tauto | tauto].
      * intros [[H | H] Hn]; [inversion H; tauto | tauto].
  - cbn [filter App.listed In]. rewrite IH. split; [tauto |].
    intros [[H | H] Hn]; [discriminate | tauto].
Qed.

(** In app.js the stock collection of the list view holds exactly the
    parsed records whose name is not ["Unknown"]. *)
Lemma app_list_view_drops_unknown (clock : nat -> Z) (stocks : list value)
  (parsed : list (option App.utils.Quote)) :
  map_outcome (fun i s => App.utils.parseStock (clock i) s) 0 stocks = Return parsed ->
  exists kept,
    App.loadStocks_stocks clock stocks = Return kept
    /\ forall q, In q kept <-> In (Some q) parsed /\ App.utils.name q <> ustr "Unknown".
Proof.
  intros H. unfold App.loadStocks_stocks. rewrite H. simpl.
  eexists. split; [reflexivity |]. apply listed_somes.
Qed.

(** C8 (as the code behaves on the failing input).  [loadStocks] of
    stockquest.js puts the record of a payload without a name field,
    whose resolved name is ["Unknown"], into the stock collection of the
    list view; [loadStocks] of app.js leaves it out. *)
Theorem stockquest_list_view_keeps_unknown :
  (exists q, StockQuest.loadStocks_stocks (fun _ => 0%Z) [nameless] = Return [q]
             /\ StockQuest.utils.name q = ustr "Unknown")
  /\ App.loadStocks_stocks (fun _ => 0%Z) [nameless] = Return [].
Proof.
  split; [| reflexivity].
  eexists. split; reflexivity.
Qed.

End ListView.

(** ** Determinism of the normaliser *)

Section Determinism.

Lemma app_parseStock_restamp (raw : value) (t1 t2 : Z) :
  App.utils.parseStock t2 raw = App.utils.restamp t2 (App.utils.parseStock t1 raw).
Proof.
  unfold App.utils.parseStock.
  destruct (negb (truthy raw)); [reflexivity |].
  match goal with
  | |- context [if truthy ?g then Return ?g else derive_symbol ?n] =>
      destruct (if truthy g then Return g else derive_symbol n); reflexivity
  end.
Qed.

Lemma api_normalizeStockData_restamp (raw : value) (t1 t2 : Z) :
  StockAPI.normalizeStockData t2 raw
  = StockAPI.restamp t2 (StockAPI.normalizeStockData t1 raw).
Proof.
  unfold StockAPI.normalizeStockData.
  destruct (negb (truthy raw)); [reflexivity |].
  match goal with
  | |- context [if truthy ?g then Return ?g else derive_symbol ?n] =>
      destruct (if truthy g then Return g else derive_symbol n); reflexivity
  end.
Qed.

(** C9 (counterexample).  Two calls of [utils.parseStock] on the same
    payload, one millisecond apart, return records that differ: the field
    [id] holds the reading of the clock. *)
Lemma parseStock_depends_on_clock :
  App.utils.parseStock 1000 tata <> App.utils.parseStock 1001 tata.
Proof. intros H. vm_compute in H. discriminate. Qed.

Lemma jor_falsy_l (a b : value) : truthy a = false -> (a || b)%js = b.
Proof. intros H. unfold jor. now rewrite H. Qed.

Lemma parseNumber_falsy (v : value) : truthy v = false -> StockAPI.parseNumber v = Fin 0.
Proof. intros H. now apply falsy_resolves_to_zero. Qed.

(** The value a field defaults to, from the fields the payload lacks. *)
Ltac absent_field :=
  unfold zero_when_absent, lacks; simpl; intros L;
  repeat match goal with
         | H : Forall _ (_ :: _) |- _ => inversion_clear H
         end;
  cbv beta in *;
  repeat match goal with
         | H : truthy ?a = false |- context [jor ?a ?b] => rewrite (jor_falsy_l a b H)
         | H : truthy ?a = false |- context [if truthy ?a then _ else _] =>
             rewrite H; cbv iota
         end;
  repeat match goal with
         | |- context [if StockAPI.defined ?a then _ else _] => destruct (StockAPI.defined a)
         end;
  first [reflexivity | apply parseNumber_falsy; assumption].

Lemma app_absent_fields (t : Z) (raw : value) (q : App.utils.Quote) :
  App.utils.parseStock t raw = Return (Some q) ->
  Forall (zero_when_absent raw q) app_numeric_fields
  /\ (lacks raw sector_fields -> App.utils.sector q = ustr "")
  /\ (lacks raw name_fields -> App.utils.name q = ustr "Unknown").
Proof.
  unfold App.utils.parseStock. destruct (negb (truthy raw)); [discriminate |].
  match goal with
  | |- context [if truthy ?g then Return ?g else derive_symbol ?n] =>
      destruct (if truthy g then Return g else derive_symbol n) as [sym |]
  end; [| discriminate].
  simpl. intros H. inversion H; subst q; clear H.
  split; [| split].
  - unfold app_numeric_fields.
    repeat (apply Forall_cons; [absent_field |]). apply Forall_nil.
  - unfold sector_fields. absent_field.
  - unfold name_fields. absent_field.
Qed.

Lemma api_absent_fields (t : Z) (raw : value) (q : StockAPI.Quote) :
  StockAPI.normalizeStockData t raw = Return (Some q) ->
  Forall (zero_when_absent raw q) api_numeric_fields
  /\ (lacks raw sector_fields -> StockAPI.sector q = ustr "")
  /\ (lacks raw name_fields -> StockAPI.name q = ustr "Unknown").
Proof.
  unfold StockAPI.normalizeStockData. destruct (negb (truthy raw)); [discriminate |].
  match goal with
  | |- context [if truthy ?g then Return ?g else derive_symbol ?n] =>
      destruct (if truthy g then Return g else derive_symbol n) as [sym |]
  end; [| discriminate].
  simpl. intros H. inversion H; subst q; clear H.
  split; [| split].
  - unfold api_numeric_fields.
    repeat (apply Forall_cons; [absent_field |]). apply Forall_nil.
  - unfold sector_fields. absent_field.
  - unfold name_fields. absent_field.
Qed.

(** C9 (amended).  The normalisers [utils.parseStock] and
    [StockAPI.normalizeStockData] are functions of the payload and of
    the clock reading alone: two calls on equal payloads throw together,
    return [null] together, or return records that are equal in every
    field except [id], where only the clock reading differs.  Absent
    fields default to zero or the empty string: in every record
    returned, each numeric field is the number 0 when the payload lacks
    the fields it is read from, the sector is then the empty string, and
    the name is then ["Unknown"].  On a payload that has none of the
    fields read the whole record is the default one. *)
Theorem normaliser_deterministic_up_to_id (raw : value) (t1 t2 : Z) :
  App.utils.parseStock t2 raw = App.utils.restamp t2 (App.utils.parseStock t1 raw)
  /\ StockAPI.normalizeStockData t2 raw
     = StockAPI.restamp t2 (StockAPI.normalizeStockData t1 raw)
  /\ (forall q, App.utils.parseStock t1 raw = Return (Some q) ->
        Forall (zero_when_absent raw q) app_numeric_fields
        /\ (lacks raw sector_fields -> App.utils.sector q = ustr "")
        /\ (lacks raw name_fields -> App.utils.name q = ustr "Unknown"))
  /\ (forall q, StockAPI.normalizeStockData t1 raw = Return (Some q) ->
        Forall (zero_when_absent raw q) api_numeric_fields
        /\ (lacks raw sector_fields -> StockAPI.sector q = ustr "")
        /\ (lacks raw name_fields -> StockAPI.name q = ustr "Unknown"))
  /\ (truthy raw = true -> fieldless raw ->
      App.utils.parseStock t1 raw
      = Return (Some (App.utils.mkQuote (ustr "UNKNOW", t1) (ustr "Unknown") (ustr "UNKNOW")
                        (Fin 0) (Fin 0) (Fin 0) (Fin 0) (Fin 0) (Fin 0) (Fin 0)
                        (Fin 0) (Fin 0) (ustr "") raw))
      /\ StockAPI.normalizeStockData t1 raw
         = Return (Some (StockAPI.mkQuote (ustr "UNKNOW", t1) (ustr "Unknown") (ustr "UNKNOW")
                           (Fin 0) (Fin 0) (Fin 0) (Fin 0) (Fin 0) (Fin 0) (Fin 0)
                           (Fin 0) (Fin 0) (Fin 0) (Fin 0) (ustr "") raw))).
Proof.
  split; [apply app_parseStock_restamp |].
  split; [apply api_normalizeStockData_restamp |].
  split; [intros q; apply app_absent_fields |].
  split; [intros q; apply api_absent_fields |].
  intros Ht Hf. unfold fieldless in Hf.
  unfold App.utils.parseStock, StockAPI.normalizeStockData.
  rewrite Ht, !Hf. split; reflexivity.
Qed.

(** The amended C9 at the payload [{}] and the readings 1000 and 1001,
    and at the payload [{name: "Tata Motors"}], which has a name and
    neither a price nor a sector. *)
Lemma normaliser_deterministic_up_to_id_witness :
  App.utils.parseStock 1001 nameless
  = App.utils.restamp 1001 (App.utils.parseStock 1000 nameless)
  /\ App.utils.parseStock 1000 nameless
     = Return (Some (App.utils.mkQuote (ustr "UNKNOW", 1000%Z) (ustr "Unknown")
                       (ustr "UNKNOW") (Fin 0) (Fin 0) (Fin 0) (Fin 0) (Fin 0) (Fin 0)
                       (Fin 0) (Fin 0) (Fin 0) (ustr "") nameless))
  /\ (exists q, App.utils.parseStock 1000 tata = Return (Some q)
                /\ App.utils.name q = ustr "Tata Motors"
                /\ App.utils.price q = Fin 0
                /\ App.utils.sector q = ustr "").
Proof.
  destruct (normaliser_deterministic_up_to_id nameless 1000 1001) as [H1 [_ [_ [_ H3]]]].
  split; [exact H1 |]. split.
  - apply H3; [reflexivity | intros k; reflexivity].
  - destruct (normaliser_deterministic_up_to_id tata 1000 1001) as [_ [_ [H _]]].
    eexists. split; [reflexivity |]. split; [reflexivity |].
    destruct (H _ eq_refl) as [Hnum [Hsec _]]. split.
    + unfold app_numeric_fields in Hnum. apply Forall_inv in Hnum.
      apply Hnum. unfold lacks. simpl. repeat constructor.
    + apply Hsec. unfold lacks, sector_fields. repeat constructor.
Defined.

End Determinism.

(** ** [StockAPI.parseNumber]: the fuel is enough *)

Section Fuel.

Import StockAPI.

Lemma depth_lookup (k : string) (fs : list (string * value)) :
  (depth (lookup k fs) < depth (VObj fs))%nat.
Proof.
  induction fs as [| [k' v] fs IH]; [simpl; lia |].
  change (depth (VObj ((k', v) :: fs)))
    with (S (Nat.max (depth v) (Nat.pred (depth (VObj fs))))).
  simpl lookup. destruct (String.eqb k k'); [lia |].
  simpl in IH |- *. lia.
Qed.

Lemma depth_jor (a b : value) (n : nat) :
  (depth a < n)%nat -> (depth b < n)%nat -> (depth (a || b)%js < n)%nat.
Proof. intros Ha Hb. unfold jor. now destruct (truthy a). Qed.

(** The nested field an object is resolved through is less deep than
    the object. *)
Lemma depth_nested (v : value) :
  (0 < depth v)%nat ->
  (depth (v.["value"] || v.["price"] || v.["ltp"] || unum 0)%js < depth v)%nat.
Proof.
  intros H. destruct v as [| | b | n | s | xs | fs]; try (simpl in H; lia).
  - simpl get. unfold jor. simpl. lia.
  - repeat apply depth_jor; try apply depth_lookup. simpl. lia.
Qed.

Lemma fuel_irrelevant (n : nat) :
  forall m v, (depth v <= n)%nat -> (depth v <= m)%nat ->
    parseNumber_fuel n v = parseNumber_fuel m v.
Proof.
  induction n as [| n IH]; intros m v Hn Hm.
  - destruct v; try reflexivity; try (simpl in Hn; lia); now destruct m.
  - destruct m as [| m].
    + destruct v; try reflexivity; simpl in Hm; lia.
    + destruct v as [| | b | x | s | xs | fs]; try reflexivity.
      * cbn [parseNumber_fuel truthy negb].
        apply IH; pose proof (depth_nested (VArr xs)); simpl in *; lia.
      * cbn [parseNumber_fuel truthy negb].
        assert (H : (0 < depth (VObj fs))%nat) by (simpl; lia).
        apply depth_nested in H.
        apply IH; lia.
Qed.

(** [parseNumber] satisfies the equation of the recursive call of the
    source on an object: [this.parseNumber(value.value || value.price ||
    value.ltp || 0)]. *)
Lemma parseNumber_object (fs : list (string * value)) :
  parseNumber (VObj fs)
  = parseNumber ((VObj fs).["value"] || (VObj fs).["price"] || (VObj fs).["ltp"] || unum 0)%js.
Proof.
  unfold parseNumber.
  assert (H : (0 < depth (VObj fs))%nat) by (simpl; lia).
  pose proof (depth_nested (VObj fs) H) as Hd.
  destruct (depth (VObj fs)) as [| d] eqn:E; [lia |].
  cbn [parseNumber_fuel truthy negb].
  apply fuel_irrelevant; lia.
Qed.

Example parseNumber_nested :
  parseNumber (VObj [("price"%string, VObj [("ltp"%string, ustr "1,234.5")])])
  = Fin (2469 # 2).
Proof. reflexivity. Qed.

End Fuel.

(** ** The team builder *)

Section Selection.

Lemma jsstring_eqb_true (a b : jsstring) : jsstring_eqb a b = true <-> a = b.
Proof.
  unfold jsstring_eqb. destruct (list_eq_dec N.eq_dec a b); split; congruence.
Qed.

Lemma has_symbol_true (sym : jsstring) (s : Stock) :
  has_symbol sym s = true <-> symbol s = sym.
Proof. apply jsstring_eqb_true. Qed.

Lemma role_is_true (role : option jsstring) (sym : jsstring) :
  role_is role sym = true <-> role = Some sym.
Proof.
  destruct role as [r |]; simpl; [| split; discriminate].
  rewrite jsstring_eqb_true. split; congruence.
Qed.

Lemma role_is_false (role : option jsstring) (sym : jsstring) :
  role_is role sym = false <-> role <> Some sym.
Proof.
  rewrite <- role_is_true. destruct (role_is role sym); split; congruence.
Qed.

Lemma clear_role_not (role : option jsstring) (sym : jsstring) :
  clear_role role sym <> Some sym.
Proof.
  unfold clear_role. destruct (role_is role sym) eqn:E; [discriminate |].
  now apply role_is_false.
Qed.

Lemma clear_role_other (role : option jsstring) (sym : jsstring) :
  role <> Some sym -> clear_role role sym = role.
Proof.
  intros H. unfold clear_role. apply role_is_false in H. now rewrite H.
Qed.

Lemma clear_role_Some (role : option jsstring) (sym c : jsstring) :
  clear_role role sym = Some c -> role = Some c /\ c <> sym.
Proof.
  unfold clear_role. destruct (role_is role sym) eqn:E; [discriminate |].
  intros H. split; [exact H |]. apply role_is_false in E. congruence.
Qed.

Lemma find_has_symbol (sym : jsstring) (l : list Stock) (s : Stock) :
  find (has_symbol sym) l = Some s -> In s l /\ symbol s = sym.
Proof.
  intros H. apply find_some in H. now rewrite has_symbol_true in H.
Qed.

Lemma existsb_has_symbol (sym : jsstring) (l : list Stock) :
  existsb (has_symbol sym) l = true <-> In sym (map symbol l).
Proof.
  rewrite existsb_exists, in_map_iff. split.
  - intros [s [Hin Hs]]. exists s. now rewrite has_symbol_true in Hs.
  - intros [s [Hs Hin]]. exists s. now rewrite has_symbol_true.
Qed.

Lemma find_none_not_selected (sym : jsstring) (l : list Stock) :
  find (has_symbol sym) l = None <-> ~ In sym (map symbol l).
Proof.
  rewrite <- existsb_has_symbol. split.
  - intros H E. apply existsb_exists in E. destruct E as [s [Hin Hs]].
    now rewrite (find_none _ _ H s Hin) in Hs.
  - intros H. destruct (find (has_symbol sym) l) as [s |] eqn:E; [| reflexivity].
    elim H. apply existsb_exists. exists s. now apply find_some in E.
Qed.

Lemma splice_first_length (p : Stock -> bool) (l : list Stock) :
  (List.length (splice_first p l) <= List.length l)%nat.
Proof.
  induction l as [| x l IH]; simpl; [lia |]. destruct (p x); simpl; lia.
Qed.

Lemma splice_first_keeps (sym c : jsstring) (l : list Stock) :
  c <> sym -> In c (map symbol l) ->
  In c (map symbol (splice_first (has_symbol sym) l)).
Proof.
  intros Hc. induction l as [| x l IH]; simpl; [tauto |].
  destruct (has_symbol sym x) eqn:E.
  - apply has_symbol_true in E. intros [H | H]; [congruence | exact H].
  - simpl. tauto.
Qed.

Lemma splice_first_last (sym : jsstring) (l : list Stock) (x : Stock) :
  ~ In sym (map symbol l) -> symbol x = sym ->
  splice_first (has_symbol sym) (l ++ [x]) = l.
Proof.
  intros Hn Hx. induction l as [| y l IH]; simpl.
  - apply has_symbol_true in Hx. now rewrite Hx.
  - simpl in Hn. destruct (has_symbol sym y) eqn:E.
    + apply has_symbol_true in E. tauto.
    + f_equal. apply IH. tauto.
Qed.

Lemma find_last (sym : jsstring) (l : list Stock) (x : Stock) :
  ~ In sym (map symbol l) -> symbol x = sym ->
  find (has_symbol sym) (l ++ [x]) = Some x.
Proof.
  intros Hn Hx. induction l as [| y l IH]; simpl.
  - apply has_symbol_true in Hx. now rewrite Hx.
  - simpl in Hn. destruct (has_symbol sym y) eqn:E.
    + apply has_symbol_true in E. tauto.
    + apply IH. tauto.
Qed.

(** *** The invariant under the updates the handlers make *)

Lemma roles_ok_empty : roles_ok [] None None.
Proof. repeat split; intros ? H; discriminate. Qed.

Lemma roles_ok_push (sel : list Stock) (cap vc : option jsstring) (x : Stock) :
  roles_ok sel cap vc -> roles_ok (sel ++ [x]) cap vc.
Proof.
  intros [Hd [Hc Hv]]. repeat split; [exact Hd | |];
    intros c E; rewrite map_app; apply in_or_app; left; auto.
Qed.

Lemma roles_ok_splice (sel : list Stock) (cap vc : option jsstring) (sym : jsstring) :
  roles_ok sel cap vc ->
  roles_ok (splice_first (has_symbol sym) sel) (clear_role cap sym) (clear_role vc sym).
Proof.
  intros [Hd [Hc Hv]]. repeat split.
  - intros c E F. apply clear_role_Some in E. apply clear_role_Some in F.
    destruct E as [E _], F as [F _]. exact (Hd c E F).
  - intros c E. apply clear_role_Some in E. destruct E as [E Hne].
    apply splice_first_keeps; auto.
  - intros c E. apply clear_role_Some in E. destruct E as [E Hne].
    apply splice_first_keeps; auto.
Qed.

Lemma distinct_roles_captain (vc : option jsstring) (sym : jsstring) :
  distinct_roles (Some sym) (clear_role vc sym).
Proof.
  intros c E. inversion E; subst. apply clear_role_not.
Qed.

Lemma roles_ok_captain (sel : list Stock) (cap vc : option jsstring) (sym : jsstring) :
  roles_ok sel cap vc -> In sym (map symbol sel) -> vc <> Some sym ->
  roles_ok sel (Some sym) vc.
Proof.
  intros [Hd [Hc Hv]] Hin Hne. repeat split.
  - intros c E. inversion E; subst. exact Hne.
  - intros c E. inversion E; subst. exact Hin.
  - exact Hv.
Qed.

Lemma roles_ok_vice (sel : list Stock) (cap vc : option jsstring) (sym : jsstring) :
  roles_ok sel cap vc -> In sym (map symbol sel) -> cap <> Some sym ->
  roles_ok sel cap (Some sym).
Proof.
  intros [Hd [Hc Hv]] Hin Hne. repeat split.
  - intros c E F. inversion F; subst. contradiction.
  - exact Hc.
  - intros c E. inversion E; subst. exact Hin.
Qed.

Lemma find_not_role (role : option jsstring) (sel : list Stock) (s : Stock) :
  find (App.not_role role) sel = Some s ->
  In (symbol s) (map symbol sel) /\ role <> Some (symbol s).
Proof.
  intros H. apply find_some in H. destruct H as [Hin Hr]. split.
  - now apply in_map.
  - unfold App.not_role in Hr. apply negb_true_iff in Hr. now apply role_is_false.
Qed.

End Selection.

(** ** Invariants of the selection *)

Section AppInvariants.

Import App.

Lemma app_addStock_inv (sym : jsstring) (w : World) :
  app_roles_ok w /\ (app_size w <= maxStocks)%nat ->
  app_roles_ok (fst (addStock sym w)) /\ (app_size (fst (addStock sym w)) <= maxStocks)%nat.
Proof.
  intros [Hr Hs]. unfold addStock.
  destruct (find_stock (state w) sym) as [stock |]; [| now split].
  destruct (maxStocks <=? List.length (selectedStocks (state w)))%nat eqn:E; [now split |].
  destruct (existsb (has_symbol sym) (selectedStocks (state w))); [now split |].
  apply Nat.leb_gt in E. unfold app_roles_ok, app_size in *. simpl. split.
  - now apply roles_ok_push.
  - rewrite length_app. simpl. lia.
Qed.

Lemma app_removeStock_inv (sym : jsstring) (w : World) :
  app_roles_ok w /\ (app_size w <= maxStocks)%nat ->
  app_roles_ok (fst (removeStock sym w))
  /\ (app_size (fst (removeStock sym w)) <= maxStocks)%nat.
Proof.
  intros [Hr Hs]. unfold removeStock.
  destruct (find (has_symbol sym) (selectedStocks (state w))); [| now split].
  unfold app_roles_ok, app_size in *. simpl. split.
  - now apply roles_ok_splice.
  - pose proof (splice_first_length (has_symbol sym) (selectedStocks (state w))). lia.
Qed.

Lemma app_selectCaptain_inv (w : World) :
  app_roles_ok w -> app_roles_ok (fst (selectCaptain w)).
Proof.
  intros Hr. unfold selectCaptain.
  destruct (List.length (selectedStocks (state w)) <? 1)%nat; [exact Hr |].
  destruct (find (not_role (viceCaptain (state w))) (selectedStocks (state w)))
    as [s |] eqn:E; [| exact Hr].
  apply find_not_role in E. destruct E as [Hin Hne].
  unfold app_roles_ok in *. simpl. now apply roles_ok_captain with (cap := captain (state w)).
Qed.

Lemma app_selectViceCaptain_inv (w : World) :
  app_roles_ok w -> app_roles_ok (fst (selectViceCaptain w)).
Proof.
  intros Hr. unfold selectViceCaptain.
  destruct (List.length (selectedStocks (state w)) <? 2)%nat; [exact Hr |].
  destruct (find (not_role (captain (state w))) (selectedStocks (state w)))
    as [s |] eqn:E; [| exact Hr].
  apply find_not_role in E. destruct E as [Hin Hne].
  unfold app_roles_ok in *. simpl. now apply roles_ok_vice with (vc := viceCaptain (state w)).
Qed.

Lemma app_step_inv (a : Action) (w : World) :
  app_roles_ok w /\ (app_size w <= maxStocks)%nat ->
  app_roles_ok (step a w) /\ (app_size (step a w) <= maxStocks)%nat.
Proof.
  intros H. destruct a as [sym | sym | sym | | |]; simpl.
  - now apply app_addStock_inv.
  - now apply app_removeStock_inv.
  - unfold toggleStock. destruct (find_stock (state w) sym); [| exact H].
    destruct (existsb (has_symbol sym) (selectedStocks (state w))).
    + now apply app_removeStock_inv.
    + now apply app_addStock_inv.
  - split; [apply roles_ok_empty | unfold app_size, maxStocks; simpl; lia].
  - destruct H as [Hr Hs]. split; [now apply app_selectCaptain_inv |].
    unfold selectCaptain, app_size in *.
    destruct (List.length (selectedStocks (state w)) <? 1)%nat; [exact Hs |].
    destruct (find _ _); exact Hs.
  - destruct H as [Hr Hs]. split; [now apply app_selectViceCaptain_inv |].
    unfold selectViceCaptain, app_size in *.
    destruct (List.length (selectedStocks (state w)) <? 2)%nat; [exact Hs |].
    destruct (find _ _); exact Hs.
Qed.

Lemma app_reachable_inv (w : World) :
  reachable w -> app_roles_ok w /\ (app_size w <= maxStocks)%nat.
Proof.
  induction 1 as [w [Hs [Hc Hv]] | w a _ IH | w w' _ IH Es Ec Ev].
  - unfold app_roles_ok, app_size. rewrite Hs, Hc, Hv. split.
    + apply roles_ok_empty.
    + unfold maxStocks. simpl. lia.
  - now apply app_step_inv.
  - unfold app_roles_ok, app_size in *. now rewrite Es, Ec, Ev.
Qed.

End AppInvariants.

Section StockQuestInvariants.

Import StockQuest.

Lemma sq_addStock_inv (sym : jsstring) (w : World) :
  sq_roles_ok w /\ (sq_size w <= maxStocks)%nat ->
  sq_roles_ok (fst (addStock sym w)) /\ (sq_size (fst (addStock sym w)) <= maxStocks)%nat.
Proof.
  intros [Hr Hs]. unfold addStock.
  destruct (find (has_symbol sym) (stocks (state w))) as [stock |]; [| now split].
  destruct (maxStocks <=? List.length (selectedStocks (state w)))%nat eqn:E; [now split |].
  destruct (existsb (has_symbol sym) (selectedStocks (state w))); [now split |].
  apply Nat.leb_gt in E. unfold sq_roles_ok, sq_size in *. simpl. split.
  - now apply roles_ok_push.
  - rewrite length_app. simpl. lia.
Qed.

Lemma sq_removeStock_inv (sym : jsstring) (w : World) :
  sq_roles_ok w /\ (sq_size w <= maxStocks)%nat ->
  sq_roles_ok (fst (removeStock sym w))
  /\ (sq_size (fst (removeStock sym w)) <= maxStocks)%nat.
Proof.
  intros [Hr Hs]. unfold removeStock.
  destruct (find (has_symbol sym) (selectedStocks (state w))); [| now split].
  unfold sq_roles_ok, sq_size in *. simpl. split.
  - now apply roles_ok_splice.
  - pose proof (splice_first_length (has_symbol sym) (selectedStocks (state w))). lia.
Qed.

Lemma sq_step_inv (a : Action) (w : World) :
  offered a w ->
  sq_roles_ok w /\ (sq_size w <= maxStocks)%nat ->
  sq_roles_ok (step a w) /\ (sq_size (step a w) <= maxStocks)%nat.
Proof.
  intros Ho H. destruct a as [sym | sym | sym | | sym | sym]; simpl in *.
  - now apply sq_addStock_inv.
  - now apply sq_removeStock_inv.
  - unfold toggleStock. destruct (find (has_symbol sym) (stocks (state w))); [| exact H].
    destruct (existsb (has_symbol sym) (selectedStocks (state w))).
    + now apply sq_removeStock_inv.
    + now apply sq_addStock_inv.
  - split; [apply roles_ok_empty | unfold sq_size, maxStocks; simpl; lia].
  - destruct H as [[Hd [Hc Hv]] Hs]. split; [| exact Hs].
    unfold sq_roles_ok. simpl. repeat split.
    + apply distinct_roles_captain.
    + intros c E. inversion E; subst. exact Ho.
    + intros c E. apply clear_role_Some in E. destruct E as [E _]. now apply Hv.
  - unfold setViceCaptain.
    destruct (role_is (captain (state w)) sym) eqn:E; [exact H |].
    destruct H as [Hr Hs]. split; [| exact Hs].
    apply role_is_false in E. unfold sq_roles_ok in *. simpl.
    now apply roles_ok_vice with (vc := viceCaptain (state w)).
Qed.

Lemma sq_ui_reachable_inv (w : World) :
  ui_reachable w -> sq_roles_ok w /\ (sq_size w <= maxStocks)%nat.
Proof.
  induction 1 as [w [Hs [Hc Hv]] | w a _ IH Ho | w w' _ IH Es Ec Ev].
  - unfold sq_roles_ok, sq_size. rewrite Hs, Hc, Hv. split.
    + apply roles_ok_empty.
    + unfold maxStocks. simpl. lia.
  - now apply sq_step_inv.
  - unfold sq_roles_ok, sq_size in *. now rewrite Es, Ec, Ev.
Qed.

(** Whatever symbol the handlers are called with, the two roles stay
    distinct and the selection stays within its capacity. *)
Lemma sq_step_weak_inv (a : Action) (w : World) :
  sq_distinct w /\ (sq_size w <= maxStocks)%nat ->
  sq_distinct (step a w) /\ (sq_size (step a w) <= maxStocks)%nat.
Proof.
  intros [Hd Hs].
  assert (Hadd : forall sym, sq_distinct (fst (addStock sym w))
                             /\ (sq_size (fst (addStock sym w)) <= maxStocks)%nat).
  { intros sym. unfold addStock.
    destruct (find (has_symbol sym) (stocks (state w))) as [stock |]; [| now split].
    destruct (maxStocks <=? List.length (selectedStocks (state w)))%nat eqn:E;
      [now split |].
    destruct (existsb (has_symbol sym) (selectedStocks (state w))); [now split |].
    apply Nat.leb_gt in E. unfold sq_distinct, sq_size in *. simpl.
    split; [exact Hd | rewrite length_app; simpl; lia]. }
  assert (Hrem : forall sym, sq_distinct (fst (removeStock sym w))
                             /\ (sq_size (fst (removeStock sym w)) <= maxStocks)%nat).
  { intros sym. unfold removeStock.
    destruct (find (has_symbol sym) (selectedStocks (state w))); [| now split].
    unfold sq_distinct, sq_size in *. simpl. split.
    - intros c E F. apply clear_role_Some in E. apply clear_role_Some in F.
      destruct E as [E _], F as [F _]. exact (Hd c E F).
    - pose proof (splice_first_length (has_symbol sym) (selectedStocks (state w))). lia. }
  destruct a as [sym | sym | sym | | sym | sym]; simpl.
  - apply Hadd.
  - apply Hrem.
  - unfold toggleStock. destruct (find (has_symbol sym) (stocks (state w))); [| now split].
    destruct (existsb (has_symbol sym) (selectedStocks (state w))); [apply Hrem | apply Hadd].
  - split; [intros c E; discriminate | unfold sq_size, maxStocks; simpl; lia].
  - split; [apply distinct_roles_captain | exact Hs].
  - unfold setViceCaptain.
    destruct (role_is (captain (state w)) sym) eqn:E; [now split |].
    apply role_is_false in E. split; [| exact Hs].
    unfold sq_distinct. simpl. intros c Hc F. inversion F; subst. contradiction.
Qed.

Lemma sq_reachable_inv (w : World) :
  reachable w -> sq_distinct w /\ (sq_size w <= maxStocks)%nat.
Proof.
  induction 1 as [w [Hs [Hc Hv]] | w a _ IH | w w' _ IH Es Ec Ev].
  - unfold sq_distinct, sq_size. rewrite Hs, Hc, Hv. split.
    + intros c E. discriminate.
    + unfold maxStocks. simpl. lia.
  - now apply sq_step_weak_inv.
  - unfold sq_distinct, sq_size in *. now rewrite Es, Ec, Ev.
Qed.

End StockQuestInvariants.

(** ** Roles, capacity and the add/remove round trip *)

Section TeamClaims.

(** C4 (counterexample).  In stockquest.js [setCaptain] takes any
    symbol: called on the empty selection it makes a symbol the captain
    although no stock is selected. *)
Lemma setCaptain_accepts_unselected :
  StockQuest.reachable (StockQuest.step (StockQuest.SetCaptain TCS) sq_fresh_page)
  /\ StockQuest.captain
       (StockQuest.state (StockQuest.step (StockQuest.SetCaptain TCS) sq_fresh_page))
     = Some TCS
  /\ sq_symbols (StockQuest.step (StockQuest.SetCaptain TCS) sq_fresh_page) = []
  /\ ~ sq_roles_ok (StockQuest.step (StockQuest.SetCaptain TCS) sq_fresh_page).
Proof.
  split; [| split; [reflexivity | split; [reflexivity |]]].
  - apply StockQuest.reach_step, StockQuest.reach_initial. repeat split.
  - intros [_ [Hc _]]. exact (Hc TCS eq_refl).
Qed.

(** C4 (amended).  The captain and the vice-captain are never the same
    symbol in any state reachable through the handlers of either file.
    Each role that is set names a selected stock in every state
    reachable in app.js, and in every state reachable in stockquest.js
    through the rendered buttons, that is, when [setCaptain] and
    [setViceCaptain] are called with the symbol of a selected stock.
    In both files removing a selected stock leaves neither role on its
    symbol and leaves a role held by another symbol as it was. *)
Theorem roles_invariant :
  (forall w, App.reachable w -> app_roles_ok w)
  /\ (forall w, StockQuest.ui_reachable w -> sq_roles_ok w)
  /\ (forall w, StockQuest.reachable w -> sq_distinct w)
  /\ (forall sym w, In sym (app_symbols w) ->
        let s' := App.state (fst (App.removeStock sym w)) in
        App.captain s' = clear_role (App.captain (App.state w)) sym
        /\ App.viceCaptain s' = clear_role (App.viceCaptain (App.state w)) sym
        /\ App.captain s' <> Some sym /\ App.viceCaptain s' <> Some sym)
  /\ (forall sym w, In sym (sq_symbols w) ->
        let s' := StockQuest.state (fst (StockQuest.removeStock sym w)) in
        StockQuest.captain s' = clear_role (StockQuest.captain (StockQuest.state w)) sym
        /\ StockQuest.viceCaptain s'
           = clear_role (StockQuest.viceCaptain (StockQuest.state w)) sym
        /\ StockQuest.captain s' <> Some sym /\ StockQuest.viceCaptain s' <> Some sym).
Proof.
  split; [intros w H; now apply app_reachable_inv |].
  split; [intros w H; now apply sq_ui_reachable_inv |].
  split; [intros w H; now apply sq_reachable_inv |].
  split.
  - intros sym w Hin. unfold app_symbols in Hin. unfold App.removeStock.
    destruct (find (has_symbol sym) (App.selectedStocks (App.state w))) eqn:E.
    + simpl. repeat split; apply clear_role_not.
    + apply find_none_not_selected in E. contradiction.
  - intros sym w Hin. unfold sq_symbols in Hin. unfold StockQuest.removeStock.
    destruct (find (has_symbol sym) (StockQuest.selectedStocks (StockQuest.state w))) eqn:E.
    + simpl. repeat split; apply clear_role_not.
    + apply find_none_not_selected in E. contradiction.
Qed.

(** The amended C4 on the page reached by the clicks add TCS, add INFY,
    select captain, select vice-captain, from which TCS is then
    removed. *)
Lemma roles_invariant_witness :
  app_roles_ok two_stock_page
  /\ App.captain (App.state two_stock_page) = Some TCS
  /\ App.captain (App.state (fst (App.removeStock TCS two_stock_page))) <> Some TCS.
Proof.
  destruct roles_invariant as [Happ [_ [_ [Hrem _]]]]. split; [| split].
  - apply Happ. unfold two_stock_page. do 4 apply App.reach_step.
    apply App.reach_initial. repeat split.
  - reflexivity.
  - apply (Hrem TCS two_stock_page). vm_compute. tauto.
Defined.

(** C5.  The selection never holds more than 11 stocks, in any state
    reachable in either file; on a selection that holds 11 stocks (or
    more) [addStock] changes nothing, and what it emits is the warning
    that the maximum is reached (nothing at all when the symbol is not in
    the catalogue). *)
Theorem selection_capacity :
  (forall w, App.reachable w -> (app_size w <= 11)%nat)
  /\ (forall w, StockQuest.reachable w -> (sq_size w <= 11)%nat)
  /\ (forall sym w, (11 <= app_size w)%nat ->
        fst (App.addStock sym w) = w
        /\ snd (App.addStock sym w)
           = match App.find_stock (App.state w) sym with
             | Some _ => showToast "Maximum 11 stocks allowed" error
             | None => []
             end)
  /\ (forall sym w, (11 <= sq_size w)%nat ->
        fst (StockQuest.addStock sym w) = w
        /\ snd (StockQuest.addStock sym w)
           = match find (has_symbol sym) (StockQuest.stocks (StockQuest.state w)) with
             | Some _ => showToast "Maximum 11 stocks allowed" error
             | None => []
             end).
Proof.
  split; [intros w H; now apply app_reachable_inv |].
  split; [intros w H; now apply sq_reachable_inv |].
  split.
  - intros sym w H. unfold App.addStock, app_size in *.
    destruct (App.find_stock (App.state w) sym); [| now split].
    apply Nat.leb_le in H. unfold maxStocks. rewrite H. now split.
  - intros sym w H. unfold StockQuest.addStock, sq_size in *.
    destruct (find (has_symbol sym) (StockQuest.stocks (StockQuest.state w))); [| now split].
    apply Nat.leb_le in H. unfold maxStocks. rewrite H. now split.
Qed.

(** C5 on the page with eleven selected stocks, to which a twelfth
    stock of the catalogue is added, and on the fresh page after one
    stock is added. *)
Lemma selection_capacity_witness :
  fst (App.addStock BPCL full_page) = full_page
  /\ snd (App.addStock BPCL full_page) = showToast "Maximum 11 stocks allowed" error
  /\ (app_size (App.step (App.AddStock TCS) fresh_page) <= 11)%nat.
Proof.
  destruct selection_capacity as [Hreach [_ [Hfull _]]].
  destruct (Hfull BPCL full_page) as [H1 H2]; [vm_compute; lia |].
  split; [exact H1 |]. split; [exact H2 |].
  apply Hreach. apply App.reach_step, App.reach_initial. repeat split.
Defined.

(** C6 (counterexample).  When the symbol is already selected,
    [addStock] refuses it and [removeStock] then removes the stock and
    clears the role it holds: the selection [TCS] with captain TCS ends
    empty and without captain. *)
Lemma add_remove_selected_symbol :
  App.selectedStocks
    (App.state (fst (App.removeStock TCS (fst (App.addStock TCS tcs_captain_page))))) = []
  /\ App.captain
       (App.state (fst (App.removeStock TCS (fst (App.addStock TCS tcs_captain_page)))))
     = None
  /\ App.state (fst (App.removeStock TCS (fst (App.addStock TCS tcs_captain_page))))
     <> App.state tcs_captain_page.
Proof.
  repeat split. intros H. vm_compute in H. discriminate.
Qed.

(** C6 (amended).  For every state and every symbol that is not selected
    and holds no role, [addStock] followed by [removeStock] of the
    symbol gives back the state it started from: the same selected
    stocks in the same order, the same captain and vice-captain (and the
    same catalogue and balance), in both files.  In a state reachable
    in app.js, or reachable in stockquest.js through the rendered
    buttons, a symbol that is not selected holds no role, so there the
    round trip holds for every symbol that is not selected. *)
Theorem add_then_remove (sym : jsstring) :
  (forall w, ~ In sym (app_symbols w) ->
     App.captain (App.state w) <> Some sym ->
     App.viceCaptain (App.state w) <> Some sym ->
     App.state (fst (App.removeStock sym (fst (App.addStock sym w)))) = App.state w)
  /\ (forall w, ~ In sym (sq_symbols w) ->
        StockQuest.captain (StockQuest.state w) <> Some sym ->
        StockQuest.viceCaptain (StockQuest.state w) <> Some sym ->
        fst (StockQuest.removeStock sym (fst (StockQuest.addStock sym w))) = w)
  /\ (forall w, App.reachable w -> ~ In sym (app_symbols w) ->
        App.state (fst (App.removeStock sym (fst (App.addStock sym w)))) = App.state w)
  /\ (forall w, StockQuest.ui_reachable w -> ~ In sym (sq_symbols w) ->
        fst (StockQuest.removeStock sym (fst (StockQuest.addStock sym w))) = w).
Proof.
  assert (Happ : forall w, ~ In sym (app_symbols w) ->
     App.captain (App.state w) <> Some sym ->
     App.viceCaptain (App.state w) <> Some sym ->
     App.state (fst (App.removeStock sym (fst (App.addStock sym w)))) = App.state w).
  { intros w Hn Hc Hv. unfold app_symbols in Hn.
    assert (Hnone : find (has_symbol sym) (App.selectedStocks (App.state w)) = None)
      by now apply find_none_not_selected.
    assert (Hidle : App.state (fst (App.removeStock sym w)) = App.state w)
      by (unfold App.removeStock; now rewrite Hnone).
    unfold App.addStock.
    destruct (App.find_stock (App.state w) sym) as [stock |] eqn:Ef; [| exact Hidle].
    destruct (maxStocks <=? List.length (App.selectedStocks (App.state w)))%nat;
      [exact Hidle |].
    destruct (existsb (has_symbol sym) (App.selectedStocks (App.state w))); [exact Hidle |].
    assert (Hs : symbol stock = sym).
    { unfold App.find_stock in Ef.
      destruct (find (has_symbol sym) (App.stocks (App.state w))) eqn:E1.
      - inversion Ef; subst. now apply find_has_symbol in E1.
      - now apply find_has_symbol in Ef. }
    unfold App.removeStock. simpl. rewrite (find_last _ _ _ Hn Hs). simpl.
    rewrite (splice_first_last _ _ _ Hn Hs), !clear_role_other by assumption.
    now destruct (App.state w). }
  assert (Hsq : forall w, ~ In sym (sq_symbols w) ->
        StockQuest.captain (StockQuest.state w) <> Some sym ->
        StockQuest.viceCaptain (StockQuest.state w) <> Some sym ->
        fst (StockQuest.removeStock sym (fst (StockQuest.addStock sym w))) = w).
  { intros w Hn Hc Hv. unfold sq_symbols in Hn.
    assert (Hnone : find (has_symbol sym)
                         (StockQuest.selectedStocks (StockQuest.state w)) = None)
      by now apply find_none_not_selected.
    assert (Hidle : fst (StockQuest.removeStock sym w) = w)
      by (unfold StockQuest.removeStock; now rewrite Hnone).
    unfold StockQuest.addStock.
    destruct (find (has_symbol sym) (StockQuest.stocks (StockQuest.state w)))
      as [stock |] eqn:Ef; [| exact Hidle].
    destruct (maxStocks <=? List.length (StockQuest.selectedStocks (StockQuest.state w)))%nat;
      [exact Hidle |].
    destruct (existsb (has_symbol sym) (StockQuest.selectedStocks (StockQuest.state w)));
      [exact Hidle |].
    assert (Hs : symbol stock = sym) by now apply find_has_symbol in Ef.
    unfold StockQuest.removeStock. simpl. rewrite (find_last _ _ _ Hn Hs). simpl.
    rewrite (splice_first_last _ _ _ Hn Hs), !clear_role_other by assumption.
    destruct w as [s l]. now destruct s. }
  split; [exact Happ |]. split; [exact Hsq |]. split.
  - intros w Hr Hn. apply app_reachable_inv in Hr. destruct Hr as [[_ [Hc Hv]] _].
    apply Happ; [exact Hn | |]; intros E; apply Hn; [now apply Hc | now apply Hv].
  - intros w Hr Hn. apply sq_ui_reachable_inv in Hr. destruct Hr as [[_ [Hc Hv]] _].
    apply Hsq; [exact Hn | |]; intros E; apply Hn; [now apply Hc | now apply Hv].
Qed.

(** The amended C6 on the page whose selection is INFY with captain
    INFY, to which TCS is added and then removed. *)
Lemma add_then_remove_witness :
  App.state (fst (App.removeStock TCS (fst (App.addStock TCS infy_captain_page))))
  = App.state infy_captain_page.
Proof.
  destruct (add_then_remove TCS) as [H _]. apply H.
  - vm_compute. intros [E | []]. discriminate.
  - vm_compute. discriminate.
  - vm_compute. discriminate.
Defined.

(** C10.  In stockquest.js the two role handlers settle a conflict in
    different ways: [setCaptain(s)] on the current vice-captain [s]
    makes [s] the captain and leaves the vice-captain unset, with a
    success toast; [setViceCaptain(s)] on the current captain [s]
    reports an error and changes nothing. *)
Theorem role_conflict_asymmetry (sym : jsstring) (w : StockQuest.World) :
  (StockQuest.viceCaptain (StockQuest.state w) = Some sym ->
     let s' := StockQuest.state (fst (StockQuest.setCaptain sym w)) in
     StockQuest.captain s' = Some sym
     /\ StockQuest.viceCaptain s' = None
     /\ StockQuest.selectedStocks s' = StockQuest.selectedStocks (StockQuest.state w)
     /\ snd (StockQuest.setCaptain sym w) = showToast "Captain selected! (2x points)" success)
  /\ (StockQuest.captain (StockQuest.state w) = Some sym ->
        StockQuest.setViceCaptain sym w
        = (w, showToast "Captain cannot be Vice Captain" error)).
Proof.
  split.
  - intros H. simpl. unfold clear_role. apply role_is_true in H. now rewrite H.
  - intros H. unfold StockQuest.setViceCaptain. apply role_is_true in H. now rewrite H.
Qed.

(** C10 on the page whose captain is TCS and whose vice-captain is
    INFY. *)
Lemma role_conflict_asymmetry_witness :
  (StockQuest.captain (StockQuest.state (fst (StockQuest.setCaptain INFY sq_team_page)))
   = Some INFY
   /\ StockQuest.viceCaptain
        (StockQuest.state (fst (StockQuest.setCaptain INFY sq_team_page))) = None)
  /\ StockQuest.setViceCaptain TCS sq_team_page
     = (sq_team_page, showToast "Captain cannot be Vice Captain" error).
Proof.
  split.
  - destruct (role_conflict_asymmetry INFY sq_team_page) as [H _].
    destruct (H eq_refl) as [H1 [H2 _]]. split; assumption.
  - destruct (role_conflict_asymmetry TCS sq_team_page) as [_ H]. apply H. reflexivity.
Defined.

End TeamClaims.

(** ** Submission *)

Section Ledger.

Lemma app_canCreate_iff (w : App.World) :
  App.canCreate (App.state w) = true <->
  (5 <= app_size w)%nat
  /\ role_set (App.captain (App.state w)) = true
  /\ role_set (App.viceCaptain (App.state w)) = true.
Proof.
  unfold App.canCreate, app_size, minStocks.
  rewrite !andb_true_iff, Nat.leb_le. tauto.
Qed.

(** [renderTeamList] disables the submit button exactly when
    [canCreate] is false. *)
Lemma render_flag (w : App.World) :
  App.createBtnDisabled (App.renderTeamList w) = negb (App.canCreate (App.state w)).
Proof.
  unfold App.renderTeamList, App.canCreate. simpl.
  now destruct (App.selectedStocks (App.state w)).
Qed.

(** What [createPortfolio] of app.js does, by the guard that stops it. *)
Lemma app_createPortfolio_cases (w : App.World) :
  (App.canCreate (App.state w) = false
   /\ exists ts, In ts incomplete_team /\ App.createPortfolio w = (w, ts, None))
  \/ (App.canCreate (App.state w) = true /\ num_gtb (app_cost w) (app_balance w) = true
      /\ App.createPortfolio w = (w, showToast "Insufficient balance" error, None))
  \/ (App.canCreate (App.state w) = true /\ num_gtb (app_cost w) (app_balance w) = false
      /\ (App.createPortfolio w = (w, showToast "You must be logged in" error, None)
          \/ exists u, App.user (App.state w) = Some u /\ App.database w = true
               /\ App.createPortfolio w
                  = (w, [], Some (App.AwaitCreatePortfolio (app_cost w)
                       (App.Database_createPortfolio (App.uid u)
                          (holdings (App.selectedStocks (App.state w)))
                          (App.captain (App.state w)) (App.viceCaptain (App.state w))
                          (app_cost w)))))).
Proof.
  unfold App.createPortfolio, App.canCreate, app_cost, app_balance, incomplete_team.
  destruct (List.length (App.selectedStocks (App.state w)) <? minStocks)%nat eqn:El.
  { left. apply Nat.ltb_lt in El. apply Nat.leb_gt in El. rewrite El. split; [reflexivity |].
    eexists. split; [left; reflexivity | reflexivity]. }
  apply Nat.ltb_ge in El. apply Nat.leb_le in El. rewrite El.
  destruct (role_set (App.captain (App.state w))); simpl.
  2: { left. split; [reflexivity |]. eexists. split; [right; left; reflexivity | reflexivity]. }
  destruct (role_set (App.viceCaptain (App.state w))); simpl.
  2: { left. split; [reflexivity |].
       eexists. split; [right; right; left; reflexivity | reflexivity]. }
  destruct (num_gtb (totalCost (App.selectedStocks (App.state w)))
                    (App.balance (App.state w))).
  { right. left. repeat split. }
  right. right. split; [reflexivity |]. split; [reflexivity |].
  destruct (App.user (App.state w)) as [u |]; [| now left].
  destruct (App.database w) eqn:Ed; [| now left].
  right. exists u. repeat split.
Qed.

(** The same for [createPortfolio] of stockquest.js. *)
Lemma sq_createPortfolio_cases (now date : Z) (w : StockQuest.World) :
  (StockQuest.canCreate (StockQuest.state w) = false
   /\ exists ts, In ts incomplete_team /\ StockQuest.createPortfolio now date w = (w, ts))
  \/ (StockQuest.canCreate (StockQuest.state w) = true
      /\ num_gtb (sq_cost w) (sq_balance w) = true
      /\ StockQuest.createPortfolio now date w
         = (w, showToast "Insufficient balance" error))
  \/ (StockQuest.canCreate (StockQuest.state w) = true
      /\ num_gtb (sq_cost w) (sq_balance w) = false
      /\ sq_balance (fst (StockQuest.createPortfolio now date w))
         = num_sub (sq_balance w) (sq_cost w)
      /\ StockQuest.stockquest_portfolios
           (StockQuest.localStorage (fst (StockQuest.createPortfolio now date w)))
         = StockQuest.stockquest_portfolios (StockQuest.localStorage w)
           ++ [StockQuest.mkPortfolio now
                 (holdings (StockQuest.selectedStocks (StockQuest.state w)))
                 (StockQuest.captain (StockQuest.state w))
                 (StockQuest.viceCaptain (StockQuest.state w)) (sq_cost w) date]).
Proof.
  unfold StockQuest.createPortfolio, StockQuest.canCreate, sq_cost, sq_balance,
    incomplete_team.
  destruct (List.length (StockQuest.selectedStocks (StockQuest.state w)) <? minStocks)%nat
    eqn:El.
  { left. apply Nat.ltb_lt in El. apply Nat.leb_gt in El. rewrite El. split; [reflexivity |].
    eexists. split; [left; reflexivity | reflexivity]. }
  apply Nat.ltb_ge in El. apply Nat.leb_le in El. rewrite El.
  destruct (role_set (StockQuest.captain (StockQuest.state w))); simpl.
  2: { left. split; [reflexivity |]. eexists. split; [right; left; reflexivity | reflexivity]. }
  destruct (role_set (StockQuest.viceCaptain (StockQuest.state w))); simpl.
  2: { left. split; [reflexivity |].
       eexists. split; [right; right; left; reflexivity | reflexivity]. }
  destruct (num_gtb (totalCost (StockQuest.selectedStocks (StockQuest.state w)))
                    (StockQuest.balance (StockQuest.state w))).
  { right. left. repeat split. }
  right. right. repeat split.
Qed.

(** Once the balance is debited the rest of the call leaves it alone. *)
Lemma settle_keeps_balance (rs : list App.Settled) :
  forall w ts p, past_debit p ->
    app_balance (fst (fst (App.settle rs (w, ts, p)))) = app_balance w.
Proof.
  induction rs as [| r rs IH]; intros w ts p Hp; [now destruct p |].
  destruct p as [[tc doc | uid b | uid nm] |]; simpl in *; try contradiction;
    try reflexivity.
  - destruct r as [| msg]; simpl.
    + destruct (App.user (App.state w)) as [u |]; rewrite IH; simpl; auto.
    + now rewrite IH.
  - destruct r as [| msg]; simpl; now rewrite IH.
Qed.

(** One whole submission in app.js ends with the balance it started
    with, or with that balance less a cost it covers. *)
Lemma app_run_balance (rs : list App.Settled) (w : App.World) :
  app_balance (fst (fst (App.createPortfolio_run rs w))) = app_balance w
  \/ (num_gtb (app_cost w) (app_balance w) = false
      /\ app_balance (fst (fst (App.createPortfolio_run rs w)))
         = num_sub (app_balance w) (app_cost w)).
Proof.
  unfold App.createPortfolio_run.
  destruct (app_createPortfolio_cases w)
    as [[_ [ts [_ E]]] | [[_ [_ E]] | [_ [Hc [E | [u [Hu [Hd E]]]]]]]];
    rewrite E; try (left; now destruct rs).
  destruct rs as [| [| msg] rs]; [now left | | left].
  - right. split; [exact Hc |]. simpl. rewrite Hu.
    rewrite settle_keeps_balance by exact I. reflexivity.
  - simpl. now rewrite settle_keeps_balance.
Qed.

(** The submission handlers leave the reachable states of app.js
    reachable: [createPortfolio] changes nothing before its first
    [await], and what follows an [await] keeps the selection or clears
    it as [clearTeam] does. *)
Lemma app_reachable_submission (w : App.World) :
  App.reachable w ->
  App.reachable (fst (fst (App.createPortfolio w)))
  /\ forall r p, App.reachable (fst (fst (App.resume r p w))).
Proof.
  intros Hr. split.
  - destruct (app_createPortfolio_cases w)
      as [[_ [ts [_ E]]] | [[_ [_ E]] | [_ [_ [E | [u [_ [_ E]]]]]]]];
      now rewrite E.
  - intros [| msg] p; [| exact Hr].
    destruct p as [tc doc | uid b | uid nm]; simpl.
    + destruct (App.user (App.state w));
        apply (App.reach_elsewhere w); auto.
    + destruct (App.user (App.state w));
        apply (App.reach_elsewhere w); auto.
    + apply (App.reach_elsewhere (App.step App.ClearTeam w)); auto.
      now apply App.reach_step.
Qed.

(** The same for [createPortfolio] of stockquest.js. *)
Lemma sq_reachable_submission (now date : Z) (w : StockQuest.World) :
  (StockQuest.reachable w ->
   StockQuest.reachable (fst (StockQuest.createPortfolio now date w)))
  /\ (StockQuest.ui_reachable w ->
      StockQuest.ui_reachable (fst (StockQuest.createPortfolio now date w))).
Proof.
  unfold StockQuest.createPortfolio.
  destruct (List.length (StockQuest.selectedStocks (StockQuest.state w)) <? minStocks)%nat;
    [now split |].
  destruct (negb (role_set (StockQuest.captain (StockQuest.state w)))); [now split |].
  destruct (negb (role_set (StockQuest.viceCaptain (StockQuest.state w)))); [now split |].
  destruct (num_gtb _ _); [now split |]. split; intros Hr.
  - apply (StockQuest.reach_elsewhere (StockQuest.step StockQuest.ClearTeam w)); auto.
    now apply StockQuest.reach_step.
  - apply (StockQuest.ui_elsewhere (StockQuest.step StockQuest.ClearTeam w)); auto.
    now apply StockQuest.ui_step.
Qed.

(** C7 (counterexample).  With five stocks of price 100,000, both roles
    set and a balance of 1,000,000, [canCreate] is true, and the submit
    button enabled, although the total cost of 5,000,000 exceeds the
    balance. *)
Lemma canCreate_ignores_balance :
  App.canCreate (App.state costly_team_page) = true
  /\ App.createBtnDisabled costly_team_page = false
  /\ num_gtb (app_cost costly_team_page) (app_balance costly_team_page) = true.
Proof. repeat split. Qed.

(** C7 (amended).  With fewer than 5 selected stocks [canCreate] is
    false whatever the roles are, and [createPortfolio] rejects the
    submission with the toast that asks for at least 5 stocks, changing
    nothing.  [canCreate], which [renderTeamList] negates into the
    [disabled] flag of the submit button, is true exactly when at least
    5 stocks are selected and both roles are set; it does not look at
    the balance.  [createPortfolio] goes past its validation only when,
    in addition, the total cost does not exceed the balance. *)
Theorem canCreate_and_submission (w : App.World) :
  ((app_size w < 5)%nat ->
     App.canCreate (App.state w) = false
     /\ App.createPortfolio w = (w, showToast "Select at least 5 stocks" error, None))
  /\ (App.canCreate (App.state w) = true <->
      (5 <= app_size w)%nat
      /\ role_set (App.captain (App.state w)) = true
      /\ role_set (App.viceCaptain (App.state w)) = true)
  /\ App.createBtnDisabled (App.renderTeamList w) = negb (App.canCreate (App.state w))
  /\ (forall w' ts p, App.createPortfolio w = (w', ts, Some p) ->
        App.canCreate (App.state w) = true
        /\ num_gtb (app_cost w) (app_balance w) = false).
Proof.
  split; [| split; [apply app_canCreate_iff | split]].
  - intros H. unfold App.canCreate, App.createPortfolio, app_size, minStocks in *.
    pose proof H as H'. apply Nat.ltb_lt in H. apply Nat.leb_gt in H'.
    now rewrite H, H'.
  - apply render_flag.
  - intros w' ts p E.
    destruct (app_createPortfolio_cases w)
      as [[_ [t [_ F]]] | [[_ [_ F]] | [Hc [Hb _]]]];
      [rewrite F in E; discriminate | rewrite F in E; discriminate | now split].
Qed.

(** The amended C7 on the page with four selected stocks and both roles
    set. *)
Lemma canCreate_and_submission_witness :
  App.canCreate (App.state four_stock_page) = false
  /\ App.createPortfolio four_stock_page
     = (four_stock_page, showToast "Select at least 5 stocks" error, None).
Proof.
  destruct (canCreate_and_submission four_stock_page) as [H _]. apply H.
  vm_compute. lia.
Defined.

(** C2 (counterexample).  One selected stock of price 200,000 and a
    balance of 1,000,000: the total cost of 2,000,000 exceeds the
    balance, and [createPortfolio] reports that at least 5 stocks are
    needed, not that the balance is insufficient. *)
Lemma unaffordable_incomplete_team :
  num_gtb (app_cost costly_stock_page) (app_balance costly_stock_page) = true
  /\ App.createPortfolio costly_stock_page
     = (costly_stock_page, showToast "Select at least 5 stocks" error, None)
  /\ showToast "Select at least 5 stocks" error <> showToast "Insufficient balance" error.
Proof. repeat split. discriminate. Qed.

(** The error of the first guard of [createPortfolio] that fails, for a
    selection that costs more than the balance: the three guards on the
    team come first, in this order, and the guard on the balance last. *)
Lemma app_guards_in_order (w : App.World) :
  num_gtb (app_cost w) (app_balance w) = true ->
  exists ts, App.createPortfolio w = (w, ts, None)
    /\ ((app_size w < 5)%nat -> ts = showToast "Select at least 5 stocks" error)
    /\ ((5 <= app_size w)%nat -> role_set (App.captain (App.state w)) = false ->
        ts = showToast "Please select a Captain" error)
    /\ ((5 <= app_size w)%nat -> role_set (App.captain (App.state w)) = true ->
        role_set (App.viceCaptain (App.state w)) = false ->
        ts = showToast "Please select a Vice Captain" error)
    /\ ((5 <= app_size w)%nat -> role_set (App.captain (App.state w)) = true ->
        role_set (App.viceCaptain (App.state w)) = true ->
        ts = showToast "Insufficient balance" error).
Proof.
  unfold app_cost, app_balance, app_size, App.createPortfolio, minStocks. intros Hb.
  destruct (List.length (App.selectedStocks (App.state w)) <? 5)%nat eqn:El.
  { apply Nat.ltb_lt in El. eexists. split; [reflexivity |].
    repeat split; intros; first [reflexivity | lia]. }
  apply Nat.ltb_ge in El.
  destruct (role_set (App.captain (App.state w))) eqn:Ec; simpl.
  2: { eexists. split; [reflexivity |].
       repeat split; intros; first [reflexivity | lia | discriminate]. }
  destruct (role_set (App.viceCaptain (App.state w))) eqn:Ev; simpl.
  2: { eexists. split; [reflexivity |].
       repeat split; intros; first [reflexivity | lia | discriminate]. }
  rewrite Hb. eexists. split; [reflexivity |].
  repeat split; intros; first [reflexivity | lia | discriminate].
Qed.

Lemma sq_guards_in_order (now date : Z) (w : StockQuest.World) :
  num_gtb (sq_cost w) (sq_balance w) = true ->
  exists ts, StockQuest.createPortfolio now date w = (w, ts)
    /\ ((sq_size w < 5)%nat -> ts = showToast "Select at least 5 stocks" error)
    /\ ((5 <= sq_size w)%nat -> role_set (StockQuest.captain (StockQuest.state w)) = false ->
        ts = showToast "Please select a Captain" error)
    /\ ((5 <= sq_size w)%nat -> role_set (StockQuest.captain (StockQuest.state w)) = true ->
        role_set (StockQuest.viceCaptain (StockQuest.state w)) = false ->
        ts = showToast "Please select a Vice Captain" error)
    /\ ((5 <= sq_size w)%nat -> role_set (StockQuest.captain (StockQuest.state w)) = true ->
        role_set (StockQuest.viceCaptain (StockQuest.state w)) = true ->
        ts = showToast "Insufficient balance" error).
Proof.
  unfold sq_cost, sq_balance, sq_size, StockQuest.createPortfolio, minStocks. intros Hb.
  destruct (List.length (StockQuest.selectedStocks (StockQuest.state w)) <? 5)%nat eqn:El.
  { apply Nat.ltb_lt in El. eexists. split; [reflexivity |].
    repeat split; intros; first [reflexivity | lia]. }
  apply Nat.ltb_ge in El.
  destruct (role_set (StockQuest.captain (StockQuest.state w))) eqn:Ec; simpl.
  2: { eexists. split; [reflexivity |].
       repeat split; intros; first [reflexivity | lia | discriminate]. }
  destruct (role_set (StockQuest.viceCaptain (StockQuest.state w))) eqn:Ev; simpl.
  2: { eexists. split; [reflexivity |].
       repeat split; intros; first [reflexivity | lia | discriminate]. }
  rewrite Hb. eexists. split; [reflexivity |].
  repeat split; intros; first [reflexivity | lia | discriminate].
Qed.

(** C2 (amended).  When the total cost of the selection exceeds the
    balance, [createPortfolio] of either file changes nothing (balance,
    stored portfolios, selection) and reports exactly one error, that of
    the first guard that fails: "Select at least 5 stocks" with fewer
    than 5 stocks; otherwise "Please select a Captain" without a
    captain; otherwise "Please select a Vice Captain" without a
    vice-captain; and the insufficient-balance error exactly when at
    least 5 stocks are selected and both roles are set.  A submission
    that runs alone, from its call to its end, never turns a balance
    that is not negative into a negative one. *)
Theorem insufficient_funds_blocked :
  (forall w, num_gtb (app_cost w) (app_balance w) = true ->
     exists ts, App.createPortfolio w = (w, ts, None)
       /\ ((app_size w < 5)%nat -> ts = showToast "Select at least 5 stocks" error)
       /\ ((5 <= app_size w)%nat -> role_set (App.captain (App.state w)) = false ->
           ts = showToast "Please select a Captain" error)
       /\ ((5 <= app_size w)%nat -> role_set (App.captain (App.state w)) = true ->
           role_set (App.viceCaptain (App.state w)) = false ->
           ts = showToast "Please select a Vice Captain" error)
       /\ (App.canCreate (App.state w) = true -> ts = showToast "Insufficient balance" error)
       /\ (App.canCreate (App.state w) = false -> In ts incomplete_team))
  /\ (forall now date w, num_gtb (sq_cost w) (sq_balance w) = true ->
        exists ts, StockQuest.createPortfolio now date w = (w, ts)
          /\ ((sq_size w < 5)%nat -> ts = showToast "Select at least 5 stocks" error)
          /\ ((5 <= sq_size w)%nat ->
              role_set (StockQuest.captain (StockQuest.state w)) = false ->
              ts = showToast "Please select a Captain" error)
          /\ ((5 <= sq_size w)%nat ->
              role_set (StockQuest.captain (StockQuest.state w)) = true ->
              role_set (StockQuest.viceCaptain (StockQuest.state w)) = false ->
              ts = showToast "Please select a Vice Captain" error)
          /\ (StockQuest.canCreate (StockQuest.state w) = true ->
              ts = showToast "Insufficient balance" error)
          /\ (StockQuest.canCreate (StockQuest.state w) = false -> In ts incomplete_team))
  /\ (forall rs w, negative (app_balance w) = false ->
        negative (app_balance (fst (fst (App.createPortfolio_run rs w)))) = false)
  /\ (forall now date w, negative (sq_balance w) = false ->
        negative (sq_balance (fst (StockQuest.createPortfolio now date w))) = false).
Proof.
  split; [| split; [| split]].
  - intros w H. destruct (app_guards_in_order w H) as [ts [E [H1 [H2 [H3 H4]]]]].
    exists ts. split; [exact E |]. repeat (split; [assumption |]).
    destruct (app_createPortfolio_cases w)
      as [[Hc [ts' [Hin E']]] | [[Hc [_ E']] | [_ [Hb _]]]]; [| | congruence];
      rewrite E in E'; inversion E'; subst; split; intros; congruence || auto.
  - intros now date w H.
    destruct (sq_guards_in_order now date w H) as [ts [E [H1 [H2 [H3 H4]]]]].
    exists ts. split; [exact E |]. repeat (split; [assumption |]).
    destruct (sq_createPortfolio_cases now date w)
      as [[Hc [ts' [Hin E']]] | [[Hc [_ E']] | [_ [Hb _]]]]; [| | congruence];
      rewrite E in E'; inversion E'; subst; split; intros; congruence || auto.
  - intros rs w H. destruct (app_run_balance rs w) as [E | [Hc E]]; rewrite E.
    + exact H.
    + now apply debit_not_negative.
  - intros now date w H.
    destruct (sq_createPortfolio_cases now date w)
      as [[_ [ts [_ E]]] | [[_ [_ E]] | [_ [Hc [E _]]]]]; rewrite E; simpl; try exact H.
    now apply debit_not_negative.
Qed.

(** The amended C2 on the page of app.js with a complete team of five
    stocks of price 100,000 and a balance of 1,000,000, and on the
    submission of a complete team of five stocks of price 1000 in
    stockquest.js. *)
Lemma insufficient_funds_blocked_witness :
  App.createPortfolio costly_loaded_page
  = (costly_loaded_page, showToast "Insufficient balance" error, None)
  /\ negative (sq_balance (fst (StockQuest.createPortfolio 0 0 sq_team_page))) = false
  /\ sq_balance (fst (StockQuest.createPortfolio 0 0 sq_team_page)) = Fin 950000.
Proof.
  destruct insufficient_funds_blocked as [H [_ [_ Hrun]]].
  assert (Hb : num_gtb (app_cost costly_loaded_page) (app_balance costly_loaded_page) = true)
    by reflexivity.
  assert (Hc : App.canCreate (App.state costly_loaded_page) = true) by reflexivity.
  assert (Hn : negative (sq_balance sq_team_page) = false) by reflexivity.
  destruct (H costly_loaded_page Hb) as [ts [E [_ [_ [_ [Hi _]]]]]].
  split; [| split].
  - rewrite E. now rewrite (Hi Hc).
  - exact (Hrun 0%Z 0%Z sq_team_page Hn).
  - reflexivity.
Defined.

(** What [createPortfolio] of app.js would do on a page where
    [window.Database] were defined.  For every submittable selection of
    a signed-in user it reaches its first [await] without touching the
    page: the selection is kept, the submit button stays enabled, and
    nothing records that a submission is under way.  A second call that
    starts while the first is suspended would pass the same validation,
    and with the store calls of both succeeding the store would hold two
    new portfolio documents, equal to each other.  A second call that
    starts after the first has run to its end finds the selection
    cleared and is rejected. *)
Lemma overlapping_submissions (w : App.World) (u : App.User) :
  App.user (App.state w) = Some u ->
  App.database w = true ->
  App.canCreate (App.state w) = true ->
  num_gtb (app_cost w) (app_balance w) = false ->
  let doc := App.Database_createPortfolio (App.uid u)
               (holdings (App.selectedStocks (App.state w)))
               (App.captain (App.state w)) (App.viceCaptain (App.state w)) (app_cost w) in
  App.createPortfolio w = (w, [], Some (App.AwaitCreatePortfolio (app_cost w) doc))
  /\ App.createBtnDisabled (App.renderTeamList w) = false
  /\ App.portfolios (App.db (App.double_click all_resolved all_resolved w))
     = App.portfolios (App.db w) ++ [doc; doc]
  /\ app_balance (App.double_click all_resolved all_resolved w)
     = num_sub (num_sub (app_balance w) (app_cost w)) (app_cost w)
  /\ (let '(w', ts, p) := App.click_twice all_resolved all_resolved w in
      App.portfolios (App.db w') = App.portfolios (App.db w) ++ [doc]
      /\ p = None
      /\ ts = showToast "Select at least 5 stocks" error).
Proof.
  intros Hu Hd Hc Hb doc.
  assert (E : App.createPortfolio w
              = (w, [], Some (App.AwaitCreatePortfolio (app_cost w) doc))).
  { destruct (app_createPortfolio_cases w)
      as [[F _] | [[_ [F _]] | [_ [_ [F | [u' [Hu' [_ F]]]]]]]]; try congruence.
    - unfold App.createPortfolio in F. revert F.
      unfold App.canCreate in Hc. apply andb_true_iff in Hc. destruct Hc as [Hc Hv].
      apply andb_true_iff in Hc. destruct Hc as [Hl Hcap].
      apply Nat.leb_le in Hl.
      assert (Hl' : (List.length (App.selectedStocks (App.state w)) <? minStocks)%nat = false)
        by now apply Nat.ltb_ge.
      rewrite Hl', Hcap, Hv. simpl.
      unfold app_cost, app_balance in Hb. rewrite Hb, Hu, Hd. discriminate.
    - rewrite Hu in Hu'. inversion Hu'; subst u'. exact F. }
  split; [exact E |]. split; [| split; [| split]].
  - rewrite render_flag. now rewrite Hc.
  - unfold App.double_click. rewrite E. unfold all_resolved. simpl.
    repeat (first [rewrite E | rewrite Hu]; simpl).
    now rewrite <- app_assoc.
  - unfold App.double_click. rewrite E. unfold all_resolved. simpl.
    repeat (first [rewrite E | rewrite Hu]; simpl).
    reflexivity.
  - unfold App.click_twice, App.createPortfolio_run. rewrite E.
    unfold all_resolved. simpl.
    repeat (first [rewrite E | rewrite Hu]; simpl).
    repeat split.
Qed.

(** In stockquest.js [createPortfolio] has no [await]: a second call can
    only start after the first has ended, finds the selection cleared
    and is rejected without storing anything. *)
Lemma sq_second_submission_rejected (now date now' date' : Z) (w : StockQuest.World) :
  StockQuest.canCreate (StockQuest.state w) = true ->
  num_gtb (sq_cost w) (sq_balance w) = false ->
  let w1 := fst (StockQuest.createPortfolio now date w) in
  List.length (StockQuest.stockquest_portfolios (StockQuest.localStorage w1))
  = S (List.length (StockQuest.stockquest_portfolios (StockQuest.localStorage w)))
  /\ StockQuest.createPortfolio now' date' w1
     = (w1, showToast "Select at least 5 stocks" error).
Proof.
  intros Hc Hb w1. subst w1.
  destruct (sq_createPortfolio_cases now date w)
    as [[F _] | [[_ [F _]] | [_ [_ [_ E]]]]]; try congruence.
  split.
  - rewrite E, length_app. simpl. lia.
  - unfold StockQuest.createPortfolio at 2.
    unfold StockQuest.createPortfolio, StockQuest.canCreate, sq_cost, sq_balance in *.
    apply andb_true_iff in Hc. destruct Hc as [Hc Hv].
    apply andb_true_iff in Hc. destruct Hc as [Hl Hcap]. apply Nat.leb_le in Hl.
    assert (Hl' : (List.length (StockQuest.selectedStocks (StockQuest.state w))
                   <? minStocks)%nat = false) by now apply Nat.ltb_ge.
    rewrite Hl', Hcap, Hv, Hb. reflexivity.
Qed.

(** On a page where [window.Database] is not defined, [createPortfolio]
    of app.js returns before its first [await] whatever the selection
    is: it changes nothing, and so does a double click, however the
    store would have answered.  For a complete team that the balance
    covers its only toast is "You must be logged in", also when a user
    is signed in. *)
Lemma app_without_database (w : App.World) :
  App.database w = false ->
  (exists ts, App.createPortfolio w = (w, ts, None))
  /\ (forall rs1 rs2, App.double_click rs1 rs2 w = w)
  /\ (App.canCreate (App.state w) = true ->
      num_gtb (app_cost w) (app_balance w) = false ->
      App.createPortfolio w = (w, showToast "You must be logged in" error, None)).
Proof.
  intros Hd.
  assert (E : exists ts, App.createPortfolio w = (w, ts, None)).
  { destruct (app_createPortfolio_cases w)
      as [[_ [ts [_ E]]] | [[_ [_ E]] | [_ [_ [E | [u [_ [F _]]]]]]]];
      [eauto | eauto | eauto | congruence]. }
  split; [exact E |]. split.
  - intros rs1 rs2. destruct E as [ts E]. unfold App.double_click. rewrite E, E.
    destruct rs1, rs2; reflexivity.
  - intros Hc Hb.
    destruct (app_createPortfolio_cases w)
      as [[F _] | [[_ [F _]] | [_ [_ [E' | [u [_ [F _]]]]]]]]; congruence.
Qed.

(** C3 (as the code behaves on the failing input).  The page of app.js
    as the scripts leave it, where [window.Database] is not defined, with
    a signed-in user, a balance of 1,000,000 and a complete team of five
    stocks that costs 50,000.  [createPortfolio()] ends at the test
    [state.user && window.Database]: its only toast is "You must be
    logged in", it reaches no [await], and it leaves the submit button
    enabled.  After a double click the store holds no portfolio
    document, where the contract asks for one, and the balance and the
    selection are what they were. *)
Theorem double_click_stores_nothing :
  App.database signed_in_team_page = window_Database
  /\ App.user (App.state signed_in_team_page) = Some asha
  /\ App.canCreate (App.state signed_in_team_page) = true
  /\ num_gtb (app_cost signed_in_team_page) (app_balance signed_in_team_page) = false
  /\ App.createPortfolio signed_in_team_page
     = (signed_in_team_page, showToast "You must be logged in" error, None)
  /\ App.createBtnDisabled (fst (fst (App.createPortfolio signed_in_team_page))) = false
  /\ (forall rs1 rs2,
        App.portfolios (App.db (App.double_click rs1 rs2 signed_in_team_page)) = []
        /\ app_balance (App.double_click rs1 rs2 signed_in_team_page) = Fin 1000000
        /\ app_size (App.double_click rs1 rs2 signed_in_team_page) = 5%nat).
Proof.
  repeat (split; [reflexivity |]).
  intros rs1 rs2.
  assert (Hd : App.database signed_in_team_page = false) by reflexivity.
  destruct (app_without_database signed_in_team_page Hd) as [_ [H _]].
  rewrite (H rs1 rs2). repeat split.
Qed.

End Ledger.

(* ================================================================== *)
(** * Further properties *)
(* ================================================================== *)

(** ** The resolvers on strings *)

Section ResolverStrings.

Lemma digit_not_space (c : N) : is_digit c = true -> is_space c = false.
Proof.
  unfold is_digit, is_space. intros H. apply andb_true_iff in H.
  destruct H as [H1 H2]. apply N.leb_le in H1. apply N.leb_le in H2.
  repeat rewrite orb_false_iff. repeat split;
    try (apply N.eqb_neq; lia).
  apply andb_false_iff. left. apply N.leb_gt. lia.
Qed.

Lemma digit_not_decoration (c : N) : is_digit c = true -> App.utils.decoration c = false.
Proof.
  intros H. unfold App.utils.decoration. rewrite (digit_not_space c H).
  unfold is_digit in H. apply andb_true_iff in H.
  destruct H as [H1 H2]. apply N.leb_le in H1. apply N.leb_le in H2.
  unfold rupee. repeat rewrite orb_false_iff. repeat split; apply N.eqb_neq; lia.
Qed.

Lemma strip_decorated (s : jsstring) :
  decorated_digits s -> remove_class App.utils.decoration s = filter is_digit s.
Proof.
  unfold remove_class. induction 1 as [| c s Hc Hs IH]; [reflexivity |]. simpl.
  destruct (is_digit c) eqn:Ed.
  - rewrite (digit_not_decoration c Ed). simpl. now rewrite IH.
  - destruct Hc as [Hc | Hc]; [discriminate |]. rewrite Hc. simpl. exact IH.
Qed.

Lemma span_all_digits (d : jsstring) :
  Forall (fun c => is_digit c = true) d -> span_digits d = (d, []).
Proof.
  induction 1 as [| c d Hc Hd IH]; [reflexivity |]. simpl. now rewrite Hc, IH.
Qed.

(** [parseFloat] reads a string of digits as the number they write. *)
Lemma parseFloat_digits (c : N) (d : jsstring) :
  Forall (fun c => is_digit c = true) (c :: d) ->
  parseFloat_str (c :: d) = Fin (inject_Z (digits_to_Z (c :: d))).
Proof.
  intros H. pose proof (Forall_inv H) as Hc.
  assert (Hr : (48 <= c <= 57)%N).
  { unfold is_digit in Hc. apply andb_true_iff in Hc. destruct Hc as [H1 H2].
    apply N.leb_le in H1. apply N.leb_le in H2. lia. }
  unfold parseFloat_str. cbn [drop_spaces]. rewrite (digit_not_space c Hc).
  assert (E45 : N.eqb c 45 = false) by (apply N.eqb_neq; lia).
  assert (E43 : N.eqb c 43 = false) by (apply N.eqb_neq; lia).
  rewrite E45, E43.
  assert (Ei : starts_with (str "Infinity") (c :: d) = false).
  { change (str "Infinity") with (73%N :: str "nfinity"). cbn [starts_with].
    assert (E : N.eqb 73 c = false) by (apply N.eqb_neq; lia). now rewrite E. }
  unfold parseFloat_unsigned, parse_unsigned. rewrite Ei.
  rewrite (span_all_digits _ H). cbn [parse_exponent List.length].
  rewrite app_nil_r. unfold scale10. cbn.
  now rewrite Z.mul_1_r.
Qed.

Lemma num_or0_integer (m : Z) : num_or0 (Fin (inject_Z m)) = Fin (inject_Z m).
Proof.
  unfold num_or0, num_truthy. destruct (Qeq_bool (inject_Z m) 0) eqn:E; [| reflexivity].
  apply Qeq_bool_iff in E. unfold Qeq, inject_Z in E. simpl in E.
  assert (m = 0%Z) by lia. now subst.
Qed.

(** X1.  A string made of digits, with at least one, and of currency
    signs, commas, percent signs, plus signs and white space in any
    places resolves, in [parseNum] of [utils.parseStock], to the number
    its digits write, when that number is at most 2^53 and so is read
    without rounding: the decoration is ignored wherever it stands. *)
Theorem decorated_integer_resolves (s : jsstring) :
  decorated_digits s ->
  existsb is_digit s = true ->
  digits_exact s ->
  App.utils.parseNum (VStr s) = digits_value s.
Proof.
  intros Hd He _. unfold App.utils.parseNum, digits_value.
  assert (Ht : truthy (VStr s) = true).
  { destruct s; [discriminate | reflexivity]. }
  rewrite Ht. simpl negb. cbv iota. rewrite (strip_decorated s Hd).
  assert (Hall : Forall (fun c => is_digit c = true) (filter is_digit s)).
  { apply Forall_forall. intros c Hc. now apply filter_In in Hc. }
  destruct (filter is_digit s) as [| c d] eqn:Ef.
  - apply existsb_exists in He. destruct He as [c [Hin Hc]].
    assert (Hf : In c (filter is_digit s)) by (apply filter_In; now split).
    rewrite Ef in Hf. contradiction.
  - rewrite (parseFloat_digits c d Hall). apply num_or0_integer.
Qed.

(** X1 on the rupee sign followed by ["1,23,456"]. *)
Lemma decorated_integer_resolves_witness :
  App.utils.parseNum (VStr rupee_1_23_456) = Fin 123456.
Proof.
  apply (decorated_integer_resolves rupee_1_23_456).
  - unfold decorated_digits, rupee_1_23_456. simpl.
    repeat (apply Forall_cons; [first [left; reflexivity | right; reflexivity] |]).
    apply Forall_nil.
  - reflexivity.
  - unfold digits_exact, max_exact_integer. vm_compute. discriminate.
Defined.

(** X2.  The character classes of [parsePrice] in stockquest.js and of
    [parseNumber] in firestore.js do not hold the rupee sign: every
    string that starts with it resolves to 0 there, whatever follows,
    while [parseNum] of app.js strips the sign and resolves what
    follows. *)
Theorem rupee_prefix_resolves_to_zero (s : jsstring) :
  StockQuest.utils.parsePrice (VStr (rupee :: s)) = Fin 0
  /\ StockAPI.parseNumber (VStr (rupee :: s)) = Fin 0
  /\ App.utils.parseNum (VStr (rupee :: s)) = App.utils.parseNum (VStr s).
Proof.
  split; [reflexivity | split; [reflexivity |]].
  unfold App.utils.parseNum. destruct s as [| c s]; reflexivity.
Qed.

Lemma num_or0_not_nan (n : num) : num_or0 n <> NaN.
Proof. destruct n; unfold num_or0; simpl; try discriminate. now destruct (Qeq_bool q 0). Qed.

Lemma parseNumber_fuel_not_nan (fuel : nat) :
  forall v, StockAPI.parseNumber_fuel fuel v <> NaN.
Proof.
  induction fuel as [| fuel IH]; intros v;
    destruct v as [| | [|] | [| s | q] | [| c s] | xs | fs];
    try discriminate; try apply num_or0_not_nan; try apply IH;
    cbn [StockAPI.parseNumber_fuel truthy num_truthy negb];
    try discriminate; try apply num_or0_not_nan; try apply IH.
  - destruct (negb (Qeq_bool q 0)); discriminate.
  - destruct (negb (Qeq_bool q 0)); discriminate.
Qed.

(** X3.  [StockAPI.parseNumber] never yields [NaN], on any value: a
    nested object is followed down to a number or a string, and what
    does not parse becomes 0. *)
Theorem parseNumber_never_nan (v : value) : StockAPI.parseNumber v <> NaN.
Proof. apply parseNumber_fuel_not_nan. Qed.

(** X4.  [parseNum] of [utils.parseStock], and [parsePrice] and
    [parseChange] of stockquest.js, yield [NaN] only on an object or an
    array (whose nested field does not parse); on a string, a number or
    any other value they yield a number that is not [NaN]. *)
Theorem nan_only_from_structured (v : value) :
  (App.utils.parseNum v = NaN -> structured v = true)
  /\ (StockQuest.utils.parsePrice v = NaN -> structured v = true)
  /\ (StockQuest.utils.parseChange v = NaN -> structured v = true).
Proof.
  unfold App.utils.parseNum, StockQuest.utils.parsePrice, StockQuest.utils.parseChange.
  repeat split; intros H; destruct v as [| | [|] | [| s | q] | [| c s] | xs | fs];
    try reflexivity; try discriminate; simpl in H;
    try (now apply num_or0_not_nan in H);
    destruct (negb (Qeq_bool q 0)); discriminate.
Qed.

(** X4 on the object [{value: "n/a"}], which resolves to [NaN]. *)
Lemma nan_only_from_structured_witness :
  App.utils.parseNum price_not_available = NaN
  /\ structured price_not_available = true.
Proof.
  assert (H : App.utils.parseNum price_not_available = NaN) by reflexivity.
  split; [exact H |].
  exact (proj1 (nan_only_from_structured price_not_available) H).
Defined.

End ResolverStrings.

(** ** The records of the normaliser *)

Section NormaliserRecords.

Lemma jor_truthy_r (a b : value) : truthy b = true -> truthy (a || b)%js = true.
Proof. intros H. unfold jor. now destruct (truthy a) eqn:E. Qed.

Lemma jor_cases (a b : value) :
  ((a || b)%js = a /\ truthy a = true) \/ ((a || b)%js = b /\ truthy a = false).
Proof. unfold jor. destruct (truthy a); [now left | now right]. Qed.

Lemma jor_falsy (a b : value) :
  truthy (a || b)%js = false -> truthy a = false /\ truthy b = false.
Proof. unfold jor. destruct (truthy a) eqn:E; [congruence | auto]. Qed.

Lemma jor_pick (P : value -> Prop) (a b : value) :
  (truthy a = true -> P a) -> (truthy b = true -> P b) ->
  truthy (a || b)%js = true -> P (a || b)%js.
Proof. unfold jor. destruct (truthy a) eqn:E; auto. Qed.

Lemma upper_unit_idempotent (x : N) : upper_unit (upper_unit x) = upper_unit x.
Proof.
  unfold upper_unit. destruct (N.leb 97 x && N.leb x 122)%bool eqn:E; [| now rewrite E].
  apply andb_true_iff in E. destruct E as [E1 E2].
  apply N.leb_le in E1. apply N.leb_le in E2.
  assert (H : N.leb 97 (x - 32) = false) by (apply N.leb_gt; lia). now rewrite H.
Qed.

Lemma derive_symbol_shape (name sym : value) :
  derive_symbol name = Return sym ->
  exists n, name = VStr n /\ derived_symbol_shape sym.
Proof.
  destruct name as [| | b | n | s | xs | fs]; try discriminate.
  simpl. intros H. inversion H; subst. clear H.
  exists s. split; [reflexivity |].
  exists (remove_class is_space (toUpperCase (substring0 6 s))).
  split; [reflexivity |]. split.
  - unfold remove_class, toUpperCase, substring0.
    eapply Nat.le_trans; [apply filter_length_le |].
    rewrite length_map. apply firstn_le_length.
  - apply Forall_forall. intros c Hc. unfold remove_class in Hc.
    apply filter_In in Hc. destruct Hc as [Hin Hs].
    apply negb_true_iff in Hs. split; [exact Hs |].
    unfold toUpperCase in Hin. apply in_map_iff in Hin.
    destruct Hin as [x [Hx _]]. subst c. apply upper_unit_idempotent.
Qed.

(** X5.  Every record [utils.parseStock] returns has a truthy name and
    carries the payload it was made from, and its [id] starts with its
    symbol.  The symbol is the value of one of the payload's symbol
    fields, when one of them is truthy; otherwise none of them is, the
    name is a string and the symbol is derived from it: when the name is
    made of ASCII code units, the symbol has at most 6 code units, none
    of them white space or a lower-case letter (it may be empty). *)
Theorem parseStock_record_shape (now : Z) (raw : value) (q : App.utils.Quote) :
  App.utils.parseStock now raw = Return (Some q) ->
  truthy (App.utils.name q) = true
  /\ App.utils.raw q = raw
  /\ fst (App.utils.id q) = App.utils.symbol q
  /\ ((exists k, In k symbol_fields /\ App.utils.symbol q = get raw k
                 /\ truthy (App.utils.symbol q) = true)
      \/ (lacks raw symbol_fields
          /\ exists n, App.utils.name q = VStr n
                       /\ (ascii_only n -> derived_symbol_shape (App.utils.symbol q)))).
Proof.
  unfold App.utils.parseStock. destruct (negb (truthy raw)); [discriminate |].
  match goal with
  | |- context [if truthy ?g then Return ?g else derive_symbol ?n] =>
      set (given := g); set (nm := n);
      destruct (if truthy given then Return given else derive_symbol nm) as [sym |] eqn:Es
  end; [| discriminate].
  simpl. intros H. inversion H; subst q; clear H. simpl.
  split; [| split; [reflexivity | split; [reflexivity |]]].
  - subst nm. repeat apply jor_truthy_r. reflexivity.
  - destruct (truthy given) eqn:Eg.
    + inversion Es; subst sym. left. subst given.
      set (P := fun v => exists k, In k symbol_fields /\ v = get raw k /\ truthy v = true).
      assert (Hleaf : forall k, In k symbol_fields ->
                                truthy (get raw k) = true -> P (get raw k)).
      { intros k Hk T. exists k. auto. }
      match type of Eg with truthy ?c = true => change (P c); revert Eg end.
      repeat (apply (jor_pick P); [| apply Hleaf; unfold symbol_fields; simpl; tauto]).
      apply Hleaf. unfold symbol_fields. simpl. tauto.
    + right. split.
      * subst given. unfold lacks, symbol_fields.
        apply jor_falsy in Eg. destruct Eg as [Eg E5].
        apply jor_falsy in Eg. destruct Eg as [Eg E4].
        apply jor_falsy in Eg. destruct Eg as [Eg E3].
        apply jor_falsy in Eg. destruct Eg as [E1 E2].
        repeat constructor; assumption.
      * destruct (derive_symbol_shape nm sym Es) as [n [En Hs]].
        exists n. split; [exact En | intros _; exact Hs].
Qed.

(** X5 on the payload [{name: "Tata Motors"}], whose symbol is derived. *)
Lemma parseStock_record_shape_witness :
  exists q, App.utils.parseStock 1000 tata = Return (Some q)
            /\ truthy (App.utils.name q) = true
            /\ derived_symbol_shape (App.utils.symbol q).
Proof.
  eexists. split; [reflexivity |].
  destruct (parseStock_record_shape 1000 tata _ eq_refl) as [H1 [_ [_ [H | H]]]].
  - destruct H as [k [Hk [Hs _]]]. exfalso.
    destruct Hk as [E | [E | [E | [E | [E | []]]]]]; subst k; vm_compute in Hs; discriminate.
  - split; [exact H1 |]. destruct H as [_ [n [En Hs]]]. apply Hs.
    vm_compute in En. inversion En; subst n.
    unfold ascii_only. repeat (apply Forall_cons; [reflexivity |]). apply Forall_nil.
Defined.

Lemma parseStock_throw_any_clock (t1 t2 : Z) (raw : value) :
  App.utils.parseStock t1 raw = Throw -> App.utils.parseStock t2 raw = Throw.
Proof.
  unfold App.utils.parseStock. destruct (negb (truthy raw)); [discriminate |].
  match goal with
  | |- context [if truthy ?g then Return ?g else derive_symbol ?n] =>
      destruct (if truthy g then Return g else derive_symbol n); [discriminate | reflexivity]
  end.
Qed.

Lemma map_outcome_throw (clock : nat -> Z) (stocks : list value) (raw : value) (t : Z) :
  In raw stocks -> App.utils.parseStock t raw = Throw ->
  forall i, map_outcome (fun i s => App.utils.parseStock (clock i) s) i stocks = Throw.
Proof.
  intros Hin Ht. induction stocks as [| x stocks IH]; [contradiction |]. intros i.
  cbn [map_outcome]. destruct Hin as [E | Hin].
  - subst x. now rewrite (parseStock_throw_any_clock t (clock i) raw Ht).
  - destruct (App.utils.parseStock (clock i) x); [| reflexivity]. cbn [bind].
    now rewrite (IH Hin (S i)).
Qed.

(** X6.  [utils.parseStock] throws on a payload that has no symbol field
    and whose name is a number, and one payload on which it throws is
    enough for [loadStocks] to end in its [catch]: whatever the other
    payloads of the response are, nothing is assigned to [state.stocks]. *)
Theorem one_bad_payload_fails_the_list (clock : nat -> Z) (stocks : list value)
  (raw : value) (t : Z) :
  In raw stocks ->
  App.utils.parseStock t raw = Throw ->
  App.loadStocks_stocks clock stocks = Throw
  /\ App.loadStocks_assigned clock
       (VObj [("success"%string, VBool true); ("data"%string, VArr stocks)]) = Throw
  /\ forall n, num_truthy n = true ->
       App.utils.parseStock t (VObj [("name"%string, VNum n)]) = Throw.
Proof.
  intros Hin Ht.
  assert (H : App.loadStocks_stocks clock stocks = Throw).
  { unfold App.loadStocks_stocks. now rewrite (map_outcome_throw clock stocks raw t Hin Ht 0%nat). }
  split; [exact H | split].
  - change (App.loadStocks_assigned clock _)
      with (bind (App.loadStocks_stocks clock stocks) (fun listed => Return (Some listed))).
    now rewrite H.
  - intros n Hn. unfold App.utils.parseStock. simpl. unfold jor. simpl.
    repeat (rewrite Hn; simpl). reflexivity.
Qed.

(** X6 on the response whose data are [{name: "Tata Motors"}] and
    [{name: 123}]. *)
Lemma one_bad_payload_fails_the_list_witness :
  App.loadStocks_stocks (fun _ => 1000%Z) [tata; numeric_name] = Throw.
Proof.
  apply (one_bad_payload_fails_the_list (fun _ => 1000%Z) [tata; numeric_name]
           numeric_name 0%Z).
  - right. left. reflexivity.
  - reflexivity.
Defined.

End NormaliserRecords.

(** ** Responses and filters *)

Section ResponsesAndFilters.

(** X7.  In [loadStocks] of app.js a response that nests its lists under
    [trending_stocks] yields the gainers followed by the losers, a
    missing list counting as empty.  A flat response is looked at only
    when it has a truthy [topGainers] or [top_gainers]: when it has
    neither, nothing is listed, whatever its [topLosers] and
    [top_losers] hold. *)
Theorem trending_response_shapes (data : value) :
  (forall ts gainers losers,
     data.["trending_stocks"]%js = ts -> truthy ts = true ->
     (ts.["top_gainers"] || VArr [])%js = VArr gainers ->
     (ts.["top_losers"] || VArr [])%js = VArr losers ->
     (forall xs, data <> VArr xs) ->
     App.response_stocks data = Return (gainers ++ losers))
  /\ (truthy data.["trending_stocks"] = false ->
      truthy data.["topGainers"] = false ->
      truthy data.["top_gainers"] = false ->
      (forall xs, data <> VArr xs) ->
      App.response_stocks data = Return [])
  /\ (forall xs, data = VArr xs -> App.response_stocks data = Return xs).
Proof.
  split; [| split].
  - intros ts g l Ets Ht Eg El Hna. unfold App.response_stocks.
    destruct data; try (exfalso; now eapply Hna); rewrite Ets, Ht, Eg, El; reflexivity.
  - intros H1 H2 H3 Hna. unfold App.response_stocks.
    destruct data; try (exfalso; now eapply Hna);
      rewrite H1; unfold jor; rewrite H2, H3; reflexivity.
  - intros xs E. now subst.
Qed.

(** X7 on the flat response [{topLosers: [...]}] and on the nested
    response [{trending_stocks: {top_losers: [...]}}]. *)
Lemma trending_response_shapes_witness :
  App.response_stocks losers_only = Return []
  /\ App.response_stocks nested_losers_only = Return [tata].
Proof.
  split.
  - destruct (trending_response_shapes losers_only) as [_ [H _]].
    apply H; try reflexivity. intros xs E. discriminate.
  - destruct (trending_response_shapes nested_losers_only) as [H _].
    apply (H (VObj [("top_losers"%string, VArr [tata])]) [] [tata]); try reflexivity.
    intros xs E. discriminate.
Defined.

Lemma num_ltb_asym (a b : num) : num_ltb a b = true -> num_ltb b a = false.
Proof.
  destruct a as [| s | x], b as [| t | y]; simpl; try discriminate; try reflexivity.
  - destruct s, t; simpl; intros; try discriminate; reflexivity.
  - intros H. now rewrite H.
  - intros H. now destruct t.
  - unfold Qltb. intros H. apply negb_true_iff in H. apply negb_false_iff.
    apply Qle_bool_iff. destruct (Qlt_le_dec y x) as [L | L].
    + apply Qlt_le_weak in L. apply Qle_bool_iff in L. congruence.
    + exact L.
Qed.

(** Whether a predicate that may throw returns [true]. *)
Lemma filter_outcome_is_filter {A : Type} (p : A -> outcome bool) (xs out : list A) :
  filter_outcome p xs = Return out ->
  out = List.filter (fun x => match p x with Return true => true | _ => false end) xs.
Proof.
  revert out. induction xs as [| x xs IH]; intros out H.
  - now inversion H.
  - cbn [filter_outcome] in H. destruct (p x) as [b |] eqn:Ep; [| discriminate].
    cbn [bind] in H. destruct (filter_outcome p xs) as [ys |]; [| discriminate].
    cbn [bind] in H. inversion H; subst out; clear H.
    cbn [List.filter]. rewrite Ep. rewrite (IH ys eq_refl). now destruct b.
Qed.

(** X8.  What [applyFilters] of app.js shows is the catalogue with some
    entries left out, in the order of the catalogue.  Under the filter
    [gainers] every entry shown has a change above 0 and under [losers]
    a change below 0; no entry is shown under both, and an entry whose
    change is 0 or [NaN] is shown under neither. *)
Theorem applyFilters_shows (searchQuery filter : jsstring)
  (stocks out : list App.utils.Quote) :
  App.applyFilters_filtered searchQuery filter stocks = Return out ->
  (exists keep, out = List.filter keep stocks)
  /\ (filter = str "gainers" -> Forall (fun s => App.is_gainer s = true) out)
  /\ (filter = str "losers" -> Forall (fun s => App.is_loser s = true) out)
  /\ (forall s, App.is_gainer s = true -> App.is_loser s = false)
  /\ (forall s, App.utils.change s = NaN \/ App.utils.change s = Fin 0 ->
                App.is_gainer s = false /\ App.is_loser s = false).
Proof.
  intros H. unfold App.applyFilters_filtered in H.
  assert (Hq : exists keep0 filtered,
             filtered = List.filter keep0 stocks
             /\ out = (if jsstring_eqb filter (str "gainers")
                       then List.filter App.is_gainer filtered
                       else if jsstring_eqb filter (str "losers")
                            then List.filter App.is_loser filtered else filtered)).
  { destruct searchQuery as [| c q].
    - cbn [bind] in H. injection H as H. exists (fun _ => true), stocks.
      split; [| now symmetry].
      clear. induction stocks as [| x xs IH]; [reflexivity |]. simpl. now rewrite <- IH.
    - destruct (filter_outcome (App.matches_query (c :: q)) stocks) as [ys |] eqn:E;
        [| discriminate].
      cbn [bind] in H. injection H as H.
      exists (fun x => match App.matches_query (c :: q) x with
                       | Return true => true
                       | _ => false
                       end), ys.
      split; [exact (filter_outcome_is_filter _ _ _ E) | now symmetry]. }
  destruct Hq as [keep0 [filtered [Ef Eo]]]. subst filtered.
  split; [| split; [| split; [| split]]].
  - rewrite Eo. destruct (jsstring_eqb filter (str "gainers")).
    + exists (fun x => keep0 x && App.is_gainer x). clear.
      induction stocks as [| x xs IH]; [reflexivity |]. simpl.
      destruct (keep0 x); simpl; [destruct (App.is_gainer x); now rewrite IH | exact IH].
    + destruct (jsstring_eqb filter (str "losers")).
      * exists (fun x => keep0 x && App.is_loser x). clear.
        induction stocks as [| x xs IH]; [reflexivity |]. simpl.
        destruct (keep0 x); simpl; [destruct (App.is_loser x); now rewrite IH | exact IH].
      * now exists keep0.
  - intros E. subst filter. rewrite Eo. simpl. apply Forall_forall.
    intros s Hs. now apply filter_In in Hs.
  - intros E. subst filter. rewrite Eo. simpl. apply Forall_forall.
    intros s Hs. now apply filter_In in Hs.
  - intros s Hg. unfold App.is_gainer, App.is_loser, num_gtb in *.
    now apply num_ltb_asym.
  - intros s [E | E]; unfold App.is_gainer, App.is_loser, num_gtb; rewrite E;
      split; reflexivity.
Qed.

(** X8 on four records with the changes +1.5, -2, 0 and [NaN], under
    the filter [gainers]. *)
Lemma applyFilters_shows_witness :
  App.applyFilters_filtered [] (str "gainers") sample_quotes
  = Return [quote_of "TCS" (Fin (3 # 2))]
  /\ Forall (fun s => App.is_gainer s = true) [quote_of "TCS" (Fin (3 # 2))].
Proof.
  assert (H : App.applyFilters_filtered [] (str "gainers") sample_quotes
              = Return [quote_of "TCS" (Fin (3 # 2))]) by reflexivity.
  split; [exact H |].
  destruct (applyFilters_shows _ _ _ _ H) as [_ [Hg _]]. now apply Hg.
Defined.

Lemma map_outcome_length {A B : Type} (f : nat -> A -> outcome B) (xs : list A) :
  forall i out, map_outcome f i xs = Return out -> List.length out = List.length xs.
Proof.
  induction xs as [| x xs IH]; intros i out H.
  - now inversion H.
  - cbn [map_outcome] in H. destruct (f i x); [| discriminate]. cbn [bind] in H.
    destruct (map_outcome f (S i) xs) as [ys |] eqn:E; [| discriminate].
    cbn [bind] in H. inversion H. simpl. f_equal. now apply (IH (S i)).
Qed.

Lemma map_outcome_nth {A B : Type} (f : nat -> A -> outcome B) (xs : list A) :
  forall i out, map_outcome f i xs = Return out ->
    forall n x, nth_error xs n = Some x ->
      exists y, nth_error out n = Some y /\ f (i + n)%nat x = Return y.
Proof.
  induction xs as [| x0 xs IH]; intros i out H n x Hn.
  - destruct n; discriminate.
  - cbn [map_outcome] in H. destruct (f i x0) as [y0 |] eqn:E0; [| discriminate].
    cbn [bind] in H.
    destruct (map_outcome f (S i) xs) as [ys |] eqn:E; [| discriminate].
    cbn [bind] in H. inversion H; subst out; clear H.
    destruct n as [| n].
    + inversion Hn; subst x. exists y0. rewrite Nat.add_0_r. now split.
    + simpl in Hn. destruct (IH (S i) ys E n x Hn) as [y [Hy Hf]].
      exists y. split; [exact Hy |]. now rewrite Nat.add_succ_r.
Qed.

(** X9.  [StockAPI.normalizeTrendingData] on an array returns one entry
    for each payload, in order: it drops nothing.  The entry of a falsy
    payload is [null], and the entry of a payload without a name field
    is a record named ["Unknown"]. *)
Theorem normalizeTrendingData_keeps_all (clock : nat -> Z) (payloads : list value)
  (out : list (option StockAPI.Quote)) :
  StockAPI.normalizeTrendingData clock (VArr payloads) = Return out ->
  List.length out = List.length payloads
  /\ (forall n raw, nth_error payloads n = Some raw -> truthy raw = false ->
        nth_error out n = Some None)
  /\ (forall n raw, nth_error payloads n = Some raw -> truthy raw = true ->
        fieldless raw ->
        exists q, nth_error out n = Some (Some q) /\ StockAPI.name q = ustr "Unknown").
Proof.
  unfold StockAPI.normalizeTrendingData. cbn [truthy negb get bind].
  intros H. split; [now apply map_outcome_length in H | split].
  - intros n raw Hn Hf. destruct (map_outcome_nth _ _ _ _ H n raw Hn) as [y [Hy Hr]].
    unfold StockAPI.normalizeStockData in Hr. rewrite Hf in Hr. simpl in Hr.
    inversion Hr. now subst y.
  - intros n raw Hn Ht Hfl. destruct (map_outcome_nth _ _ _ _ H n raw Hn) as [y [Hy Hr]].
    unfold fieldless in Hfl. unfold StockAPI.normalizeStockData in Hr.
    rewrite Ht, !Hfl in Hr. simpl in Hr. inversion Hr. subst y.
    eexists. split; [exact Hy | reflexivity].
Qed.

(** X9 on the array of [null] and [{}]. *)
Lemma normalizeTrendingData_keeps_all_witness :
  exists out, StockAPI.normalizeTrendingData (fun _ => 0%Z) (VArr [VNull; nameless])
              = Return out
              /\ List.length out = 2%nat /\ nth_error out 0 = Some None.
Proof.
  eexists. split; [reflexivity |].
  destruct (normalizeTrendingData_keeps_all (fun _ => 0%Z) [VNull; nameless] _ eq_refl)
    as [H1 [H2 _]].
  split; [exact H1 |]. apply (H2 0%nat VNull); reflexivity.
Defined.

End ResponsesAndFilters.

(** ** More on the selection *)

Section SelectionExtras.

Lemma splice_first_NoDup (p : Stock -> bool) (l : list Stock) :
  NoDup (map symbol l) -> NoDup (map symbol (splice_first p l)).
Proof.
  induction l as [| x l IH]; simpl; [auto |]. intros H. inversion H; subst.
  destruct (p x); [assumption |]. simpl. constructor; [| auto].
  intros Hin. apply H2. clear -Hin. induction l as [| y l IH]; simpl in *; [tauto |].
  destruct (p y); simpl in *; tauto.
Qed.

Lemma splice_first_removes (sym : jsstring) (l : list Stock) :
  NoDup (map symbol l) -> ~ In sym (map symbol (splice_first (has_symbol sym) l)).
Proof.
  induction l as [| x l IH]; simpl; [tauto |]. intros H. inversion H; subst.
  destruct (has_symbol sym x) eqn:E.
  - apply has_symbol_true in E. now subst.
  - simpl. intros [F | F]; [| now apply IH].
    apply has_symbol_true in F. congruence.
Qed.

Lemma NoDup_push (sym : jsstring) (l : list Stock) (x : Stock) :
  NoDup (map symbol l) -> existsb (has_symbol sym) l = false -> symbol x = sym ->
  NoDup (map symbol (l ++ [x])).
Proof.
  intros Hn He Hx. rewrite map_app. simpl.
  assert (Hni : ~ In sym (map symbol l)).
  { intros Hin. apply existsb_has_symbol in Hin. congruence. }
  subst sym. clear He. induction l as [| y l IH]; simpl.
  - constructor; [tauto | constructor].
  - inversion Hn; subst. simpl in Hni. constructor.
    + rewrite in_app_iff. simpl. intros [F | [F | []]]; [auto | ].
      apply Hni. now left.
    + apply IH; tauto.
Qed.

Lemma app_find_stock_symbol (s : App.State) (sym : jsstring) (stock : Stock) :
  App.find_stock s sym = Some stock -> symbol stock = sym.
Proof.
  unfold App.find_stock. destruct (find (has_symbol sym) (App.stocks s)) eqn:E.
  - intros H. inversion H; subst. now apply find_has_symbol in E.
  - intros H. now apply find_has_symbol in H.
Qed.

Lemma app_step_NoDup (a : App.Action) (w : App.World) :
  NoDup (app_symbols w) -> NoDup (app_symbols (App.step a w)).
Proof.
  unfold app_symbols. intros H.
  assert (Hadd : forall sym, NoDup (map symbol (App.selectedStocks
                                (App.state (fst (App.addStock sym w)))))).
  { intros sym. unfold App.addStock.
    destruct (App.find_stock (App.state w) sym) as [stock |] eqn:Ef; [| exact H].
    destruct (maxStocks <=? List.length (App.selectedStocks (App.state w)))%nat; [exact H |].
    destruct (existsb (has_symbol sym) (App.selectedStocks (App.state w))) eqn:Ee;
      [exact H |].
    simpl. apply (NoDup_push sym); auto. now apply app_find_stock_symbol in Ef. }
  assert (Hrem : forall sym, NoDup (map symbol (App.selectedStocks
                                (App.state (fst (App.removeStock sym w)))))).
  { intros sym. unfold App.removeStock.
    destruct (find (has_symbol sym) (App.selectedStocks (App.state w))); [| exact H].
    simpl. now apply splice_first_NoDup. }
  destruct a as [sym | sym | sym | | |]; simpl.
  - apply Hadd.
  - apply Hrem.
  - unfold App.toggleStock. destruct (App.find_stock (App.state w) sym); [| exact H].
    destruct (existsb (has_symbol sym) (App.selectedStocks (App.state w)));
      [apply Hrem | apply Hadd].
  - constructor.
  - unfold App.selectCaptain.
    destruct (List.length (App.selectedStocks (App.state w)) <? 1)%nat; [exact H |].
    destruct (find _ _); exact H.
  - unfold App.selectViceCaptain.
    destruct (List.length (App.selectedStocks (App.state w)) <? 2)%nat; [exact H |].
    destruct (find _ _); exact H.
Qed.

Lemma sq_step_NoDup (a : StockQuest.Action) (w : StockQuest.World) :
  NoDup (sq_symbols w) -> NoDup (sq_symbols (StockQuest.step a w)).
Proof.
  unfold sq_symbols. intros H.
  assert (Hadd : forall sym, NoDup (map symbol (StockQuest.selectedStocks
                                (StockQuest.state (fst (StockQuest.addStock sym w)))))).
  { intros sym. unfold StockQuest.addStock.
    destruct (find (has_symbol sym) (StockQuest.stocks (StockQuest.state w)))
      as [stock |] eqn:Ef; [| exact H].
    destruct (maxStocks <=? List.length (StockQuest.selectedStocks (StockQuest.state w)))%nat;
      [exact H |].
    destruct (existsb (has_symbol sym) (StockQuest.selectedStocks (StockQuest.state w)))
      eqn:Ee; [exact H |].
    simpl. apply (NoDup_push sym); auto. now apply find_has_symbol in Ef. }
  assert (Hrem : forall sym, NoDup (map symbol (StockQuest.selectedStocks
                                (StockQuest.state (fst (StockQuest.removeStock sym w)))))).
  { intros sym. unfold StockQuest.removeStock.
    destruct (find (has_symbol sym) (StockQuest.selectedStocks (StockQuest.state w)));
      [| exact H].
    simpl. now apply splice_first_NoDup. }
  destruct a as [sym | sym | sym | | sym | sym]; simpl.
  - apply Hadd.
  - apply Hrem.
  - unfold StockQuest.toggleStock.
    destruct (find (has_symbol sym) (StockQuest.stocks (StockQuest.state w))); [| exact H].
    destruct (existsb (has_symbol sym) (StockQuest.selectedStocks (StockQuest.state w)));
      [apply Hrem | apply Hadd].
  - constructor.
  - exact H.
  - unfold StockQuest.setViceCaptain.
    destruct (role_is (StockQuest.captain (StockQuest.state w)) sym); exact H.
Qed.

(** X10.  No symbol is selected twice: in every state reachable in
    app.js or in stockquest.js, whatever symbols the handlers are
    called with, the symbols of the selected stocks are pairwise
    different. *)
Theorem selection_has_no_duplicates :
  (forall w, App.reachable w -> NoDup (app_symbols w))
  /\ (forall w, StockQuest.reachable w -> NoDup (sq_symbols w)).
Proof.
  split.
  - induction 1 as [w [Hs _] | w a _ IH | w w' _ IH Es _ _].
    + unfold app_symbols. rewrite Hs. constructor.
    + now apply app_step_NoDup.
    + unfold app_symbols in *. now rewrite Es.
  - induction 1 as [w [Hs _] | w a _ IH | w w' _ IH Es _ _].
    + unfold sq_symbols. rewrite Hs. constructor.
    + now apply sq_step_NoDup.
    + unfold sq_symbols in *. now rewrite Es.
Qed.

(** X10 on the page reached by adding TCS, adding INFY and adding TCS
    again. *)
Lemma selection_has_no_duplicates_witness :
  NoDup (app_symbols (App.step (App.AddStock TCS) pair_page))
  /\ app_symbols (App.step (App.AddStock TCS) pair_page) = [TCS; INFY].
Proof.
  split; [| reflexivity].
  apply (proj1 selection_has_no_duplicates).
  unfold pair_page. do 3 apply App.reach_step. apply App.reach_initial. repeat split.
Defined.

(** X11.  [toggleStock] on a symbol of the catalogue flips whether the
    symbol is selected, in every reachable state of app.js in which the
    symbol is selected or fewer than 11 stocks are; on 11 stocks it
    leaves a symbol that is not selected out.  On a symbol that is not
    in the catalogue it does nothing, even when the symbol is
    selected. *)
Theorem toggleStock_flips (sym : jsstring) (w : App.World) :
  App.reachable w ->
  (forall stock, App.find_stock (App.state w) sym = Some stock ->
     (In sym (app_symbols w) \/ (app_size w < 11)%nat ->
      (In sym (app_symbols (fst (App.toggleStock sym w))) <-> ~ In sym (app_symbols w)))
     /\ (~ In sym (app_symbols w) -> (11 <= app_size w)%nat ->
         fst (App.toggleStock sym w) = w))
  /\ (App.find_stock (App.state w) sym = None -> App.toggleStock sym w = (w, [])).
Proof.
  intros Hr. pose proof (proj1 selection_has_no_duplicates w Hr) as Hnd.
  unfold app_symbols, app_size in *. split.
  - intros stock Ef. unfold App.toggleStock. rewrite Ef.
    destruct (existsb (has_symbol sym) (App.selectedStocks (App.state w))) eqn:Ee.
    + assert (Hin : In sym (map symbol (App.selectedStocks (App.state w))))
        by now apply existsb_has_symbol.
      split; [| tauto]. intros _. unfold App.removeStock.
      destruct (find (has_symbol sym) (App.selectedStocks (App.state w))) eqn:E.
      * simpl. split; [intros F; exfalso; revert F; now apply splice_first_removes | tauto].
      * apply find_none_not_selected in E. tauto.
    + assert (Hni : ~ In sym (map symbol (App.selectedStocks (App.state w)))).
      { intros F. apply existsb_has_symbol in F. congruence. }
      unfold App.addStock. rewrite Ef, Ee. split.
      * intros [F | Hlt]; [tauto |].
        assert (El : (maxStocks <=? List.length (App.selectedStocks (App.state w)))%nat
                     = false) by (apply Nat.leb_gt; unfold maxStocks; lia).
        rewrite El. simpl. split; [tauto | intros _].
        rewrite map_app, in_app_iff. right. simpl. left.
        now apply app_find_stock_symbol in Ef.
      * intros _ Hge.
        assert (El : (maxStocks <=? List.length (App.selectedStocks (App.state w)))%nat
                     = true) by (apply Nat.leb_le; unfold maxStocks; lia).
        now rewrite El.
  - intros Ef. unfold App.toggleStock. now rewrite Ef.
Qed.

(** X11 on the page with TCS and INFY selected, where TCS is toggled. *)
Lemma toggleStock_flips_witness :
  ~ In TCS (app_symbols (fst (App.toggleStock TCS pair_page))).
Proof.
  assert (Hr : App.reachable pair_page).
  { unfold pair_page. do 2 apply App.reach_step. apply App.reach_initial. repeat split. }
  destruct (toggleStock_flips TCS pair_page Hr) as [H _].
  destruct (H (stock_of "TCS" 1000) eq_refl) as [Hflip _].
  assert (Hin : In TCS (app_symbols pair_page)) by (vm_compute; tauto).
  intros F. apply (proj1 (Hflip (or_introl Hin)) F). exact Hin.
Defined.

Lemma find_not_role_exists (role : option jsstring) (l : list Stock) :
  NoDup (map symbol l) -> (2 <= List.length l)%nat ->
  exists s, find (App.not_role role) l = Some s.
Proof.
  destruct l as [| a [| b l]]; simpl; try lia. intros Hn _.
  unfold App.not_role at 1. destruct (role_is role (symbol a)) eqn:Ea; simpl; [| eauto].
  unfold App.not_role at 1. destruct (role_is role (symbol b)) eqn:Eb; simpl; [| eauto].
  apply role_is_true in Ea. apply role_is_true in Eb.
  inversion Hn; subst. exfalso. apply H1. left. congruence.
Qed.

(** X12.  In a reachable state of app.js with at least two selected
    stocks, [selectCaptain] followed by [selectViceCaptain] leaves both
    roles assigned, to two different selected symbols.  On a selection
    whose only stock is the vice-captain, [selectCaptain] does nothing
    and shows no toast. *)
Theorem select_both_roles (w : App.World) :
  App.reachable w ->
  ((2 <= app_size w)%nat ->
   exists c v,
     App.captain (App.state (App.step App.SelectViceCaptain (App.step App.SelectCaptain w)))
     = Some c
     /\ App.viceCaptain
          (App.state (App.step App.SelectViceCaptain (App.step App.SelectCaptain w)))
        = Some v
     /\ c <> v
     /\ In c (app_symbols w) /\ In v (app_symbols w))
  /\ (forall s, App.selectedStocks (App.state w) = [s] ->
        App.viceCaptain (App.state w) = Some (symbol s) ->
        App.selectCaptain w = (w, [])).
Proof.
  intros Hr. pose proof (proj1 selection_has_no_duplicates w Hr) as Hnd.
  unfold app_symbols, app_size in *. split.
  - intros H2. simpl. unfold App.selectCaptain.
    assert (E1 : (List.length (App.selectedStocks (App.state w)) <? 1)%nat = false)
      by (apply Nat.ltb_ge; lia).
    assert (E2 : (List.length (App.selectedStocks (App.state w)) <? 2)%nat = false)
      by (apply Nat.ltb_ge; lia).
    rewrite E1.
    destruct (find_not_role_exists (App.viceCaptain (App.state w)) _ Hnd H2) as [a Ea].
    rewrite Ea. simpl. unfold App.selectViceCaptain. simpl. rewrite E2.
    destruct (find_not_role_exists (Some (symbol a)) _ Hnd H2) as [b Eb].
    rewrite Eb. simpl. exists (symbol a), (symbol b).
    apply find_not_role in Ea. apply find_not_role in Eb.
    destruct Ea as [Ha _], Eb as [Hb Hne]. repeat split; auto. congruence.
  - intros s Es Ev. unfold App.selectCaptain. rewrite Es, Ev. simpl.
    unfold App.not_role. simpl.
    assert (E : jsstring_eqb (symbol s) (symbol s) = true) by now apply jsstring_eqb_true.
    now rewrite E.
Qed.

(** X12 on the page with TCS and INFY selected, and on the page whose
    only stock is the vice-captain. *)
Lemma select_both_roles_witness :
  (exists c v,
     App.captain
       (App.state (App.step App.SelectViceCaptain (App.step App.SelectCaptain pair_page)))
     = Some c
     /\ App.viceCaptain
          (App.state (App.step App.SelectViceCaptain (App.step App.SelectCaptain pair_page)))
        = Some v
     /\ c <> v)
  /\ App.selectCaptain infy_vice_page = (infy_vice_page, []).
Proof.
  split.
  - assert (Hr : App.reachable pair_page).
    { unfold pair_page. do 2 apply App.reach_step. apply App.reach_initial. repeat split. }
    destruct (select_both_roles pair_page Hr) as [H _].
    destruct H as [c [v [Hc [Hv [Hne _]]]]]; [vm_compute; lia |].
    exists c, v. auto.
  - assert (Hr : App.reachable infy_vice_page).
    { apply (App.reach_elsewhere
               (App.step (App.RemoveStock TCS)
                  (App.step App.SelectViceCaptain
                     (App.step App.SelectCaptain pair_page)))).
      - unfold pair_page. do 5 apply App.reach_step. apply App.reach_initial. repeat split.
      - reflexivity.
      - reflexivity.
      - reflexivity. }
    destruct (select_both_roles infy_vice_page Hr) as [_ H].
    apply (H (stock_of "INFY" 1000)); reflexivity.
Defined.

End SelectionExtras.

(** ** More on the submission *)

Section SubmissionExtras.

Lemma fold_add_nan {A : Type} (f : A -> num) (l : list A) :
  fold_left (fun sum x => num_add sum (f x)) l NaN = NaN.
Proof. induction l as [| x l IH]; simpl; auto. Qed.

Lemma fold_add_nan_term {A : Type} (f : A -> num) (l : list A) (x : A) (a : num) :
  In x l -> f x = NaN -> fold_left (fun sum x => num_add sum (f x)) l a = NaN.
Proof.
  revert a. induction l as [| y l IH]; simpl; [tauto |]. intros a [E | Hin] Hx.
  - subst y. rewrite Hx. replace (num_add a NaN) with NaN by now destruct a.
    apply fold_add_nan.
  - now apply IH.
Qed.

Lemma totalCost_nan (sel : list Stock) (s : Stock) :
  In s sel -> price s = NaN -> totalCost sel = NaN.
Proof.
  intros Hin Hp. unfold totalCost.
  apply (fold_add_nan_term (fun s => num_mul (price s) 10%Z) sel s); [exact Hin |].
  now rewrite Hp.
Qed.

Lemma nan_guard (cost bal : num) :
  bal = NaN \/ cost = NaN -> num_gtb cost bal = false /\ num_sub bal cost = NaN.
Proof.
  intros [E | E]; subst; split; try reflexivity; now destruct cost || now destruct bal.
Qed.

Lemma canCreate_guards (n : nat) (cap vc : option jsstring) :
  (minStocks <=? n)%nat && role_set cap && role_set vc = true ->
  (n <? minStocks)%nat = false /\ role_set cap = true /\ role_set vc = true.
Proof.
  intros H. apply andb_prop in H. destruct H as [H Hv]. apply andb_prop in H.
  destruct H as [Hn Hc]. repeat split; auto.
  apply Nat.leb_le in Hn. apply Nat.ltb_ge. exact Hn.
Qed.

Lemma app_createPortfolio_accepts (w : App.World) (u : App.User) :
  App.canCreate (App.state w) = true ->
  num_gtb (app_cost w) (app_balance w) = false ->
  App.user (App.state w) = Some u -> App.database w = true ->
  App.createPortfolio w
  = (w, [], Some (App.AwaitCreatePortfolio (app_cost w)
                    (App.Database_createPortfolio (App.uid u)
                       (holdings (App.selectedStocks (App.state w)))
                       (App.captain (App.state w)) (App.viceCaptain (App.state w))
                       (app_cost w)))).
Proof.
  unfold App.canCreate, app_cost, app_balance, App.createPortfolio.
  intros Hc Hg Hu Hd. apply canCreate_guards in Hc. destruct Hc as [Hn [Hcap Hvc]].
  now rewrite Hn, Hcap, Hvc, Hg, Hu, Hd.
Qed.

Lemma settle_done (rs : list App.Settled) (w : App.World) (ts : list Toast) :
  App.settle rs (w, ts, None) = (w, ts, None).
Proof. now destruct rs. Qed.

(** X13.  A selected stock whose price is [NaN], or a balance that is
    [NaN], defeats the balance guard of [createPortfolio]: the
    comparison [totalCost > state.balance] is false, so a complete team
    is accepted whatever it costs and the balance becomes [NaN], in
    stockquest.js and, when the three store calls succeed, in app.js.
    From then on every complete team passes the guard. *)
Theorem unpriced_stock_defeats_balance_guard :
  (forall now date w,
     StockQuest.canCreate (StockQuest.state w) = true ->
     (sq_balance w = NaN
      \/ exists s, In s (StockQuest.selectedStocks (StockQuest.state w)) /\ price s = NaN) ->
     snd (StockQuest.createPortfolio now date w)
     = showToast "Portfolio created successfully!" success
     /\ sq_balance (fst (StockQuest.createPortfolio now date w)) = NaN
     /\ StockQuest.stockquest_balance
          (StockQuest.localStorage (fst (StockQuest.createPortfolio now date w)))
        = Some NaN
     /\ StockQuest.selectedStocks
          (StockQuest.state (fst (StockQuest.createPortfolio now date w))) = [])
  /\ (forall w u,
        App.canCreate (App.state w) = true ->
        App.user (App.state w) = Some u -> App.database w = true ->
        (app_balance w = NaN
         \/ exists s, In s (App.selectedStocks (App.state w)) /\ price s = NaN) ->
        snd (fst (App.createPortfolio_run all_resolved w))
        = showToast "Portfolio created successfully!" success
        /\ app_balance (fst (fst (App.createPortfolio_run all_resolved w))) = NaN
        /\ List.length (App.portfolios (App.db (fst (fst (App.createPortfolio_run
                                                          all_resolved w)))))
           = S (List.length (App.portfolios (App.db w)))).
Proof.
  split.
  - intros now date w Hc Hn.
    assert (Hg : num_gtb (sq_cost w) (sq_balance w) = false
                 /\ num_sub (sq_balance w) (sq_cost w) = NaN).
    { apply nan_guard. destruct Hn as [E | [s [Hin Hp]]]; [now left | right].
      now apply (totalCost_nan _ s). }
    destruct Hg as [Hg Hs]. unfold sq_cost, sq_balance in *.
    unfold StockQuest.canCreate in Hc. apply canCreate_guards in Hc.
    destruct Hc as [Hl [Hcap Hvc]].
    unfold StockQuest.createPortfolio. rewrite Hl, Hcap, Hvc, Hg. simpl.
    rewrite Hs. repeat split.
  - intros w u Hc Hu Hd Hn.
    assert (Hg : num_gtb (app_cost w) (app_balance w) = false
                 /\ num_sub (app_balance w) (app_cost w) = NaN).
    { apply nan_guard. destruct Hn as [E | [s [Hin Hp]]]; [now left | right].
      now apply (totalCost_nan _ s). }
    destruct Hg as [Hg Hs].
    unfold App.createPortfolio_run, all_resolved.
    rewrite (app_createPortfolio_accepts w u Hc Hg Hu Hd).
    unfold app_balance in *. simpl. rewrite Hu. simpl. rewrite Hu. simpl.
    rewrite Hs. repeat split. rewrite length_app. simpl. lia.
Qed.

(** X13 on the team of four stocks of price 1000 and one stock whose
    price did not parse. *)
Lemma unpriced_stock_defeats_balance_guard_witness :
  sq_balance (fst (StockQuest.createPortfolio 0 0 sq_unpriced_page)) = NaN.
Proof.
  assert (Hc : StockQuest.canCreate (StockQuest.state sq_unpriced_page) = true)
    by reflexivity.
  assert (Hn : sq_balance sq_unpriced_page = NaN
               \/ exists s, In s (StockQuest.selectedStocks
                                    (StockQuest.state sq_unpriced_page))
                            /\ price s = NaN).
  { right. exists unpriced. split; [simpl; tauto | reflexivity]. }
  pose proof (proj1 unpriced_stock_defeats_balance_guard 0%Z 0%Z sq_unpriced_page Hc Hn)
    as [_ [H _]].
  exact H.
Defined.

Lemma renderTeamList_consistent (w : App.World) :
  button_consistent (App.renderTeamList w).
Proof.
  unfold button_consistent, App.renderTeamList, App.canCreate. simpl.
  now destruct (App.selectedStocks (App.state w)).
Qed.

(** X15.  The submit button of app.js follows [canCreate]: if its
    [disabled] flag is [!canCreate] it remains so after every action on
    the selection and after every segment of [createPortfolio].  In
    particular a suspended [createPortfolio] leaves the button of a
    complete team enabled. *)
Theorem button_follows_canCreate (w : App.World) :
  button_consistent w ->
  (forall a, button_consistent (App.step a w))
  /\ button_consistent (fst (fst (App.createPortfolio w)))
  /\ (forall r p, button_consistent (fst (fst (App.resume r p w))))
  /\ (forall p, snd (App.createPortfolio w) = Some p ->
        App.createBtnDisabled (fst (fst (App.createPortfolio w))) = false).
Proof.
  intros Hb.
  assert (Hadd : forall sym, button_consistent (fst (App.addStock sym w))).
  { intros sym. unfold App.addStock. destruct (App.find_stock (App.state w) sym); [| exact Hb].
    destruct (maxStocks <=? _)%nat; [exact Hb |].
    destruct (existsb _ _); [exact Hb | apply renderTeamList_consistent]. }
  assert (Hrem : forall sym, button_consistent (fst (App.removeStock sym w))).
  { intros sym. unfold App.removeStock. destruct (find _ _); [| exact Hb].
    apply renderTeamList_consistent. }
  assert (Hcp : fst (fst (App.createPortfolio w)) = w).
  { destruct (app_createPortfolio_cases w)
      as [[_ [ts [_ E]]] | [[_ [_ E]] | [_ [_ [E | [u [_ [_ E]]]]]]]]; now rewrite E. }
  split; [| split; [| split]].
  - intros [sym | sym | sym | | |]; simpl.
    + apply Hadd.
    + apply Hrem.
    + unfold App.toggleStock. destruct (App.find_stock (App.state w) sym); [| exact Hb].
      destruct (existsb _ _); [apply Hrem | apply Hadd].
    + apply renderTeamList_consistent.
    + unfold App.selectCaptain. destruct (_ <? 1)%nat; [exact Hb |].
      destruct (find _ _); [apply renderTeamList_consistent | exact Hb].
    + unfold App.selectViceCaptain. destruct (_ <? 2)%nat; [exact Hb |].
      destruct (find _ _); [apply renderTeamList_consistent | exact Hb].
  - now rewrite Hcp.
  - intros [| msg] p; [| exact Hb].
    destruct p as [tc doc | uid b | uid nm]; simpl.
    + destruct (App.user (App.state w)); exact Hb.
    + destruct (App.user (App.state w)); exact Hb.
    + apply renderTeamList_consistent.
  - intros p Hp. rewrite Hcp. unfold button_consistent in Hb. rewrite Hb.
    destruct (app_createPortfolio_cases w)
      as [[_ [ts [_ E]]] | [[_ [_ E]] | [Hc [_ [E | [u [_ [_ E]]]]]]]];
      rewrite E in Hp; try discriminate.
    now rewrite Hc.
Qed.

(** X15 on the page with a complete team. *)
Lemma button_follows_canCreate_witness :
  App.createBtnDisabled (fst (fst (App.createPortfolio valid_team_page))) = false
  /\ button_consistent (App.step App.ClearTeam valid_team_page).
Proof.
  assert (Hb : button_consistent valid_team_page) by reflexivity.
  destruct (button_follows_canCreate valid_team_page Hb) as [Hs [_ [_ Hp]]].
  split; [| apply Hs].
  destruct (snd (App.createPortfolio valid_team_page)) as [p |] eqn:E.
  - now apply (Hp p).
  - vm_compute in E. discriminate.
Defined.

(** X16.  The hint that [updateInvestmentProgress] writes under the
    progress bar reads "Ready to create portfolio" exactly when
    [canCreate] holds; with fewer than 5 stocks it asks for the missing
    number, in the singular for one stock, whatever the roles are. *)
Theorem hint_ready_iff_canCreate (s : App.State) :
  (App.minRequired_text s = str "Ready to create portfolio" <-> App.canCreate s = true)
  /\ (List.length (App.selectedStocks s) = 4%nat ->
      App.minRequired_text s = str "Select 1 more stock")
  /\ (App.selectedStocks s = [] -> App.minRequired_text s = str "Select 5 more stocks").
Proof.
  unfold App.minRequired_text, App.canCreate. split; [| split].
  - destruct (List.length (App.selectedStocks s) <? minStocks)%nat eqn:El.
    + assert (El' : (minStocks <=? List.length (App.selectedStocks s))%nat = false).
      { apply Nat.leb_gt. now apply Nat.ltb_lt in El. }
      rewrite El'. simpl. split; discriminate.
    + assert (El' : (minStocks <=? List.length (App.selectedStocks s))%nat = true).
      { apply Nat.leb_le. now apply Nat.ltb_ge in El. }
      rewrite El'.
      destruct (role_set (App.captain s)), (role_set (App.viceCaptain s)); simpl;
        split; try discriminate; reflexivity.
  - intros E. rewrite E. reflexivity.
  - intros E. rewrite E. reflexivity.
Qed.

(** X16 on the state of the page with four selected stocks. *)
Lemma hint_ready_iff_canCreate_witness :
  App.minRequired_text (App.state four_stock_page) = str "Select 1 more stock".
Proof.
  destruct (hint_ready_iff_canCreate (App.state four_stock_page)) as [_ [H _]].
  apply H. reflexivity.
Defined.

End SubmissionExtras.

(** ** Search, the response cache and the theme *)

Section PageExtras.

Lemma find_has_symbol_none (sym : jsstring) (l : list Stock) :
  find (has_symbol sym) l = None -> ~ In sym (map symbol l).
Proof. apply find_none_not_selected. Qed.

Lemma app_addStock_selects (sym : jsstring) (w : App.World) (x : Stock) :
  App.find_stock (App.state w) sym = Some x ->
  (List.length (App.selectedStocks (App.state w)) < 11)%nat ->
  ~ In sym (map symbol (App.selectedStocks (App.state w))) ->
  App.selectedStocks (App.state (fst (App.addStock sym w)))
  = App.selectedStocks (App.state w) ++ [x].
Proof.
  intros Hf Hlt Hni.
  assert (El : (maxStocks <=? List.length (App.selectedStocks (App.state w)))%nat = false)
    by (apply Nat.leb_gt; unfold maxStocks; lia).
  assert (Ee : existsb (has_symbol sym) (App.selectedStocks (App.state w)) = false).
  { destruct (existsb _ _) eqn:Ee; [| reflexivity].
    apply existsb_has_symbol in Ee. tauto. }
  unfold App.addStock. now rewrite Hf, El, Ee.
Qed.

(** X17.  After a successful [searchAll] the grid shows the stock found
    and its symbol is in the catalogue, whose symbols stay pairwise
    different.  When the catalogue already had a stock of that symbol,
    the catalogue keeps its own record: [addStock] on the symbol shown
    selects the record of the catalogue, not the one found.  When it
    had none, [addStock] selects the stock found. *)
Theorem search_keeps_catalogue_record (stock : Stock) (w : App.World) :
  let w' := fst (App.searchAll_found stock w) in
  App.filteredStocks (App.state w') = [stock]
  /\ In (symbol stock) (app_catalogue_symbols w')
  /\ (NoDup (app_catalogue_symbols w) -> NoDup (app_catalogue_symbols w'))
  /\ ((app_size w < 11)%nat -> ~ In (symbol stock) (app_symbols w) ->
      (forall old,
         find (has_symbol (symbol stock)) (App.stocks (App.state w)) = Some old ->
         App.selectedStocks (App.state (fst (App.addStock (symbol stock) w')))
         = App.selectedStocks (App.state w) ++ [old])
      /\ (find (has_symbol (symbol stock)) (App.stocks (App.state w)) = None ->
          App.selectedStocks (App.state (fst (App.addStock (symbol stock) w')))
          = App.selectedStocks (App.state w) ++ [stock])).
Proof.
  cbv zeta. unfold app_catalogue_symbols, app_size, app_symbols, App.searchAll_found.
  assert (Hself : has_symbol (symbol stock) stock = true) by now apply has_symbol_true.
  simpl. split; [reflexivity |]. split; [| split].
  - destruct (find (has_symbol (symbol stock)) (App.stocks (App.state w))) as [old |] eqn:E.
    + apply find_has_symbol in E. destruct E as [Hin Hs]. rewrite <- Hs.
      now apply in_map.
    + simpl. now left.
  - intros Hn.
    destruct (find (has_symbol (symbol stock)) (App.stocks (App.state w))) as [old |] eqn:E;
      [exact Hn |].
    simpl. constructor; [now apply find_has_symbol_none | exact Hn].
  - intros Hlt Hni. split.
    + intros old E. rewrite E.
      match goal with
      | |- App.selectedStocks (App.state (fst (App.addStock _ ?W))) = _ =>
          rewrite (app_addStock_selects (symbol stock) W old)
      end; [reflexivity | | exact Hlt | exact Hni].
      unfold App.find_stock. cbn [App.state App.set_state App.stocks]. now rewrite E.
    + intros E. rewrite E.
      match goal with
      | |- App.selectedStocks (App.state (fst (App.addStock _ ?W))) = _ =>
          rewrite (app_addStock_selects (symbol stock) W stock)
      end; [reflexivity | | exact Hlt | exact Hni].
      unfold App.find_stock. cbn [App.state App.set_state App.stocks find].
      now rewrite Hself.
Qed.

(** X17 on the fresh page, whose catalogue lists TCS at 1000, after a
    search that found TCS at 2000. *)
Lemma search_keeps_catalogue_record_witness :
  map price
    (App.selectedStocks
       (App.state (fst (App.addStock TCS (fst (App.searchAll_found tcs_repriced fresh_page))))))
  = [Fin (inject_Z 1000)]
  /\ map price (App.filteredStocks (App.state (fst (App.searchAll_found tcs_repriced fresh_page))))
     = [Fin (inject_Z 2000)].
Proof.
  pose proof (search_keeps_catalogue_record tcs_repriced fresh_page) as H.
  cbv zeta in H. destruct H as [Hf [_ [_ H]]].
  assert (Hlt : (app_size fresh_page < 11)%nat) by (vm_compute; lia).
  assert (Hni : ~ In (symbol tcs_repriced) (app_symbols fresh_page)) by (vm_compute; tauto).
  destruct (H Hlt Hni) as [Hold _].
  assert (E : find (has_symbol (symbol tcs_repriced)) (App.stocks (App.state fresh_page))
              = Some (stock_of "TCS" 1000)) by reflexivity.
  split.
  - change TCS with (symbol tcs_repriced). rewrite (Hold _ E). reflexivity.
  - rewrite Hf. reflexivity.
Defined.

Lemma cache_get_set (key : jsstring) (e : StockAPI.Cached) (c : StockAPI.Cache) :
  StockAPI.cache_get key (StockAPI.cache_set key e c) = Some e.
Proof.
  unfold StockAPI.cache_set. simpl.
  assert (E : jsstring_eqb key key = true) by now apply jsstring_eqb_true.
  now rewrite E.
Qed.

Lemma cache_get_other (key key' : jsstring) (e : StockAPI.Cached) (c : StockAPI.Cache) :
  key' <> key ->
  StockAPI.cache_get key' (StockAPI.cache_set key e c) = StockAPI.cache_get key' c.
Proof.
  intros Hne. unfold StockAPI.cache_set. simpl.
  destruct (jsstring_eqb key' key) eqn:E; [| reflexivity].
  apply jsstring_eqb_true in E. contradiction.
Qed.

Lemma request_fetched (now later : Z) (key : jsstring) (c : StockAPI.Cache) (json : value) :
  snd (StockAPI.request now later (StockAPI.Body json) key c) = true ->
  StockAPI.request now later (StockAPI.Body json) key c
  = (Return json, StockAPI.cache_set key (StockAPI.mkCached json later) c, true).
Proof.
  unfold StockAPI.request. destruct (StockAPI.cache_get key c) as [e |]; [| reflexivity].
  destruct (now - StockAPI.timestamp e <? StockAPI.cacheTimeout)%Z; [discriminate |].
  reflexivity.
Qed.

(** X18.  The response cache of [StockAPI.request].  Once a request has
    fetched a response and stored it at the clock reading [later], every
    request with the same key made less than five minutes after [later]
    returns that response without calling [fetch], whatever the network
    would answer, and leaves the cache as it is; from five minutes on
    the request calls [fetch] again, and when that fails it throws: the
    stored response is not served.  The bindings of the other keys are
    untouched, and a request that fails never changes the cache. *)
Theorem cached_response_served (now later : Z) (key : jsstring) (c : StockAPI.Cache)
  (json : value) :
  snd (StockAPI.request now later (StockAPI.Body json) key c) = true ->
  let c1 := snd (fst (StockAPI.request now later (StockAPI.Body json) key c)) in
  (forall now' later' net',
     (now' - later < StockAPI.cacheTimeout)%Z ->
     StockAPI.request now' later' net' key c1 = (Return json, c1, false))
  /\ (forall now' later' net',
        (StockAPI.cacheTimeout <= now' - later)%Z ->
        (forall j, net' <> StockAPI.Body j) ->
        StockAPI.request now' later' net' key c1 = (Throw, c1, true))
  /\ (forall now' later' json',
        (StockAPI.cacheTimeout <= now' - later)%Z ->
        fst (fst (StockAPI.request now' later' (StockAPI.Body json') key c1)) = Return json')
  /\ (forall key', key' <> key -> StockAPI.cache_get key' c1 = StockAPI.cache_get key' c)
  /\ (forall now' later' net' key' c',
        (forall j, net' <> StockAPI.Body j) ->
        snd (fst (StockAPI.request now' later' net' key' c')) = c').
Proof.
  intros Hf. rewrite (request_fetched _ _ _ _ _ Hf). cbv zeta. simpl fst. simpl snd.
  split; [| split; [| split; [| split]]].
  - intros now' later' net' Hlt. unfold StockAPI.request. rewrite cache_get_set. simpl.
    apply Z.ltb_lt in Hlt. now rewrite Hlt.
  - intros now' later' net' Hge Hnet. unfold StockAPI.request. rewrite cache_get_set. simpl.
    apply Z.ltb_ge in Hge. rewrite Hge.
    destruct net' as [| | | j]; try reflexivity. now destruct (Hnet j).
  - intros now' later' json' Hge. unfold StockAPI.request. rewrite cache_get_set. simpl.
    apply Z.ltb_ge in Hge. now rewrite Hge.
  - intros key' Hne. now apply cache_get_other.
  - intros now' later' net' key' c' Hnet. unfold StockAPI.request.
    destruct (StockAPI.cache_get key' c') as [e |].
    + destruct (now' - StockAPI.timestamp e <? StockAPI.cacheTimeout)%Z; [reflexivity |].
      destruct net' as [| | | j]; try reflexivity. now destruct (Hnet j).
    + destruct net' as [| | | j]; try reflexivity. now destruct (Hnet j).
Qed.

(** X18 on the empty cache: the response of [/trending] fetched at
    1000 ms is served at 300,999 ms although the network is down, and
    is not at 301,000 ms. *)
Lemma cached_response_served_witness :
  let c1 := snd (fst (StockAPI.request 1000 1000 (StockAPI.Body tata) trending_key [])) in
  StockAPI.request 300999 300999 StockAPI.FetchFails trending_key c1
  = (Return tata, c1, false)
  /\ StockAPI.request 301000 301000 StockAPI.FetchFails trending_key c1 = (Throw, c1, true).
Proof.
  assert (Hf : snd (StockAPI.request 1000 1000 (StockAPI.Body tata) trending_key []) = true)
    by reflexivity.
  pose proof (cached_response_served 1000 1000 trending_key [] tata Hf) as H.
  cbv zeta in H. destruct H as [H1 [H2 _]]. cbv zeta. split.
  - apply H1. reflexivity.
  - apply H2; [discriminate | intros j; discriminate].
Defined.

(** X19.  The theme.  After a click on the toggle the attribute
    [data-theme] is ["dark"] or ["light"] and equals the stored theme,
    so that [initTheme] on the next load changes nothing, and two more
    clicks bring the same page back.  On a first visit, with nothing
    stored, [initTheme] sets ["dark"] and the first click gives
    ["light"].  [initTheme] does not check the stored value: any
    non-empty string is set as the attribute, and the first click then
    gives ["dark"] unless the string is ["dark"]. *)
Theorem theme_toggle_round_trip (p : Theme.Page) :
  (Theme.data_theme (Theme.toggle p) = Some dark
   \/ Theme.data_theme (Theme.toggle p) = Some light)
  /\ Theme.stockquest_theme (Theme.toggle p) = Theme.data_theme (Theme.toggle p)
  /\ Theme.initTheme (Theme.toggle p) = Theme.toggle p
  /\ Theme.toggle (Theme.toggle (Theme.toggle p)) = Theme.toggle p
  /\ (Theme.stockquest_theme p = None ->
      Theme.data_theme (Theme.initTheme p) = Some dark
      /\ Theme.data_theme (Theme.toggle (Theme.initTheme p)) = Some light)
  /\ (forall c t, Theme.stockquest_theme p = Some (c :: t) ->
        Theme.data_theme (Theme.initTheme p) = Some (c :: t)
        /\ (c :: t <> dark ->
            Theme.data_theme (Theme.toggle (Theme.initTheme p)) = Some dark)).
Proof.
  assert (Hdl : jsstring_eqb light dark = false) by reflexivity.
  assert (Hdd : jsstring_eqb dark dark = true) by reflexivity.
  assert (Ht : Theme.toggle p = Theme.mkPage (Some dark) (Some dark)
               \/ Theme.toggle p = Theme.mkPage (Some light) (Some light)).
  { unfold Theme.toggle. fold dark light.
    destruct (Theme.data_theme p) as [cur |]; [| now left].
    destruct (jsstring_eqb cur dark); [now right | now left]. }
  split; [| split; [| split; [| split; [| split]]]].
  - destruct Ht as [E | E]; rewrite E; [now left | now right].
  - destruct Ht as [E | E]; now rewrite E.
  - destruct Ht as [E | E]; now rewrite E.
  - destruct Ht as [E | E]; now rewrite E.
  - intros E. unfold Theme.initTheme, Theme.storedTheme. rewrite E. split; reflexivity.
  - intros c t E. unfold Theme.initTheme, Theme.storedTheme. rewrite E.
    split; [reflexivity |]. intros Hne. unfold Theme.toggle. fold dark light.
    cbn [Theme.data_theme].
    destruct (jsstring_eqb (c :: t) dark) eqn:Eq; [| reflexivity].
    apply jsstring_eqb_true in Eq. contradiction.
Qed.

(** X19 on a first visit. *)
Lemma theme_toggle_round_trip_witness :
  Theme.data_theme (Theme.toggle (Theme.initTheme (Theme.mkPage None None))) = Some light.
Proof.
  destruct (theme_toggle_round_trip (Theme.mkPage None None)) as [_ [_ [_ [_ [H _]]]]].
  apply H. reflexivity.
Defined.

End PageExtras.

(** ** The stored portfolios *)

Section AppendOnly.

Lemma appended_refl {A : Type} (l : list A) : appended_at_most_one l l.
Proof. exists []. split; [now rewrite app_nil_r | simpl; lia]. Qed.

Lemma same_selection_refl (w : App.World) : same_selection w w.
Proof. repeat split. Qed.

(** What the rest of a call does once the document is stored: the
    documents stay, and the selection is kept or cleared. *)
Lemma settle_past_debit (rs : list App.Settled) :
  forall w ts p, past_debit p ->
    App.portfolios (App.db (fst (fst (App.settle rs (w, ts, p)))))
    = App.portfolios (App.db w)
    /\ (same_selection w (fst (fst (App.settle rs (w, ts, p))))
        \/ App.initial (fst (fst (App.settle rs (w, ts, p))))).
Proof.
  induction rs as [| r rs IH]; intros w ts p Hp.
  - simpl. split; [reflexivity | left; apply same_selection_refl].
  - destruct p as [[tc doc | uid b | uid nm] |]; simpl in Hp; try contradiction.
    + destruct r as [| msg]; simpl.
      * destruct (App.user (App.state w)) as [u |].
        -- match goal with
           | |- context [App.settle rs (?W, ?T, ?P)] =>
               destruct (IH W T P I) as [Hd Hs]
           end.
           split; [exact Hd | exact Hs].
        -- rewrite settle_done. simpl. split; [reflexivity | left; repeat split].
      * rewrite settle_done. simpl. split; [reflexivity | left; repeat split].
    + destruct r as [| msg]; simpl; rewrite settle_done; simpl.
      * split; [reflexivity |]. right. repeat split.
      * split; [reflexivity | left; repeat split].
    + simpl. split; [reflexivity | left; repeat split].
Qed.

(** X20.  The stored portfolios are only appended to.  One whole
    [createPortfolio] of app.js, however its store calls settle, leaves
    the documents already stored in place and adds at most one; it
    keeps the selection and the roles, or clears them, and it clears
    them only when it has stored a document.  In stockquest.js the
    portfolios already in the local storage stay in place, and exactly
    one is added when the call shows its success toast and none
    otherwise. *)
Theorem portfolios_are_appended (w : App.World) (sw : StockQuest.World) :
  (forall rs,
     appended_at_most_one (App.portfolios (App.db w))
       (App.portfolios (App.db (fst (fst (App.createPortfolio_run rs w)))))
     /\ (same_selection w (fst (fst (App.createPortfolio_run rs w)))
         \/ (App.initial (fst (fst (App.createPortfolio_run rs w)))
             /\ List.length (App.portfolios
                               (App.db (fst (fst (App.createPortfolio_run rs w)))))
                = S (List.length (App.portfolios (App.db w))))))
  /\ (forall now date,
        appended_at_most_one
          (StockQuest.stockquest_portfolios (StockQuest.localStorage sw))
          (StockQuest.stockquest_portfolios
             (StockQuest.localStorage (fst (StockQuest.createPortfolio now date sw))))
        /\ (snd (StockQuest.createPortfolio now date sw)
            = showToast "Portfolio created successfully!" success
            <-> List.length (StockQuest.stockquest_portfolios
                               (StockQuest.localStorage
                                  (fst (StockQuest.createPortfolio now date sw))))
                = S (List.length (StockQuest.stockquest_portfolios
                                    (StockQuest.localStorage sw))))).
Proof.
  split.
  - intros rs. unfold App.createPortfolio_run.
    destruct (app_createPortfolio_cases w)
      as [[_ [ts [_ E]]] | [[_ [_ E]] | [_ [_ [E | [u [Hu [_ E]]]]]]]];
      rewrite E; try (rewrite settle_done; simpl;
                      split; [apply appended_refl | left; apply same_selection_refl]).
    destruct rs as [| [| msg] rs].
    + simpl. split; [apply appended_refl | left; apply same_selection_refl].
    + simpl. rewrite Hu.
      match goal with
      | |- context [App.settle rs (?W, ?T, ?P)] =>
          destruct (settle_past_debit rs W T P I) as [Hd Hs]
      end.
      rewrite Hd. simpl. split.
      * eexists. split; [reflexivity | simpl; lia].
      * destruct Hs as [Hs | Hs]; [left; exact Hs | right].
        split; [exact Hs |]. rewrite length_app. simpl. lia.
    + simpl. rewrite settle_done. simpl.
      split; [apply appended_refl | left; apply same_selection_refl].
  - intros now date.
    destruct (sq_createPortfolio_cases now date sw)
      as [[_ [ts [Hin E]]] | [[_ [_ E]] | [Hc [Hg [_ Hp]]]]].
    + rewrite E. simpl. split; [apply appended_refl |]. split.
      * intros F. subst ts. exfalso. unfold incomplete_team in Hin. simpl in Hin.
        destruct Hin as [F | [F | [F | []]]]; discriminate.
      * lia.
    + rewrite E. simpl. split; [apply appended_refl |]. split; [discriminate | lia].
    + rewrite Hp. split.
      * eexists. split; [reflexivity | simpl; lia].
      * split; [intros _; rewrite length_app; simpl; lia |]. intros _.
        unfold StockQuest.canCreate in Hc. apply canCreate_guards in Hc.
        destruct Hc as [Hl [Hcap Hvc]]. unfold sq_cost, sq_balance in Hg.
        unfold StockQuest.createPortfolio. now rewrite Hl, Hcap, Hvc, Hg.
Qed.

End AppendOnly.

